(** * Crowd-flow simulation kernel: a shallow embedding and its properties

    The development follows the TypeScript sources of the simulator:
    - [utils/math.ts]        vector helpers, sampling, percentile;
    - [utils/spatialHash.ts] the uniform-grid neighbour index;
    - [utils/astar.ts]       the grid path planner and the passability raster;
    - [sim/engine.ts]        the [SimEngine] class and the sweep runner.

    Numbers.  A JavaScript [number] is modelled by an exact rational ([Q]);
    rounding of IEEE doubles (and of the [Float32Array] scores of the planner)
    is not modelled, and there is no NaN or infinity.  Values that the code
    only ever uses as integers (grid indices, counters, identifiers) are [Z].
    The transcendental functions of the host ([Math.sqrt], [Math.exp],
    [Math.log], [Math.cos]) are a parameter of the development ([JsMath]).

    Ambient state.  The engine reads [Math.random] and two module-level
    counters ([_nextId], [_ffNextId]).  They are gathered in [Ambient]; the
    pseudo-random generator is the finite tape of the values it is going to
    return, and an operation that needs more draws than the tape holds has no
    result ([None]). *)

From Stdlib Require Import QArith Qround Lqa Lia.
From stdpp Require Import base option gmap strings list list_numbers.

Open Scope Q_scope.

(** ** Numbers *)

Definition Qleb (a b : Q) : bool := Qle_bool a b.
Definition Qltb (a b : Q) : bool := negb (Qle_bool b a).
Definition Qeqb (a b : Q) : bool := Qeq_bool a b.

(** [Math.min] and [Math.max] on two numbers. *)
Definition Math_min (a b : Q) : Q := if Qleb a b then a else b.
Definition Math_max (a b : Q) : Q := if Qleb a b then b else a.
Definition Math_abs (a : Q) : Q := if Qltb a 0 then - a else a.

Definition Math_floor (a : Q) : Z := Qfloor a.
Definition Math_ceil (a : Q) : Z := Qceiling a.

(** The host's floating-point library, kept abstract. *)
Record JsMath := {
  Math_sqrt : Q → Q;
  Math_exp : Q → Q;
  Math_log : Q → Q;
  Math_cos : Q → Q;
  Math_PI : Q;
  Math_SQRT2 : Q;
}.

(** ** Arrays indexed by JavaScript numbers *)

(** [l[i]], with [d] standing for what an absent element behaves like. *)
Definition arr_get {A} (d : A) (l : list A) (i : Z) : A :=
  if (i <? 0)%Z then d else default d (l !! Z.to_nat i).

(** [l[i] = v] for an index inside the array (the code never writes outside:
    typed arrays ignore such writes, and the grids are only written under a
    range check). *)
Definition arr_set {A} (l : list A) (i : Z) (v : A) : list A :=
  if (i <? 0)%Z then l else <[Z.to_nat i := v]> l.

(** [g[r][c]]. *)
Definition grid_get {A} (d : A) (g : list (list A)) (r c : Z) : A :=
  arr_get d (arr_get [] g r) c.

(** [g[r][c] = v]. *)
Definition grid_set {A} (g : list (list A)) (r c : Z) (v : A) : list (list A) :=
  if (r <? 0)%Z then g else alter (λ row, arr_set row c v) (Z.to_nat r) g.

(** [Array.from({length: rows}, () => new Array(cols).fill(v))]. *)
Definition grid_make {A} (rows cols : Z) (v : A) : list (list A) :=
  replicate (Z.to_nat rows) (replicate (Z.to_nat cols) v).

(** The cells [(r, c)] of a [rows × cols] raster in the order of the nested
    loops [for r … for c …]. *)
Definition cells (rows cols : Z) : list (Z * Z) :=
  r ← seqZ 0 rows; c ← seqZ 0 cols; [(r, c)].

(** ** Data model ([models/types.ts]) *)

Module Vec2.
Record t := mk { x : Q; y : Q }.
End Vec2.

Module Rect.
Record t := mk { x : Q; y : Q; w : Q; h : Q }.
End Rect.

Module Wall.
Record t := mk { id : string; rect : Rect.t }.
End Wall.

Module Entrance.
Record t := mk { id : string; x : Q; y : Q; width : Q }.
End Entrance.

Module Exit.
Record t := mk { id : string; x : Q; y : Q; width : Q; capacity : Q }.
End Exit.

Module Attractor.
Record t := mk {
  id : string; x : Q; y : Q; radius : Q; weight : Q; label : string;
  serviceTime : Q; queueEnabled : bool; queueCapacity : Q;
}.
End Attractor.

Module VenueLayout.
Record t := mk {
  width : Q; height : Q;
  walls : list Wall.t;
  entrances : list Entrance.t;
  exits : list Exit.t;
  attractors : list Attractor.t;
}.
End VenueLayout.

Inductive AgentState :=
  | seeking_attractor | queuing | at_attractor | seeking_exit | evacuating | exited.

#[global] Instance AgentState_eq_dec : EqDecision AgentState.
Proof. solve_decision. Defined.

Inductive ArrivalMode := burst | linear | gaussian.

Module SimConfig.
Record t := mk {
  N : Q;
  arrivalMode : ArrivalMode;
  arrivalDuration : Q;
  speedMin : Q; speedMean : Q; speedMax : Q;
  personalSpace : Q;
  avoidanceStrength : Q;
  queueEnabled : bool;
  evacuationEnabled : bool;
  evacuationTime : Q;
  panicSpeedMultiplier : Q;
  densityWarning : Q;
  densityDanger : Q;
  cellSize : Q;
  egresTimeLimitMin : Q;
  warningTimeLimitPct : Q;
  sweepStep : Q;
  sweepMinN : Q;
  sweepMaxN : Q;
}.

(** [{ ...baseCfg, N, evacuationEnabled: true, evacuationTime }]. *)
Definition for_sweep (base : t) (n : Q) : t :=
  {| N := n; arrivalMode := arrivalMode base; arrivalDuration := arrivalDuration base;
     speedMin := speedMin base; speedMean := speedMean base; speedMax := speedMax base;
     personalSpace := personalSpace base; avoidanceStrength := avoidanceStrength base;
     queueEnabled := queueEnabled base;
     evacuationEnabled := true;
     evacuationTime := arrivalDuration base + 2;
     panicSpeedMultiplier := panicSpeedMultiplier base;
     densityWarning := densityWarning base; densityDanger := densityDanger base;
     cellSize := cellSize base; egresTimeLimitMin := egresTimeLimitMin base;
     warningTimeLimitPct := warningTimeLimitPct base;
     sweepStep := sweepStep base; sweepMinN := sweepMinN base;
     sweepMaxN := sweepMaxN base |}.
End SimConfig.

Module SweepResult.
Record t := mk {
  N : Q; peakDensity : Q; p95EgressTime : Q; timeAboveWarningPct : Q; passed : bool;
}.
End SweepResult.

Module Metrics.
Record t := mk {
  simTime : Q;
  activeAgents : Z;
  exitedAgents : Z;
  peakDensity : Q;
  currentMaxDensity : Q;
  timeAboveWarning : Q;
  timeAboveDanger : Q;
  avgEgressTime : Q;
  p95EgressTime : Q;
  queueLengths : gmap string Z;
  maxQueueLengths : gmap string Z;
}.
End Metrics.

(** A string used as a condition: [null] and the empty string are falsy. *)
Definition truthy (o : option string) : bool :=
  match o with
  | Some s => negb (bool_decide (s = EmptyString))
  | None => false
  end.

Module Agent.
Record t := mk {
  id : Z;
  x : Q; y : Q; vx : Q; vy : Q;
  radius : Q;
  speed : Q;
  state : AgentState;
  targetAttractorId : option string;
  targetExitId : option string;
  path : list Vec2.t;
  pathIndex : nat;
  spawnTime : Q;
  exitTime : Q;
  atAttractorUntil : Q;
  stuckTimer : Q;
}.

(** Field assignments [a.f = v]. *)
Definition set_x (v : Q) (s : t) : t :=
  {| id := id s; x := v; y := y s; vx := vx s; vy := vy s; radius := radius s;
     speed := speed s; state := state s; targetAttractorId := targetAttractorId s;
     targetExitId := targetExitId s; path := path s; pathIndex := pathIndex s;
     spawnTime := spawnTime s; exitTime := exitTime s;
     atAttractorUntil := atAttractorUntil s; stuckTimer := stuckTimer s |}.
Definition set_y (v : Q) (s : t) : t :=
  {| id := id s; x := x s; y := v; vx := vx s; vy := vy s; radius := radius s;
     speed := speed s; state := state s; targetAttractorId := targetAttractorId s;
     targetExitId := targetExitId s; path := path s; pathIndex := pathIndex s;
     spawnTime := spawnTime s; exitTime := exitTime s;
     atAttractorUntil := atAttractorUntil s; stuckTimer := stuckTimer s |}.
Definition set_vx (v : Q) (s : t) : t :=
  {| id := id s; x := x s; y := y s; vx := v; vy := vy s; radius := radius s;
     speed := speed s; state := state s; targetAttractorId := targetAttractorId s;
     targetExitId := targetExitId s; path := path s; pathIndex := pathIndex s;
     spawnTime := spawnTime s; exitTime := exitTime s;
     atAttractorUntil := atAttractorUntil s; stuckTimer := stuckTimer s |}.
Definition set_vy (v : Q) (s : t) : t :=
  {| id := id s; x := x s; y := y s; vx := vx s; vy := v; radius := radius s;
     speed := speed s; state := state s; targetAttractorId := targetAttractorId s;
     targetExitId := targetExitId s; path := path s; pathIndex := pathIndex s;
     spawnTime := spawnTime s; exitTime := exitTime s;
     atAttractorUntil := atAttractorUntil s; stuckTimer := stuckTimer s |}.
Definition set_speed (v : Q) (s : t) : t :=
  {| id := id s; x := x s; y := y s; vx := vx s; vy := vy s; radius := radius s;
     speed := v; state := state s; targetAttractorId := targetAttractorId s;
     targetExitId := targetExitId s; path := path s; pathIndex := pathIndex s;
     spawnTime := spawnTime s; exitTime := exitTime s;
     atAttractorUntil := atAttractorUntil s; stuckTimer := stuckTimer s |}.
Definition set_state (v : AgentState) (s : t) : t :=
  {| id := id s; x := x s; y := y s; vx := vx s; vy := vy s; radius := radius s;
     speed := speed s; state := v; targetAttractorId := targetAttractorId s;
     targetExitId := targetExitId s; path := path s; pathIndex := pathIndex s;
     spawnTime := spawnTime s; exitTime := exitTime s;
     atAttractorUntil := atAttractorUntil s; stuckTimer := stuckTimer s |}.
Definition set_targetAttractorId (v : option string) (s : t) : t :=
  {| id := id s; x := x s; y := y s; vx := vx s; vy := vy s; radius := radius s;
     speed := speed s; state := state s; targetAttractorId := v;
     targetExitId := targetExitId s; path := path s; pathIndex := pathIndex s;
     spawnTime := spawnTime s; exitTime := exitTime s;
     atAttractorUntil := atAttractorUntil s; stuckTimer := stuckTimer s |}.
Definition set_targetExitId (v : option string) (s : t) : t :=
  {| id := id s; x := x s; y := y s; vx := vx s; vy := vy s; radius := radius s;
     speed := speed s; state := state s; targetAttractorId := targetAttractorId s;
     targetExitId := v; path := path s; pathIndex := pathIndex s;
     spawnTime := spawnTime s; exitTime := exitTime s;
     atAttractorUntil := atAttractorUntil s; stuckTimer := stuckTimer s |}.
Definition set_path (v : list Vec2.t) (s : t) : t :=
  {| id := id s; x := x s; y := y s; vx := vx s; vy := vy s; radius := radius s;
     speed := speed s; state := state s; targetAttractorId := targetAttractorId s;
     targetExitId := targetExitId s; path := v; pathIndex := pathIndex s;
     spawnTime := spawnTime s; exitTime := exitTime s;
     atAttractorUntil := atAttractorUntil s; stuckTimer := stuckTimer s |}.
Definition set_pathIndex (v : nat) (s : t) : t :=
  {| id := id s; x := x s; y := y s; vx := vx s; vy := vy s; radius := radius s;
     speed := speed s; state := state s; targetAttractorId := targetAttractorId s;
     targetExitId := targetExitId s; path := path s; pathIndex := v;
     spawnTime := spawnTime s; exitTime := exitTime s;
     atAttractorUntil := atAttractorUntil s; stuckTimer := stuckTimer s |}.
Definition set_exitTime (v : Q) (s : t) : t :=
  {| id := id s; x := x s; y := y s; vx := vx s; vy := vy s; radius := radius s;
     speed := speed s; state := state s; targetAttractorId := targetAttractorId s;
     targetExitId := targetExitId s; path := path s; pathIndex := pathIndex s;
     spawnTime := spawnTime s; exitTime := v; atAttractorUntil := atAttractorUntil s;
     stuckTimer := stuckTimer s |}.
Definition set_atAttractorUntil (v : Q) (s : t) : t :=
  {| id := id s; x := x s; y := y s; vx := vx s; vy := vy s; radius := radius s;
     speed := speed s; state := state s; targetAttractorId := targetAttractorId s;
     targetExitId := targetExitId s; path := path s; pathIndex := pathIndex s;
     spawnTime := spawnTime s; exitTime := exitTime s; atAttractorUntil := v;
     stuckTimer := stuckTimer s |}.
Definition set_stuckTimer (v : Q) (s : t) : t :=
  {| id := id s; x := x s; y := y s; vx := vx s; vy := vy s; radius := radius s;
     speed := speed s; state := state s; targetAttractorId := targetAttractorId s;
     targetExitId := targetExitId s; path := path s; pathIndex := pathIndex s;
     spawnTime := spawnTime s; exitTime := exitTime s;
     atAttractorUntil := atAttractorUntil s; stuckTimer := v |}.
End Agent.

(** ** [utils/math.ts] *)

Module v2.
Section WithMath.
Context (Math : JsMath).

Definition dist2 (a b : Vec2.t) : Q :=
  (Vec2.x a - Vec2.x b) ^ 2 + (Vec2.y a - Vec2.y b) ^ 2.

Definition dist (a b : Vec2.t) : Q := Math_sqrt Math (dist2 a b).
End WithMath.

Definition clamp (v lo hi : Q) : Q := Math_max lo (Math_min hi v).
End v2.

(** The ambient state of the module: the identifier counters declared at the
    top of [engine.ts] and the values [Math.random()] returns next. *)
Record Ambient := {
  _nextId : Z;
  _ffNextId : Z;
  random_tape : list Q;
}.

(** Computations that read and advance the ambient state; [None] when the
    tape of random values is exhausted (or holds a value outside [[0, 1)],
    which [Math.random] never returns). *)
Definition Amb (A : Type) : Type := Ambient → option (A * Ambient).

Definition amb_ret {A} (a : A) : Amb A := λ w, Some (a, w).

Definition amb_bind {A B} (m : Amb A) (k : A → Amb B) : Amb B :=
  λ w, match m w with
       | Some (a, w') => k a w'
       | None => None
       end.

Notation "'do' x <- m ; k" := (amb_bind m (λ x, k))
  (at level 10, x pattern, m at level 100, k at level 200).

(** [Math.random()]. *)
Definition Math_random : Amb Q :=
  λ w, match random_tape w with
       | [] => None
       | u :: rest =>
           if Qleb 0 u && Qltb u 1
           then Some (u, {| _nextId := _nextId w; _ffNextId := _ffNextId w;
                            random_tape := rest |})
           else None
       end.

(** [_nextId++] and [_ffNextId++]. *)
Definition fresh_agent_id : Amb Z :=
  λ w, Some (_nextId w, {| _nextId := _nextId w + 1; _ffNextId := _ffNextId w;
                           random_tape := random_tape w |}).

Definition fresh_ff_id : Amb Z :=
  λ w, Some (_ffNextId w, {| _nextId := _nextId w; _ffNextId := _ffNextId w + 1;
                             random_tape := random_tape w |}).

(** [while (u === 0) u = Math.random()], started with [u = 0]: the first
    non-zero draw.  The recursion is on the tape. *)
Fixpoint draw_nonzero_from (tape : list Q) : option (Q * list Q) :=
  match tape with
  | [] => None
  | u :: rest =>
      if Qleb 0 u && Qltb u 1
      then if Qeqb u 0 then draw_nonzero_from rest else Some (u, rest)
      else None
  end.

Definition draw_nonzero : Amb Q :=
  λ w, match draw_nonzero_from (random_tape w) with
       | Some (u, rest) =>
           Some (u, {| _nextId := _nextId w; _ffNextId := _ffNextId w;
                       random_tape := rest |})
       | None => None
       end.

Section MathUtils.
Context (Math : JsMath).

(** Box-Muller transform. *)
Definition randNormal (mean std : Q) : Amb Q :=
  do u <- draw_nonzero;
  do v <- draw_nonzero;
  amb_ret (mean + std * Math_sqrt Math (-(2) * Math_log Math u)
                      * Math_cos Math (2 * Math_PI Math * v)).

Definition erf (x0 : Q) : Q :=
  let a1 := 0.254829592 in
  let a2 := -0.284496736 in
  let a3 := 1.421413741 in
  let a4 := -1.453152027 in
  let a5 := 1.061405429 in
  let p := 0.3275911 in
  let sign := if Qltb x0 0 then -(1) else 1 in
  let x := Math_abs x0 in
  let t := 1 / (1 + p * x) in
  let y := 1 - (((((a5 * t + a4) * t) + a3) * t + a2) * t + a1) * t
               * Math_exp Math (- x * x) in
  sign * y.

Definition gaussianCDF (t mean sigma : Q) : Q :=
  let z := (t - mean) / (sigma * Math_SQRT2 Math) in
  0.5 * (1 + erf z).
End MathUtils.

(** Closest point on an axis-aligned rectangle: [{cx, cy, dist2}]. *)
Definition closestPointOnRect (px py rx ry rw rh : Q) : Q * Q * Q :=
  let cx := Math_max rx (Math_min (rx + rw) px) in
  let cy := Math_max ry (Math_min (ry + rh) py) in
  (cx, cy, (px - cx) ^ 2 + (py - cy) ^ 2).

(** [[...xs].sort((a, b) => a - b)]: ascending insertion sort. *)
Fixpoint insert_sorted (v : Q) (l : list Q) : list Q :=
  match l with
  | [] => [v]
  | w :: l' => if Qleb v w then v :: l else w :: insert_sorted v l'
  end.

Definition sort_numbers (l : list Q) : list Q := foldr insert_sorted [] l.

(** Percentile of a sorted array. *)
Definition percentile (sorted : list Q) (p : Q) : Q :=
  match sorted with
  | [] => 0
  | _ =>
      let idx := Z.max 0 (Math_ceil ((p / 100) * inject_Z (Z.of_nat (length sorted))) - 1) in
      arr_get 0 sorted idx
  end.

(** ** [utils/spatialHash.ts] *)

Module SpatialHash.
Record t := mk {
  cells : gmap Z (list Z);
  cellSize : Q;
}.

Definition new (size : Q) : t := {| cells := ∅; cellSize := size |}.

Definition key (cx cy : Z) : Z := (cx * 100003 + cy)%Z.

Definition cellOf (h : t) (v : Q) : Z := Math_floor (v / cellSize h).

Definition clear (h : t) : t := {| cells := ∅; cellSize := cellSize h |}.

Definition insert (id : Z) (x y : Q) (h : t) : t :=
  let k := key (cellOf h x) (cellOf h y) in
  {| cells := <[k := default [] (cells h !! k) ++ [id]]> (cells h);
     cellSize := cellSize h |}.

(** All ids stored in the buckets around [(x, y)]. *)
Definition query (h : t) (x y radius : Q) : list Z :=
  let r := Math_ceil (radius / cellSize h) in
  let cx0 := (cellOf h x - r)%Z in
  let cy0 := (cellOf h y - r)%Z in
  cx ← seqZ cx0 (2 * r + 1);
  cy ← seqZ cy0 (2 * r + 1);
  default [] (cells h !! key cx cy).
End SpatialHash.

(** ** [utils/astar.ts] *)

(** [passable[r]?.[c]] used as a condition: an absent row or cell is falsy. *)
Definition is_passable (passable : list (list bool)) (r c : Z) : bool :=
  grid_get false passable r c.

(** [passable[0].length]. *)
Definition grid_cols {A} (g : list (list A)) : Z :=
  match g with
  | [] => 0
  | row0 :: _ => Z.of_nat (length row0)
  end.

Definition toGrid (rows cols : Z) (cellSize : Q) (w : Vec2.t) : Z * Z :=
  (Z.max 0 (Z.min (rows - 1) (Math_floor (Vec2.y w / cellSize))),
   Z.max 0 (Z.min (cols - 1) (Math_floor (Vec2.x w / cellSize)))).

Definition toWorld (cellSize : Q) (r c : Z) : Vec2.t :=
  {| Vec2.x := (inject_Z c + 0.5) * cellSize;
     Vec2.y := (inject_Z r + 0.5) * cellSize |}.

(** *** Goal-cell repair *)

(** The variables of the repair loops: [best] ([None] is [Infinity]), the
    goal cell [gr], [gc] being rewritten, and the flag [found]. *)
Record Repair := {
  rp_best : option Z;
  rp_gr : Z;
  rp_gc : Z;
  rp_found : bool;
}.

(** One pass through the body of the inner loop; both loops are guarded by
    [&& !found], so nothing runs once the flag is set. *)
Definition repair_cell (passable : list (list bool)) (rows cols : Z)
    (dr dc : Z) (st : Repair) : Repair :=
  if rp_found st then st
  else
    let nr := (rp_gr st + dr)%Z in
    let nc := (rp_gc st + dc)%Z in
    if (0 <=? nr)%Z && (nr <? rows)%Z && (0 <=? nc)%Z && (nc <? cols)%Z
       && is_passable passable nr nc
    then
      let d := (dr * dr + dc * dc)%Z in
      if match rp_best st with None => true | Some b => (d <? b)%Z end
      then {| rp_best := Some d; rp_gr := nr; rp_gc := nc; rp_found := true |}
      else st
    else st.

Definition repairGoal (passable : list (list bool)) (rows cols : Z)
    (gg : Z * Z) : Z * Z :=
  if is_passable passable gg.1 gg.2 then gg
  else
    let st0 := {| rp_best := None; rp_gr := gg.1; rp_gc := gg.2; rp_found := false |} in
    let st := foldl (λ st dr,
                foldl (λ st dc, repair_cell passable rows cols dr dc st)
                      st (seqZ (-3) 7))
              st0 (seqZ (-3) 7) in
    (rp_gr st, rp_gc st).

(** *** Search *)

Definition INF : Q := 1e9.

(** The arrays and the open list of the search loop. *)
Record Search := {
  gScore : list Q;
  fScore : list Q;
  cameFrom : list Z;
  open : list Z;
  inOpen : list bool;
}.

Definition dirs : list (Z * Z * Q) :=
  [((-1)%Z, 0%Z, 1); (1%Z, 0%Z, 1); (0%Z, (-1)%Z, 1); (0%Z, 1%Z, 1);
   ((-1)%Z, (-1)%Z, 1.414); ((-1)%Z, 1%Z, 1.414);
   (1%Z, (-1)%Z, 1.414); (1%Z, 1%Z, 1.414)].

(** The linear scan for the minimum f-score: [(minF, minI, minPos)] after
    looking at the entries of [open] from position [i] on. *)
Fixpoint scanMin (fS : list Q) (open : list Z) (i : nat) (acc : Q * Z * nat)
    : Q * Z * nat :=
  match open with
  | [] => acc
  | oi :: rest =>
      let '(minF, minI, minPos) := acc in
      if Qltb (arr_get INF fS oi) minF
      then scanMin fS rest (S i) (arr_get INF fS oi, oi, i)
      else scanMin fS rest (S i) acc
  end.

Section Planner.
Context (Math : JsMath).

Definition heuristic (gr gc r c : Z) : Q :=
  Math_sqrt Math (inject_Z ((r - gr) ^ 2 + (c - gc) ^ 2)).

(** The body of [for (const [dr, dc, cost] of dirs)] for the node [minI]
    at cell [(cr, cc)]. *)
Definition relax (passable : list (list bool)) (rows cols gr gc : Z)
    (minI cr cc : Z) (st : Search) (d : Z * Z * Q) : Search :=
  let '(dr, dc, cost) := d in
  let nr := (cr + dr)%Z in
  let nc := (cc + dc)%Z in
  if (nr <? 0)%Z || (rows <=? nr)%Z || (nc <? 0)%Z || (cols <=? nc)%Z then st
  else if negb (is_passable passable nr nc) then st
  else
    let ni := (nr * cols + nc)%Z in
    let tentG := arr_get INF (gScore st) minI + cost in
    if Qltb tentG (arr_get INF (gScore st) ni) then
      let pushed := arr_get false (inOpen st) ni in
      {| gScore := arr_set (gScore st) ni tentG;
         fScore := arr_set (fScore st) ni (tentG + heuristic gr gc nr nc);
         cameFrom := arr_set (cameFrom st) ni minI;
         open := if pushed then open st else open st ++ [ni];
         inOpen := if pushed then inOpen st else arr_set (inOpen st) ni true |}
    else st.

(** [while (open.length > 0) { … }]; the result is the flag [found] and the
    arrays at the exit of the loop.  [fuel] bounds the number of rounds. *)
Fixpoint search (fuel : nat) (passable : list (list bool))
    (rows cols gr gc gi : Z) (st : Search) : option (bool * Search) :=
  match fuel with
  | O => None
  | S fuel' =>
      match open st with
      | [] => Some (false, st)
      | _ =>
          let '(_, minI, minPos) := scanMin (fScore st) (open st) 0 (INF, 0%Z, 0%nat) in
          let st1 := {| gScore := gScore st; fScore := fScore st;
                        cameFrom := cameFrom st;
                        open := delete minPos (open st);
                        inOpen := inOpen st |} in
          if (minI =? gi)%Z then Some (true, st1)
          else
            let cr := (minI / cols)%Z in
            let cc := Z.rem minI cols in
            search fuel' passable rows cols gr gc gi
              (foldl (relax passable rows cols gr gc minI cr cc) st1 dirs)
      end
  end.

(** [while (cur !== si) { path.push(toWorld(r, c)); cur = cameFrom[cur]; }] *)
Fixpoint reconstruct (fuel : nat) (cameFrom : list Z) (cols : Z) (cellSize : Q)
    (si cur : Z) (path : list Vec2.t) : option (list Vec2.t) :=
  match fuel with
  | O => None
  | S fuel' =>
      if (cur =? si)%Z then Some path
      else reconstruct fuel' cameFrom cols cellSize si
             (arr_get (-1)%Z cameFrom cur)
             (path ++ [toWorld cellSize (cur / cols)%Z (Z.rem cur cols)])
  end.

(** Remove collinear intermediate waypoints.  [prev] is the last element
    of [result]; [rest] starts at [path[i]]. *)
Fixpoint simplify_loop (prev : Vec2.t) (rest : list Vec2.t) (result : list Vec2.t)
    : list Vec2.t :=
  match rest with
  | [] => result
  | curr :: tl =>
      match tl with
      | [] => result ++ [curr]
      | next :: _ =>
          let cross := (Vec2.x curr - Vec2.x prev) * (Vec2.y next - Vec2.y prev)
                       - (Vec2.y curr - Vec2.y prev) * (Vec2.x next - Vec2.x prev) in
          if Qltb 0.1 (Math_abs cross)
          then simplify_loop curr tl (result ++ [curr])
          else simplify_loop prev tl result
      end
  end.

Definition simplifyPath (path : list Vec2.t) : list Vec2.t :=
  match path with
  | p0 :: (_ :: _ :: _) as rest => simplify_loop p0 rest [p0]
  | _ => path
  end.

(** Rounds of the search loop and steps of the path reconstruction that a
    [rows × cols] raster can need (see [search_terminates] and
    [reconstruct_terminates]). *)
Definition search_fuel (rows cols : Z) : nat := S (Z.to_nat (rows * cols)).
Definition reconstruct_fuel (rows cols : Z) : nat := S (2 * Z.to_nat (rows * cols)).

(** The planner; [None] when one of its loops does not come to an end
    within the bound above. *)
Definition astar_run (passable : list (list bool)) (startWorld goalWorld : Vec2.t)
    (cellSize : Q) : option (list Vec2.t) :=
  let rows := Z.of_nat (length passable) in
  if (rows =? 0)%Z then Some [goalWorld]
  else
    let cols := grid_cols passable in
    let sg := toGrid rows cols cellSize startWorld in
    let gg := toGrid rows cols cellSize goalWorld in
    if negb (is_passable passable sg.1 sg.2) then Some [goalWorld]
    else
      let '(gr, gc) := repairGoal passable rows cols gg in
      if (sg.1 =? gr)%Z && (sg.2 =? gc)%Z then Some [goalWorld]
      else
        let n := Z.to_nat (rows * cols) in
        let si := (sg.1 * cols + sg.2)%Z in
        let gi := (gr * cols + gc)%Z in
        let st0 := {| gScore := arr_set (replicate n INF) si 0;
                      fScore := arr_set (replicate n INF) si
                                  (heuristic gr gc sg.1 sg.2);
                      cameFrom := replicate n (-1)%Z;
                      open := [si];
                      inOpen := arr_set (replicate n false) si true |} in
        match search (search_fuel rows cols) passable rows cols gr gc gi st0 with
        | None => None
        | Some (false, _) => Some [goalWorld]
        | Some (true, st) =>
            match reconstruct (reconstruct_fuel rows cols) (cameFrom st) cols
                    cellSize si gi [] with
            | None => None
            | Some path => Some (simplifyPath (rev path ++ [goalWorld]))
            end
        end.

(** [astar(passable, startWorld, goalWorld, cellSize)].  The empty path in
    the second branch is never produced on a rectangular raster whose
    scores stay below [INF] ([astar_run_total]). *)
Definition astar (passable : list (list bool)) (startWorld goalWorld : Vec2.t)
    (cellSize : Q) : list Vec2.t :=
  match astar_run passable startWorld goalWorld cellSize with
  | Some path => path
  | None => []
  end.
End Planner.

(** Build the passability raster from the wall rectangles. *)
Definition buildPassableGrid (venueW venueH : Q) (walls : list Rect.t) (cellSize : Q)
    : list (list bool) :=
  let cols := Math_ceil (venueW / cellSize) in
  let rows := Math_ceil (venueH / cellSize) in
  foldl (λ grid wall,
    let c0 := Z.max 0 (Math_floor (Rect.x wall / cellSize)) in
    let c1 := Z.min (cols - 1) (Math_floor ((Rect.x wall + Rect.w wall) / cellSize)) in
    let r0 := Z.max 0 (Math_floor (Rect.y wall / cellSize)) in
    let r1 := Z.min (rows - 1) (Math_floor ((Rect.y wall + Rect.h wall) / cellSize)) in
    foldl (λ grid rc, grid_set grid rc.1 rc.2 false) grid
      (r ← seqZ r0 (r1 - r0 + 1); c ← seqZ c0 (c1 - c0 + 1); [(r, c)]))
    (grid_make rows cols true) walls.

(** ** [sim/engine.ts] *)

Module Firefighter.
Record t := mk {
  id : Z;
  x : Q; y : Q; vx : Q; vy : Q;
  path : list Vec2.t;
  pathIndex : nat;
  targetCell : option (Z * Z);
  extinguishTimer : Q;
}.

Definition set_x (v : Q) (s : t) : t :=
  {| id := id s; x := v; y := y s; vx := vx s; vy := vy s; path := path s;
     pathIndex := pathIndex s; targetCell := targetCell s;
     extinguishTimer := extinguishTimer s |}.
Definition set_y (v : Q) (s : t) : t :=
  {| id := id s; x := x s; y := v; vx := vx s; vy := vy s; path := path s;
     pathIndex := pathIndex s; targetCell := targetCell s;
     extinguishTimer := extinguishTimer s |}.
Definition set_vx (v : Q) (s : t) : t :=
  {| id := id s; x := x s; y := y s; vx := v; vy := vy s; path := path s;
     pathIndex := pathIndex s; targetCell := targetCell s;
     extinguishTimer := extinguishTimer s |}.
Definition set_vy (v : Q) (s : t) : t :=
  {| id := id s; x := x s; y := y s; vx := vx s; vy := v; path := path s;
     pathIndex := pathIndex s; targetCell := targetCell s;
     extinguishTimer := extinguishTimer s |}.
Definition set_path (v : list Vec2.t) (s : t) : t :=
  {| id := id s; x := x s; y := y s; vx := vx s; vy := vy s; path := v;
     pathIndex := pathIndex s; targetCell := targetCell s;
     extinguishTimer := extinguishTimer s |}.
Definition set_pathIndex (v : nat) (s : t) : t :=
  {| id := id s; x := x s; y := y s; vx := vx s; vy := vy s; path := path s;
     pathIndex := v; targetCell := targetCell s; extinguishTimer := extinguishTimer s |}.
Definition set_targetCell (v : option (Z * Z)) (s : t) : t :=
  {| id := id s; x := x s; y := y s; vx := vx s; vy := vy s; path := path s;
     pathIndex := pathIndex s; targetCell := v; extinguishTimer := extinguishTimer s |}.
Definition set_extinguishTimer (v : Q) (s : t) : t :=
  {| id := id s; x := x s; y := y s; vx := vx s; vy := vy s; path := path s;
     pathIndex := pathIndex s; targetCell := targetCell s; extinguishTimer := v |}.
End Firefighter.

(** What a frame shows of an agent and of a firefighter. *)
Module AgentView.
Record t := mk {
  id : Z; x : Q; y : Q; vx : Q; vy : Q; radius : Q; state : AgentState;
}.
End AgentView.

Module FirefighterView.
Record t := mk {
  id : Z; x : Q; y : Q; extinguishing : bool;
  targetRow : option Z; targetCol : option Z;
}.
End FirefighterView.

Module SimFrame.
Record t := mk {
  agents : list AgentView.t;
  densityGrid : list (list Q);
  gridCols : Z;
  gridRows : Z;
  metrics : Metrics.t;
  simTime : Q;
  isRunning : bool;
  isEvacuating : bool;
  fireGrid : list (list bool);
  fireCols : Z;
  fireRows : Z;
  firefighters : list FirefighterView.t;
  smokeGrid : list (list Q);
  blockedExits : list string;
}.
End SimFrame.

(** [idx = q.indexOf(id); if (idx >= 0) q.splice(idx, 1)]. *)
Fixpoint remove_first (id : Z) (q : list Z) : list Z :=
  match q with
  | [] => []
  | j :: q' => if (j =? id)%Z then q' else j :: remove_first id q'
  end.

(** Shortest-axis push-out of a disc of radius [R] at [(x, y)] with velocity
    [(vx, vy)] from one wall rectangle; the result is [(x, y, vx, vy)].  The
    agents ([resolveWallCollisions]) and the firefighters run the same
    statements. *)
Definition pushOutOfWall (R : Q) (p : Q * Q * Q * Q) (wall : Wall.t) : Q * Q * Q * Q :=
  let '(x, y, vx, vy) := p in
  let r := Wall.rect wall in
  if Qltb (Rect.x r) (x + R) && Qltb (x - R) (Rect.x r + Rect.w r)
     && Qltb (Rect.y r) (y + R) && Qltb (y - R) (Rect.y r + Rect.h r)
  then
    let overlapL := (x + R) - Rect.x r in
    let overlapR := (Rect.x r + Rect.w r) - (x - R) in
    let overlapT := (y + R) - Rect.y r in
    let overlapB := (Rect.y r + Rect.h r) - (y - R) in
    let minOv := Math_min (Math_min (Math_min overlapL overlapR) overlapT) overlapB in
    if Qeqb minOv overlapL then (x - overlapL, y, Math_min 0 vx, vy)
    else if Qeqb minOv overlapR then (x + overlapR, y, Math_max 0 vx, vy)
    else if Qeqb minOv overlapT then (x, y - overlapT, vx, Math_min 0 vy)
    else (x, y + overlapB, vx, Math_max 0 vy)
  else p.

Module SimEngine.
Record t := mk {
  layout : VenueLayout.t;
  cfg : SimConfig.t;
  agents : list Agent.t;
  agentMap : gmap Z nat;
  simTime : Q;
  isRunning : bool;
  isEvacuating : bool;
  passable : list (list bool);
  hash : SpatialHash.t;
  peakDensity : Q;
  timeAboveWarning : Q;
  timeAboveDanger : Q;
  egressTimes : list Q;
  queues : gmap string (list Z);
  queueServiced : gmap string Z;
  fireGrid : list (list bool);
  fireSpread : list (list Q);
  smokeGrid : list (list Q);
  fireCellCount : Z;
  hasSmoke : bool;
  fireCols : Z;
  fireRows : Z;
  fireStartTime : Q;
  blockedExits : gset string;
  firefighters : list Firefighter.t;
  firefightersSpawned : bool;
  spawnedCount : Z;
  totalToSpawn : Q;
  entranceWeights : list Q;
}.

(** Field assignments [this.f = v]. *)
Definition set_layout (v : VenueLayout.t) (s : t) : t :=
  {| layout := v; cfg := cfg s; agents := agents s; agentMap := agentMap s;
     simTime := simTime s; isRunning := isRunning s; isEvacuating := isEvacuating s;
     passable := passable s; hash := hash s; peakDensity := peakDensity s;
     timeAboveWarning := timeAboveWarning s; timeAboveDanger := timeAboveDanger s;
     egressTimes := egressTimes s; queues := queues s;
     queueServiced := queueServiced s; fireGrid := fireGrid s;
     fireSpread := fireSpread s; smokeGrid := smokeGrid s;
     fireCellCount := fireCellCount s; hasSmoke := hasSmoke s; fireCols := fireCols s;
     fireRows := fireRows s; fireStartTime := fireStartTime s;
     blockedExits := blockedExits s; firefighters := firefighters s;
     firefightersSpawned := firefightersSpawned s; spawnedCount := spawnedCount s;
     totalToSpawn := totalToSpawn s; entranceWeights := entranceWeights s |}.
Definition set_cfg (v : SimConfig.t) (s : t) : t :=
  {| layout := layout s; cfg := v; agents := agents s; agentMap := agentMap s;
     simTime := simTime s; isRunning := isRunning s; isEvacuating := isEvacuating s;
     passable := passable s; hash := hash s; peakDensity := peakDensity s;
     timeAboveWarning := timeAboveWarning s; timeAboveDanger := timeAboveDanger s;
     egressTimes := egressTimes s; queues := queues s;
     queueServiced := queueServiced s; fireGrid := fireGrid s;
     fireSpread := fireSpread s; smokeGrid := smokeGrid s;
     fireCellCount := fireCellCount s; hasSmoke := hasSmoke s; fireCols := fireCols s;
     fireRows := fireRows s; fireStartTime := fireStartTime s;
     blockedExits := blockedExits s; firefighters := firefighters s;
     firefightersSpawned := firefightersSpawned s; spawnedCount := spawnedCount s;
     totalToSpawn := totalToSpawn s; entranceWeights := entranceWeights s |}.
Definition set_agents (v : list Agent.t) (s : t) : t :=
  {| layout := layout s; cfg := cfg s; agents := v; agentMap := agentMap s;
     simTime := simTime s; isRunning := isRunning s; isEvacuating := isEvacuating s;
     passable := passable s; hash := hash s; peakDensity := peakDensity s;
     timeAboveWarning := timeAboveWarning s; timeAboveDanger := timeAboveDanger s;
     egressTimes := egressTimes s; queues := queues s;
     queueServiced := queueServiced s; fireGrid := fireGrid s;
     fireSpread := fireSpread s; smokeGrid := smokeGrid s;
     fireCellCount := fireCellCount s; hasSmoke := hasSmoke s; fireCols := fireCols s;
     fireRows := fireRows s; fireStartTime := fireStartTime s;
     blockedExits := blockedExits s; firefighters := firefighters s;
     firefightersSpawned := firefightersSpawned s; spawnedCount := spawnedCount s;
     totalToSpawn := totalToSpawn s; entranceWeights := entranceWeights s |}.
Definition set_agentMap (v : gmap Z nat) (s : t) : t :=
  {| layout := layout s; cfg := cfg s; agents := agents s; agentMap := v;
     simTime := simTime s; isRunning := isRunning s; isEvacuating := isEvacuating s;
     passable := passable s; hash := hash s; peakDensity := peakDensity s;
     timeAboveWarning := timeAboveWarning s; timeAboveDanger := timeAboveDanger s;
     egressTimes := egressTimes s; queues := queues s;
     queueServiced := queueServiced s; fireGrid := fireGrid s;
     fireSpread := fireSpread s; smokeGrid := smokeGrid s;
     fireCellCount := fireCellCount s; hasSmoke := hasSmoke s; fireCols := fireCols s;
     fireRows := fireRows s; fireStartTime := fireStartTime s;
     blockedExits := blockedExits s; firefighters := firefighters s;
     firefightersSpawned := firefightersSpawned s; spawnedCount := spawnedCount s;
     totalToSpawn := totalToSpawn s; entranceWeights := entranceWeights s |}.
Definition set_simTime (v : Q) (s : t) : t :=
  {| layout := layout s; cfg := cfg s; agents := agents s; agentMap := agentMap s;
     simTime := v; isRunning := isRunning s; isEvacuating := isEvacuating s;
     passable := passable s; hash := hash s; peakDensity := peakDensity s;
     timeAboveWarning := timeAboveWarning s; timeAboveDanger := timeAboveDanger s;
     egressTimes := egressTimes s; queues := queues s;
     queueServiced := queueServiced s; fireGrid := fireGrid s;
     fireSpread := fireSpread s; smokeGrid := smokeGrid s;
     fireCellCount := fireCellCount s; hasSmoke := hasSmoke s; fireCols := fireCols s;
     fireRows := fireRows s; fireStartTime := fireStartTime s;
     blockedExits := blockedExits s; firefighters := firefighters s;
     firefightersSpawned := firefightersSpawned s; spawnedCount := spawnedCount s;
     totalToSpawn := totalToSpawn s; entranceWeights := entranceWeights s |}.
Definition set_isRunning (v : bool) (s : t) : t :=
  {| layout := layout s; cfg := cfg s; agents := agents s; agentMap := agentMap s;
     simTime := simTime s; isRunning := v; isEvacuating := isEvacuating s;
     passable := passable s; hash := hash s; peakDensity := peakDensity s;
     timeAboveWarning := timeAboveWarning s; timeAboveDanger := timeAboveDanger s;
     egressTimes := egressTimes s; queues := queues s;
     queueServiced := queueServiced s; fireGrid := fireGrid s;
     fireSpread := fireSpread s; smokeGrid := smokeGrid s;
     fireCellCount := fireCellCount s; hasSmoke := hasSmoke s; fireCols := fireCols s;
     fireRows := fireRows s; fireStartTime := fireStartTime s;
     blockedExits := blockedExits s; firefighters := firefighters s;
     firefightersSpawned := firefightersSpawned s; spawnedCount := spawnedCount s;
     totalToSpawn := totalToSpawn s; entranceWeights := entranceWeights s |}.
Definition set_isEvacuating (v : bool) (s : t) : t :=
  {| layout := layout s; cfg := cfg s; agents := agents s; agentMap := agentMap s;
     simTime := simTime s; isRunning := isRunning s; isEvacuating := v;
     passable := passable s; hash := hash s; peakDensity := peakDensity s;
     timeAboveWarning := timeAboveWarning s; timeAboveDanger := timeAboveDanger s;
     egressTimes := egressTimes s; queues := queues s;
     queueServiced := queueServiced s; fireGrid := fireGrid s;
     fireSpread := fireSpread s; smokeGrid := smokeGrid s;
     fireCellCount := fireCellCount s; hasSmoke := hasSmoke s; fireCols := fireCols s;
     fireRows := fireRows s; fireStartTime := fireStartTime s;
     blockedExits := blockedExits s; firefighters := firefighters s;
     firefightersSpawned := firefightersSpawned s; spawnedCount := spawnedCount s;
     totalToSpawn := totalToSpawn s; entranceWeights := entranceWeights s |}.
Definition set_passable (v : list (list bool)) (s : t) : t :=
  {| layout := layout s; cfg := cfg s; agents := agents s; agentMap := agentMap s;
     simTime := simTime s; isRunning := isRunning s; isEvacuating := isEvacuating s;
     passable := v; hash := hash s; peakDensity := peakDensity s;
     timeAboveWarning := timeAboveWarning s; timeAboveDanger := timeAboveDanger s;
     egressTimes := egressTimes s; queues := queues s;
     queueServiced := queueServiced s; fireGrid := fireGrid s;
     fireSpread := fireSpread s; smokeGrid := smokeGrid s;
     fireCellCount := fireCellCount s; hasSmoke := hasSmoke s; fireCols := fireCols s;
     fireRows := fireRows s; fireStartTime := fireStartTime s;
     blockedExits := blockedExits s; firefighters := firefighters s;
     firefightersSpawned := firefightersSpawned s; spawnedCount := spawnedCount s;
     totalToSpawn := totalToSpawn s; entranceWeights := entranceWeights s |}.
Definition set_hash (v : SpatialHash.t) (s : t) : t :=
  {| layout := layout s; cfg := cfg s; agents := agents s; agentMap := agentMap s;
     simTime := simTime s; isRunning := isRunning s; isEvacuating := isEvacuating s;
     passable := passable s; hash := v; peakDensity := peakDensity s;
     timeAboveWarning := timeAboveWarning s; timeAboveDanger := timeAboveDanger s;
     egressTimes := egressTimes s; queues := queues s;
     queueServiced := queueServiced s; fireGrid := fireGrid s;
     fireSpread := fireSpread s; smokeGrid := smokeGrid s;
     fireCellCount := fireCellCount s; hasSmoke := hasSmoke s; fireCols := fireCols s;
     fireRows := fireRows s; fireStartTime := fireStartTime s;
     blockedExits := blockedExits s; firefighters := firefighters s;
     firefightersSpawned := firefightersSpawned s; spawnedCount := spawnedCount s;
     totalToSpawn := totalToSpawn s; entranceWeights := entranceWeights s |}.
Definition set_peakDensity (v : Q) (s : t) : t :=
  {| layout := layout s; cfg := cfg s; agents := agents s; agentMap := agentMap s;
     simTime := simTime s; isRunning := isRunning s; isEvacuating := isEvacuating s;
     passable := passable s; hash := hash s; peakDensity := v;
     timeAboveWarning := timeAboveWarning s; timeAboveDanger := timeAboveDanger s;
     egressTimes := egressTimes s; queues := queues s;
     queueServiced := queueServiced s; fireGrid := fireGrid s;
     fireSpread := fireSpread s; smokeGrid := smokeGrid s;
     fireCellCount := fireCellCount s; hasSmoke := hasSmoke s; fireCols := fireCols s;
     fireRows := fireRows s; fireStartTime := fireStartTime s;
     blockedExits := blockedExits s; firefighters := firefighters s;
     firefightersSpawned := firefightersSpawned s; spawnedCount := spawnedCount s;
     totalToSpawn := totalToSpawn s; entranceWeights := entranceWeights s |}.
Definition set_timeAboveWarning (v : Q) (s : t) : t :=
  {| layout := layout s; cfg := cfg s; agents := agents s; agentMap := agentMap s;
     simTime := simTime s; isRunning := isRunning s; isEvacuating := isEvacuating s;
     passable := passable s; hash := hash s; peakDensity := peakDensity s;
     timeAboveWarning := v; timeAboveDanger := timeAboveDanger s;
     egressTimes := egressTimes s; queues := queues s;
     queueServiced := queueServiced s; fireGrid := fireGrid s;
     fireSpread := fireSpread s; smokeGrid := smokeGrid s;
     fireCellCount := fireCellCount s; hasSmoke := hasSmoke s; fireCols := fireCols s;
     fireRows := fireRows s; fireStartTime := fireStartTime s;
     blockedExits := blockedExits s; firefighters := firefighters s;
     firefightersSpawned := firefightersSpawned s; spawnedCount := spawnedCount s;
     totalToSpawn := totalToSpawn s; entranceWeights := entranceWeights s |}.
Definition set_timeAboveDanger (v : Q) (s : t) : t :=
  {| layout := layout s; cfg := cfg s; agents := agents s; agentMap := agentMap s;
     simTime := simTime s; isRunning := isRunning s; isEvacuating := isEvacuating s;
     passable := passable s; hash := hash s; peakDensity := peakDensity s;
     timeAboveWarning := timeAboveWarning s; timeAboveDanger := v;
     egressTimes := egressTimes s; queues := queues s;
     queueServiced := queueServiced s; fireGrid := fireGrid s;
     fireSpread := fireSpread s; smokeGrid := smokeGrid s;
     fireCellCount := fireCellCount s; hasSmoke := hasSmoke s; fireCols := fireCols s;
     fireRows := fireRows s; fireStartTime := fireStartTime s;
     blockedExits := blockedExits s; firefighters := firefighters s;
     firefightersSpawned := firefightersSpawned s; spawnedCount := spawnedCount s;
     totalToSpawn := totalToSpawn s; entranceWeights := entranceWeights s |}.
Definition set_egressTimes (v : list Q) (s : t) : t :=
  {| layout := layout s; cfg := cfg s; agents := agents s; agentMap := agentMap s;
     simTime := simTime s; isRunning := isRunning s; isEvacuating := isEvacuating s;
     passable := passable s; hash := hash s; peakDensity := peakDensity s;
     timeAboveWarning := timeAboveWarning s; timeAboveDanger := timeAboveDanger s;
     egressTimes := v; queues := queues s; queueServiced := queueServiced s;
     fireGrid := fireGrid s; fireSpread := fireSpread s; smokeGrid := smokeGrid s;
     fireCellCount := fireCellCount s; hasSmoke := hasSmoke s; fireCols := fireCols s;
     fireRows := fireRows s; fireStartTime := fireStartTime s;
     blockedExits := blockedExits s; firefighters := firefighters s;
     firefightersSpawned := firefightersSpawned s; spawnedCount := spawnedCount s;
     totalToSpawn := totalToSpawn s; entranceWeights := entranceWeights s |}.
Definition set_queues (v : gmap string (list Z)) (s : t) : t :=
  {| layout := layout s; cfg := cfg s; agents := agents s; agentMap := agentMap s;
     simTime := simTime s; isRunning := isRunning s; isEvacuating := isEvacuating s;
     passable := passable s; hash := hash s; peakDensity := peakDensity s;
     timeAboveWarning := timeAboveWarning s; timeAboveDanger := timeAboveDanger s;
     egressTimes := egressTimes s; queues := v; queueServiced := queueServiced s;
     fireGrid := fireGrid s; fireSpread := fireSpread s; smokeGrid := smokeGrid s;
     fireCellCount := fireCellCount s; hasSmoke := hasSmoke s; fireCols := fireCols s;
     fireRows := fireRows s; fireStartTime := fireStartTime s;
     blockedExits := blockedExits s; firefighters := firefighters s;
     firefightersSpawned := firefightersSpawned s; spawnedCount := spawnedCount s;
     totalToSpawn := totalToSpawn s; entranceWeights := entranceWeights s |}.
Definition set_queueServiced (v : gmap string Z) (s : t) : t :=
  {| layout := layout s; cfg := cfg s; agents := agents s; agentMap := agentMap s;
     simTime := simTime s; isRunning := isRunning s; isEvacuating := isEvacuating s;
     passable := passable s; hash := hash s; peakDensity := peakDensity s;
     timeAboveWarning := timeAboveWarning s; timeAboveDanger := timeAboveDanger s;
     egressTimes := egressTimes s; queues := queues s; queueServiced := v;
     fireGrid := fireGrid s; fireSpread := fireSpread s; smokeGrid := smokeGrid s;
     fireCellCount := fireCellCount s; hasSmoke := hasSmoke s; fireCols := fireCols s;
     fireRows := fireRows s; fireStartTime := fireStartTime s;
     blockedExits := blockedExits s; firefighters := firefighters s;
     firefightersSpawned := firefightersSpawned s; spawnedCount := spawnedCount s;
     totalToSpawn := totalToSpawn s; entranceWeights := entranceWeights s |}.
Definition set_fireGrid (v : list (list bool)) (s : t) : t :=
  {| layout := layout s; cfg := cfg s; agents := agents s; agentMap := agentMap s;
     simTime := simTime s; isRunning := isRunning s; isEvacuating := isEvacuating s;
     passable := passable s; hash := hash s; peakDensity := peakDensity s;
     timeAboveWarning := timeAboveWarning s; timeAboveDanger := timeAboveDanger s;
     egressTimes := egressTimes s; queues := queues s;
     queueServiced := queueServiced s; fireGrid := v; fireSpread := fireSpread s;
     smokeGrid := smokeGrid s; fireCellCount := fireCellCount s;
     hasSmoke := hasSmoke s; fireCols := fireCols s; fireRows := fireRows s;
     fireStartTime := fireStartTime s; blockedExits := blockedExits s;
     firefighters := firefighters s; firefightersSpawned := firefightersSpawned s;
     spawnedCount := spawnedCount s; totalToSpawn := totalToSpawn s;
     entranceWeights := entranceWeights s |}.
Definition set_fireSpread (v : list (list Q)) (s : t) : t :=
  {| layout := layout s; cfg := cfg s; agents := agents s; agentMap := agentMap s;
     simTime := simTime s; isRunning := isRunning s; isEvacuating := isEvacuating s;
     passable := passable s; hash := hash s; peakDensity := peakDensity s;
     timeAboveWarning := timeAboveWarning s; timeAboveDanger := timeAboveDanger s;
     egressTimes := egressTimes s; queues := queues s;
     queueServiced := queueServiced s; fireGrid := fireGrid s; fireSpread := v;
     smokeGrid := smokeGrid s; fireCellCount := fireCellCount s;
     hasSmoke := hasSmoke s; fireCols := fireCols s; fireRows := fireRows s;
     fireStartTime := fireStartTime s; blockedExits := blockedExits s;
     firefighters := firefighters s; firefightersSpawned := firefightersSpawned s;
     spawnedCount := spawnedCount s; totalToSpawn := totalToSpawn s;
     entranceWeights := entranceWeights s |}.
Definition set_smokeGrid (v : list (list Q)) (s : t) : t :=
  {| layout := layout s; cfg := cfg s; agents := agents s; agentMap := agentMap s;
     simTime := simTime s; isRunning := isRunning s; isEvacuating := isEvacuating s;
     passable := passable s; hash := hash s; peakDensity := peakDensity s;
     timeAboveWarning := timeAboveWarning s; timeAboveDanger := timeAboveDanger s;
     egressTimes := egressTimes s; queues := queues s;
     queueServiced := queueServiced s; fireGrid := fireGrid s;
     fireSpread := fireSpread s; smokeGrid := v; fireCellCount := fireCellCount s;
     hasSmoke := hasSmoke s; fireCols := fireCols s; fireRows := fireRows s;
     fireStartTime := fireStartTime s; blockedExits := blockedExits s;
     firefighters := firefighters s; firefightersSpawned := firefightersSpawned s;
     spawnedCount := spawnedCount s; totalToSpawn := totalToSpawn s;
     entranceWeights := entranceWeights s |}.
Definition set_fireCellCount (v : Z) (s : t) : t :=
  {| layout := layout s; cfg := cfg s; agents := agents s; agentMap := agentMap s;
     simTime := simTime s; isRunning := isRunning s; isEvacuating := isEvacuating s;
     passable := passable s; hash := hash s; peakDensity := peakDensity s;
     timeAboveWarning := timeAboveWarning s; timeAboveDanger := timeAboveDanger s;
     egressTimes := egressTimes s; queues := queues s;
     queueServiced := queueServiced s; fireGrid := fireGrid s;
     fireSpread := fireSpread s; smokeGrid := smokeGrid s; fireCellCount := v;
     hasSmoke := hasSmoke s; fireCols := fireCols s; fireRows := fireRows s;
     fireStartTime := fireStartTime s; blockedExits := blockedExits s;
     firefighters := firefighters s; firefightersSpawned := firefightersSpawned s;
     spawnedCount := spawnedCount s; totalToSpawn := totalToSpawn s;
     entranceWeights := entranceWeights s |}.
Definition set_hasSmoke (v : bool) (s : t) : t :=
  {| layout := layout s; cfg := cfg s; agents := agents s; agentMap := agentMap s;
     simTime := simTime s; isRunning := isRunning s; isEvacuating := isEvacuating s;
     passable := passable s; hash := hash s; peakDensity := peakDensity s;
     timeAboveWarning := timeAboveWarning s; timeAboveDanger := timeAboveDanger s;
     egressTimes := egressTimes s; queues := queues s;
     queueServiced := queueServiced s; fireGrid := fireGrid s;
     fireSpread := fireSpread s; smokeGrid := smokeGrid s;
     fireCellCount := fireCellCount s; hasSmoke := v; fireCols := fireCols s;
     fireRows := fireRows s; fireStartTime := fireStartTime s;
     blockedExits := blockedExits s; firefighters := firefighters s;
     firefightersSpawned := firefightersSpawned s; spawnedCount := spawnedCount s;
     totalToSpawn := totalToSpawn s; entranceWeights := entranceWeights s |}.
Definition set_fireCols (v : Z) (s : t) : t :=
  {| layout := layout s; cfg := cfg s; agents := agents s; agentMap := agentMap s;
     simTime := simTime s; isRunning := isRunning s; isEvacuating := isEvacuating s;
     passable := passable s; hash := hash s; peakDensity := peakDensity s;
     timeAboveWarning := timeAboveWarning s; timeAboveDanger := timeAboveDanger s;
     egressTimes := egressTimes s; queues := queues s;
     queueServiced := queueServiced s; fireGrid := fireGrid s;
     fireSpread := fireSpread s; smokeGrid := smokeGrid s;
     fireCellCount := fireCellCount s; hasSmoke := hasSmoke s; fireCols := v;
     fireRows := fireRows s; fireStartTime := fireStartTime s;
     blockedExits := blockedExits s; firefighters := firefighters s;
     firefightersSpawned := firefightersSpawned s; spawnedCount := spawnedCount s;
     totalToSpawn := totalToSpawn s; entranceWeights := entranceWeights s |}.
Definition set_fireRows (v : Z) (s : t) : t :=
  {| layout := layout s; cfg := cfg s; agents := agents s; agentMap := agentMap s;
     simTime := simTime s; isRunning := isRunning s; isEvacuating := isEvacuating s;
     passable := passable s; hash := hash s; peakDensity := peakDensity s;
     timeAboveWarning := timeAboveWarning s; timeAboveDanger := timeAboveDanger s;
     egressTimes := egressTimes s; queues := queues s;
     queueServiced := queueServiced s; fireGrid := fireGrid s;
     fireSpread := fireSpread s; smokeGrid := smokeGrid s;
     fireCellCount := fireCellCount s; hasSmoke := hasSmoke s; fireCols := fireCols s;
     fireRows := v; fireStartTime := fireStartTime s; blockedExits := blockedExits s;
     firefighters := firefighters s; firefightersSpawned := firefightersSpawned s;
     spawnedCount := spawnedCount s; totalToSpawn := totalToSpawn s;
     entranceWeights := entranceWeights s |}.
Definition set_fireStartTime (v : Q) (s : t) : t :=
  {| layout := layout s; cfg := cfg s; agents := agents s; agentMap := agentMap s;
     simTime := simTime s; isRunning := isRunning s; isEvacuating := isEvacuating s;
     passable := passable s; hash := hash s; peakDensity := peakDensity s;
     timeAboveWarning := timeAboveWarning s; timeAboveDanger := timeAboveDanger s;
     egressTimes := egressTimes s; queues := queues s;
     queueServiced := queueServiced s; fireGrid := fireGrid s;
     fireSpread := fireSpread s; smokeGrid := smokeGrid s;
     fireCellCount := fireCellCount s; hasSmoke := hasSmoke s; fireCols := fireCols s;
     fireRows := fireRows s; fireStartTime := v; blockedExits := blockedExits s;
     firefighters := firefighters s; firefightersSpawned := firefightersSpawned s;
     spawnedCount := spawnedCount s; totalToSpawn := totalToSpawn s;
     entranceWeights := entranceWeights s |}.
Definition set_blockedExits (v : gset string) (s : t) : t :=
  {| layout := layout s; cfg := cfg s; agents := agents s; agentMap := agentMap s;
     simTime := simTime s; isRunning := isRunning s; isEvacuating := isEvacuating s;
     passable := passable s; hash := hash s; peakDensity := peakDensity s;
     timeAboveWarning := timeAboveWarning s; timeAboveDanger := timeAboveDanger s;
     egressTimes := egressTimes s; queues := queues s;
     queueServiced := queueServiced s; fireGrid := fireGrid s;
     fireSpread := fireSpread s; smokeGrid := smokeGrid s;
     fireCellCount := fireCellCount s; hasSmoke := hasSmoke s; fireCols := fireCols s;
     fireRows := fireRows s; fireStartTime := fireStartTime s; blockedExits := v;
     firefighters := firefighters s; firefightersSpawned := firefightersSpawned s;
     spawnedCount := spawnedCount s; totalToSpawn := totalToSpawn s;
     entranceWeights := entranceWeights s |}.
Definition set_firefighters (v : list Firefighter.t) (s : t) : t :=
  {| layout := layout s; cfg := cfg s; agents := agents s; agentMap := agentMap s;
     simTime := simTime s; isRunning := isRunning s; isEvacuating := isEvacuating s;
     passable := passable s; hash := hash s; peakDensity := peakDensity s;
     timeAboveWarning := timeAboveWarning s; timeAboveDanger := timeAboveDanger s;
     egressTimes := egressTimes s; queues := queues s;
     queueServiced := queueServiced s; fireGrid := fireGrid s;
     fireSpread := fireSpread s; smokeGrid := smokeGrid s;
     fireCellCount := fireCellCount s; hasSmoke := hasSmoke s; fireCols := fireCols s;
     fireRows := fireRows s; fireStartTime := fireStartTime s;
     blockedExits := blockedExits s; firefighters := v;
     firefightersSpawned := firefightersSpawned s; spawnedCount := spawnedCount s;
     totalToSpawn := totalToSpawn s; entranceWeights := entranceWeights s |}.
Definition set_firefightersSpawned (v : bool) (s : t) : t :=
  {| layout := layout s; cfg := cfg s; agents := agents s; agentMap := agentMap s;
     simTime := simTime s; isRunning := isRunning s; isEvacuating := isEvacuating s;
     passable := passable s; hash := hash s; peakDensity := peakDensity s;
     timeAboveWarning := timeAboveWarning s; timeAboveDanger := timeAboveDanger s;
     egressTimes := egressTimes s; queues := queues s;
     queueServiced := queueServiced s; fireGrid := fireGrid s;
     fireSpread := fireSpread s; smokeGrid := smokeGrid s;
     fireCellCount := fireCellCount s; hasSmoke := hasSmoke s; fireCols := fireCols s;
     fireRows := fireRows s; fireStartTime := fireStartTime s;
     blockedExits := blockedExits s; firefighters := firefighters s;
     firefightersSpawned := v; spawnedCount := spawnedCount s;
     totalToSpawn := totalToSpawn s; entranceWeights := entranceWeights s |}.
Definition set_spawnedCount (v : Z) (s : t) : t :=
  {| layout := layout s; cfg := cfg s; agents := agents s; agentMap := agentMap s;
     simTime := simTime s; isRunning := isRunning s; isEvacuating := isEvacuating s;
     passable := passable s; hash := hash s; peakDensity := peakDensity s;
     timeAboveWarning := timeAboveWarning s; timeAboveDanger := timeAboveDanger s;
     egressTimes := egressTimes s; queues := queues s;
     queueServiced := queueServiced s; fireGrid := fireGrid s;
     fireSpread := fireSpread s; smokeGrid := smokeGrid s;
     fireCellCount := fireCellCount s; hasSmoke := hasSmoke s; fireCols := fireCols s;
     fireRows := fireRows s; fireStartTime := fireStartTime s;
     blockedExits := blockedExits s; firefighters := firefighters s;
     firefightersSpawned := firefightersSpawned s; spawnedCount := v;
     totalToSpawn := totalToSpawn s; entranceWeights := entranceWeights s |}.
Definition set_totalToSpawn (v : Q) (s : t) : t :=
  {| layout := layout s; cfg := cfg s; agents := agents s; agentMap := agentMap s;
     simTime := simTime s; isRunning := isRunning s; isEvacuating := isEvacuating s;
     passable := passable s; hash := hash s; peakDensity := peakDensity s;
     timeAboveWarning := timeAboveWarning s; timeAboveDanger := timeAboveDanger s;
     egressTimes := egressTimes s; queues := queues s;
     queueServiced := queueServiced s; fireGrid := fireGrid s;
     fireSpread := fireSpread s; smokeGrid := smokeGrid s;
     fireCellCount := fireCellCount s; hasSmoke := hasSmoke s; fireCols := fireCols s;
     fireRows := fireRows s; fireStartTime := fireStartTime s;
     blockedExits := blockedExits s; firefighters := firefighters s;
     firefightersSpawned := firefightersSpawned s; spawnedCount := spawnedCount s;
     totalToSpawn := v; entranceWeights := entranceWeights s |}.
Definition set_entranceWeights (v : list Q) (s : t) : t :=
  {| layout := layout s; cfg := cfg s; agents := agents s; agentMap := agentMap s;
     simTime := simTime s; isRunning := isRunning s; isEvacuating := isEvacuating s;
     passable := passable s; hash := hash s; peakDensity := peakDensity s;
     timeAboveWarning := timeAboveWarning s; timeAboveDanger := timeAboveDanger s;
     egressTimes := egressTimes s; queues := queues s;
     queueServiced := queueServiced s; fireGrid := fireGrid s;
     fireSpread := fireSpread s; smokeGrid := smokeGrid s;
     fireCellCount := fireCellCount s; hasSmoke := hasSmoke s; fireCols := fireCols s;
     fireRows := fireRows s; fireStartTime := fireStartTime s;
     blockedExits := blockedExits s; firefighters := firefighters s;
     firefightersSpawned := firefightersSpawned s; spawnedCount := spawnedCount s;
     totalToSpawn := totalToSpawn s; entranceWeights := v |}.

(** [this.agents[i]] is assigned (the agents are objects mutated in place:
    an agent is identified by its position in [this.agents], and
    [agentMap] holds, for an id, the position of the agent it refers to). *)
Definition set_agent (i : nat) (a : Agent.t) (s : t) : t :=
  set_agents (<[i := a]> (agents s)) s.

Definition set_firefighter (i : nat) (ff : Firefighter.t) (s : t) : t :=
  set_firefighters (<[i := ff]> (firefighters s)) s.

(** [for (const a of this.agents) body]: the body is run for every
    position of the array in turn (no body changes its length). *)
Definition forAgents (body : nat → t → t) (s : t) : t :=
  foldl (λ s i, body i s) s (seq 0 (length (agents s))).

Definition agentById (s : t) (id : Z) : option Agent.t :=
  i ← agentMap s !! id; agents s !! i.

(** Constants. *)
Definition TAU : Q := 0.5.
Definition A_AGENT : Q := 2.0.
Definition B_AGENT : Q := 0.15.
Definition A_WALL : Q := 3.0.
Definition B_WALL : Q := 0.1.
Definition STUCK_TIME : Q := 2.5.
Definition ASTAR_CELL : Q := 1.
Definition FIRE_SPREAD_RATE : Q := 0.18.
Definition FIRE_REPULSION : Q := 10.0.
Definition FIRE_REP_DECAY : Q := 0.4.
Definition FIRE_SEARCH_R : Z := 6.
Definition SMOKE_DIFFUSE : Q := 0.06.
Definition SMOKE_DECAY : Q := 0.018.
Definition FF_RESPONSE_DELAY : Q := 30.
Definition FF_COUNT : nat := 3.
Definition FF_SPEED : Q := 1.6.
Definition FF_EXTINGUISH_T : Q := 1.5.

Definition DIRS : list (Z * Z) := [(-1, 0); (1, 0); (0, -1); (0, 1)]%Z.

Definition in_fire_grid (s : t) (r c : Z) : bool :=
  (0 <=? r)%Z && (r <? fireRows s)%Z && (0 <=? c)%Z && (c <? fireCols s)%Z.

Definition clearFire (s : t) : t :=
  set_hasSmoke false
    (set_fireCellCount 0%Z
      (set_smokeGrid (grid_make (fireRows s) (fireCols s) 0)
        (set_fireSpread (grid_make (fireRows s) (fireCols s) 0)
          (set_fireGrid (grid_make (fireRows s) (fireCols s) false) s)))).

Definition rebuild (s : t) : t :=
  let l := layout s in
  let p := buildPassableGrid (VenueLayout.width l) (VenueLayout.height l)
             (map Wall.rect (VenueLayout.walls l)) ASTAR_CELL in
  let s := set_passable p s in
  let s := set_fireRows (Z.of_nat (length p)) s in
  let s := set_fireCols (grid_cols p) s in
  let s := clearFire s in
  let n := length (VenueLayout.entrances l) in
  let s := set_entranceWeights
             (map (λ _, 1 / inject_Z (Z.of_nat n)) (VenueLayout.entrances l)) s in
  let s := set_queues
             (foldl (λ m att, <[Attractor.id att := []]> m) ∅ (VenueLayout.attractors l)) s in
  set_queueServiced
    (foldl (λ m att, <[Attractor.id att := 0%Z]> m) ∅ (VenueLayout.attractors l)) s.

(** [new SimEngine(layout, cfg)]. *)
Definition new (l : VenueLayout.t) (c : SimConfig.t) : t :=
  rebuild
    {| layout := l; cfg := c; agents := []; agentMap := ∅; simTime := 0;
       isRunning := false; isEvacuating := false; passable := [];
       hash := SpatialHash.new (SimConfig.personalSpace c * 2);
       peakDensity := 0; timeAboveWarning := 0; timeAboveDanger := 0;
       egressTimes := []; queues := ∅; queueServiced := ∅;
       fireGrid := []; fireSpread := []; smokeGrid := [];
       fireCellCount := 0; hasSmoke := false; fireCols := 0; fireRows := 0;
       fireStartTime := -(1); blockedExits := ∅; firefighters := [];
       firefightersSpawned := false; spawnedCount := 0; totalToSpawn := 0;
       entranceWeights := [] |}.

Definition updateConfig (c : SimConfig.t) (s : t) : t := set_cfg c s.

Definition updateLayout (l : VenueLayout.t) (s : t) : t := rebuild (set_layout l s).

Definition start (s : t) : t := set_isRunning true s.
Definition pause (s : t) : t := set_isRunning false s.

(** [reset()]; it also rewinds the two module-level counters. *)
Definition reset (s : t) : Amb t := λ w,
  let s := set_agents [] s in
  let s := set_agentMap ∅ s in
  let s := set_simTime 0 s in
  let s := set_isRunning false s in
  let s := set_isEvacuating false s in
  let s := set_peakDensity 0 s in
  let s := set_timeAboveWarning 0 s in
  let s := set_timeAboveDanger 0 s in
  let s := set_egressTimes [] s in
  let s := set_spawnedCount 0%Z s in
  let s := set_queues ∅ s in
  let s := set_queueServiced ∅ s in
  let s := set_blockedExits ∅ s in
  let s := set_totalToSpawn (SimConfig.N (cfg s)) s in
  let s := rebuild s in
  let s := clearFire s in
  let s := set_firefighters [] s in
  let s := set_firefightersSpawned false s in
  let s := set_fireStartTime (-(1)) s in
  Some (s, {| _nextId := 0; _ffNextId := 0; random_tape := random_tape w |}).

Section Methods.
Context (Math : JsMath).

Definition agentPos (a : Agent.t) : Vec2.t :=
  {| Vec2.x := Agent.x a; Vec2.y := Agent.y a |}.

Definition exitPos (ex : Exit.t) : Vec2.t :=
  {| Vec2.x := Exit.x ex; Vec2.y := Exit.y ex |}.

(** The exits the agent may head for: the open ones, or all of them when
    every exit is blocked. *)
Definition exitPool (s : t) : list Exit.t :=
  let all := VenueLayout.exits (layout s) in
  let candidates := filter (λ ex, Exit.id ex ∉ blockedExits s) all in
  match candidates with
  | [] => all
  | _ => candidates
  end.

(** The scan [for (const ex of pool) if (d < bestD) …]. *)
Definition closerExit (a : Agent.t) (acc : Exit.t * Q) (ex : Exit.t) : Exit.t * Q :=
  let d := v2.dist2 (agentPos a) (exitPos ex) in
  if Qltb d acc.2 then (ex, d) else acc.

(** [nearestExitPos(agent)]: the goal, and the agent with its
    [targetExitId] assigned. *)
Definition nearestExitPos (s : t) (a : Agent.t) : Vec2.t * Agent.t :=
  match exitPool s with
  | [] =>
      ({| Vec2.x := VenueLayout.width (layout s) / 2;
          Vec2.y := VenueLayout.height (layout s) / 2 |}, a)
  | best0 :: _ =>
      let best := (foldl (closerExit a)
                     (best0, v2.dist2 (agentPos a) (exitPos best0))
                     (exitPool s)).1 in
      (exitPos best, Agent.set_targetExitId (Some (Exit.id best)) a)
  end.

Definition findAttractor (s : t) (id : option string) : option Attractor.t :=
  List.find (λ att, bool_decide (Some (Attractor.id att) = id))
    (VenueLayout.attractors (layout s)).

(** [computePath(agent)]. *)
Definition computePath (s : t) (a : Agent.t) : Agent.t :=
  let '(goal, a) :=
    if bool_decide (Agent.state a = seeking_attractor) && truthy (Agent.targetAttractorId a)
    then match findAttractor s (Agent.targetAttractorId a) with
         | Some att => ({| Vec2.x := Attractor.x att; Vec2.y := Attractor.y att |}, a)
         | None => nearestExitPos s a
         end
    else nearestExitPos s a in
  Agent.set_pathIndex 0%nat
    (Agent.set_path (astar Math (passable s) (agentPos a) goal ASTAR_CELL) a).

(** The states that [triggerEvacuation] turns into [evacuating]. *)
Definition leaves_for_evacuation (st : AgentState) : bool :=
  match st with
  | at_attractor | seeking_attractor | queuing => true
  | _ => false
  end.

(** The body of the loop of [triggerEvacuation] for the agent at
    position [i]. *)
Definition evacuateAgent (i : nat) (s : t) : t :=
  match agents s !! i with
  | None => s
  | Some a =>
      if bool_decide (Agent.state a = exited) then s
      else
        let '(a, s) :=
          if leaves_for_evacuation (Agent.state a) then
            let s := set_queues (remove_first (Agent.id a) <$> queues s) s in
            let a := Agent.set_state evacuating a in
            let a := Agent.set_targetAttractorId None a in
            (computePath s a, s)
          else (a, s) in
        set_agent i
          (Agent.set_speed (Agent.speed a * SimConfig.panicSpeedMultiplier (cfg s)) a) s
  end.

Definition triggerEvacuation (s : t) : t :=
  forAgents evacuateAgent (set_isEvacuating true s).

Definition startFire (wx wy : Q) (s : t) : t :=
  let c := Math_floor wx in
  let r := Math_floor wy in
  if in_fire_grid s r c && is_passable (passable s) r c then
    let s := if negb (grid_get false (fireGrid s) r c)
             then set_fireCellCount (fireCellCount s + 1)%Z
                    (set_fireGrid (grid_set (fireGrid s) r c true) s)
             else s in
    let s := if Qltb (fireStartTime s) 0 then set_fireStartTime (simTime s) s else s in
    if negb (isEvacuating s) then triggerEvacuation s else s
  else s.

Definition rerouteAgent (i : nat) (s : t) : t :=
  match agents s !! i with
  | None => s
  | Some a =>
      if (bool_decide (Agent.state a = seeking_exit)
          || bool_decide (Agent.state a = evacuating))
         && truthy (Agent.targetExitId a)
         && match Agent.targetExitId a with
            | Some id => bool_decide (id ∈ blockedExits s)
            | None => false
            end
      then set_agent i (computePath s (Agent.set_targetExitId None a)) s
      else s
  end.

Definition setBlockedExits (ids : gset string) (s : t) : t :=
  forAgents rerouteAgent (set_blockedExits ids s).

(** The inflow of smoke into cell [(r, c)] from its four neighbours. *)
Definition smokeInflow (s : t) (dt : Q) (r c : Z) : Q :=
  foldl (λ inflow d,
    let nr := (r + d.1)%Z in
    let nc := (c + d.2)%Z in
    if in_fire_grid s nr nc
    then inflow + grid_get 0 (smokeGrid s) nr nc * SMOKE_DIFFUSE * dt
    else inflow) 0 DIRS.

(** The body of the two loops of [spreadSmoke]: the cell [(r, c)] of the
    buffer [next] is written from the current grids. *)
Definition smokeCell (s : t) (dt : Q) (next : list (list Q)) (rc : Z * Z)
    : list (list Q) :=
  let '(r, c) := rc in
  if grid_get false (fireGrid s) r c then grid_set next r c 1
  else grid_set next r c
         (Math_min 1 (grid_get 0 (smokeGrid s) r c + smokeInflow s dt r c)
          * (1 - SMOKE_DECAY * dt)).

Definition spreadSmoke (dt : Q) (s : t) : t :=
  let next := foldl (smokeCell s dt) (smokeGrid s) (cells (fireRows s) (fireCols s)) in
  set_hasSmoke (existsb (λ row, existsb (λ v, Qltb 0.01 v) row) next)
    (set_smokeGrid next s).

(** One neighbour of a burning cell: the accumulator [fireSpread] and the
    list [ignite] after the body of the inner loop of [spreadFire]. *)
Definition heatNeighbour (s : t) (dt : Q) (r c : Z)
    (acc : list (list Q) * list (Z * Z)) (d : Z * Z) : list (list Q) * list (Z * Z) :=
  let '(spread, ignite) := acc in
  let nr := (r + d.1)%Z in
  let nc := (c + d.2)%Z in
  if negb (in_fire_grid s nr nc) then acc
  else if grid_get false (fireGrid s) nr nc || negb (is_passable (passable s) nr nc)
  then acc
  else
    let v := grid_get 0 spread nr nc + dt * FIRE_SPREAD_RATE in
    if Qleb 1 v then (grid_set spread nr nc 0, ignite ++ [(nr, nc)])
    else (grid_set spread nr nc v, ignite).

Definition heatCell (s : t) (dt : Q) (acc : list (list Q) * list (Z * Z)) (rc : Z * Z)
    : list (list Q) * list (Z * Z) :=
  if negb (grid_get false (fireGrid s) rc.1 rc.2) then acc
  else foldl (heatNeighbour s dt rc.1 rc.2) acc DIRS.

(** [this.fireGrid[r][c] = true; this.fireCellCount++]. *)
Definition igniteCell (s : t) (rc : Z * Z) : t :=
  set_fireCellCount (fireCellCount s + 1)%Z
    (set_fireGrid (grid_set (fireGrid s) rc.1 rc.2 true) s).

Definition spreadFire (dt : Q) (s : t) : t :=
  let '(spread, ignite) :=
    foldl (heatCell s dt) (fireSpread s, []) (cells (fireRows s) (fireCols s)) in
  foldl igniteCell (set_fireSpread spread s) ignite.

(** *** Firefighters *)

Definition spawnFirefighter (i : nat) (s : t) : Amb t :=
  match VenueLayout.entrances (layout s)
          !! (i `mod` length (VenueLayout.entrances (layout s)))%nat with
  | None => amb_ret s
  | Some ent =>
      do id <- fresh_ff_id;
      do u <- Math_random;
      amb_ret (set_firefighters
        (firefighters s ++
          [{| Firefighter.id := id;
              Firefighter.x := Entrance.x ent + (u - 0.5) * Entrance.width ent * 0.5;
              Firefighter.y := Entrance.y ent;
              Firefighter.vx := 0; Firefighter.vy := 0;
              Firefighter.path := []; Firefighter.pathIndex := 0%nat;
              Firefighter.targetCell := None;
              Firefighter.extinguishTimer := 0 |}]) s)
  end.

Definition spawnFirefighters (s : t) : Amb t :=
  match VenueLayout.entrances (layout s) with
  | [] => amb_ret s
  | _ => foldl (λ m i, do s <- m; spawnFirefighter i s) (amb_ret s) (seq 0 FF_COUNT)
  end.

Definition findNearestFireCell (s : t) (x y : Q) : option (Z * Z) :=
  (foldl (λ (acc : option (Z * Z) * option Q) rc,
     if negb (grid_get false (fireGrid s) rc.1 rc.2) then acc
     else
       let d2 := (x - (inject_Z rc.2 + 0.5)) ^ 2 + (y - (inject_Z rc.1 + 0.5)) ^ 2 in
       if match acc.2 with None => true | Some bestD2 => Qltb d2 bestD2 end
       then (Some rc, Some d2) else acc)
    (None, None) (cells (fireRows s) (fireCols s))).1.

(** The water reaches one of the eight neighbours of the target cell. *)
Definition douseNeighbour (r c : Z) (s : t) (d : Z * Z) : t :=
  if (d.1 =? 0)%Z && (d.2 =? 0)%Z then s
  else
    let nr := (r + d.1)%Z in
    let nc := (c + d.2)%Z in
    if negb (in_fire_grid s nr nc) then s
    else
      let s :=
        if grid_get false (fireGrid s) nr nc
           && Qltb (grid_get 0 (fireSpread s) nr nc) 0.6
        then set_fireCellCount (fireCellCount s - 1)%Z
               (set_fireGrid (grid_set (fireGrid s) nr nc false) s)
        else s in
      set_fireSpread (grid_set (fireSpread s) nr nc 0) s.

Definition around : list (Z * Z) :=
  dr ← seqZ (-1) 3; dc ← seqZ (-1) 3; [(dr, dc)].

(** The target cell and its neighbourhood are extinguished. *)
Definition extinguish (r c : Z) (s : t) : t :=
  let s :=
    if grid_get false (fireGrid s) r c
    then set_fireSpread (grid_set (fireSpread s) r c 0)
           (set_fireCellCount (fireCellCount s - 1)%Z
             (set_fireGrid (grid_set (fireGrid s) r c false) s))
    else s in
  foldl (douseNeighbour r c) s around.

(** The body of the loop of [tickFirefighters] for one firefighter. *)
Definition tickFirefighter (dt : Q) (ff : Firefighter.t) (s : t) : Firefighter.t * t :=
  if Qltb 0 (Firefighter.extinguishTimer ff) then
    let ff := Firefighter.set_extinguishTimer (Firefighter.extinguishTimer ff - dt) ff in
    let ff := Firefighter.set_vx (Firefighter.vx ff * 0.8) ff in
    let ff := Firefighter.set_vy (Firefighter.vy ff * 0.8) ff in
    match Firefighter.targetCell ff with
    | Some (r, c) =>
        if Qleb (Firefighter.extinguishTimer ff) 0
        then (Firefighter.set_targetCell None ff, extinguish r c s)
        else (ff, s)
    | None => (ff, s)
    end
  else
    let retarget :=
      match Firefighter.targetCell ff with
      | None => true
      | Some (tr, tc) => negb (grid_get false (fireGrid s) tr tc)
      end in
    let planned :=
      if retarget then
        match findNearestFireCell s (Firefighter.x ff) (Firefighter.y ff) with
        | None => None
        | Some cell =>
            let ff := Firefighter.set_targetCell (Some cell) ff in
            let ff := Firefighter.set_path
                        (astar Math (passable s)
                           {| Vec2.x := Firefighter.x ff; Vec2.y := Firefighter.y ff |}
                           {| Vec2.x := inject_Z cell.2 + 0.5;
                              Vec2.y := inject_Z cell.1 + 0.5 |}
                           ASTAR_CELL) ff in
            Some (Firefighter.set_pathIndex 0%nat ff)
        end
      else Some ff in
    match planned with
    | None =>
        (Firefighter.set_vy (Firefighter.vy ff * 0.9)
           (Firefighter.set_vx (Firefighter.vx ff * 0.9) ff), s)
    | Some ff =>
        match Firefighter.path ff !! Firefighter.pathIndex ff with
        | None =>
            let ff := Firefighter.set_vx (Firefighter.vx ff * 0.5) ff in
            let ff := Firefighter.set_vy (Firefighter.vy ff * 0.5) ff in
            (match Firefighter.targetCell ff with
             | Some _ => Firefighter.set_extinguishTimer FF_EXTINGUISH_T ff
             | None => ff
             end, s)
        | Some wp =>
            let dx := Vec2.x wp - Firefighter.x ff in
            let dy := Vec2.y wp - Firefighter.y ff in
            let dist := Math_sqrt Math (dx * dx + dy * dy) in
            let ff :=
              if Qltb dist 0.6
              then Firefighter.set_pathIndex (S (Firefighter.pathIndex ff)) ff
              else
                let ax := ((dx / dist) * FF_SPEED - Firefighter.vx ff) / 0.3 in
                let ay := ((dy / dist) * FF_SPEED - Firefighter.vy ff) / 0.3 in
                let ff := Firefighter.set_vx (Firefighter.vx ff + ax * dt) ff in
                let ff := Firefighter.set_vy (Firefighter.vy ff + ay * dt) ff in
                let spd := Math_sqrt Math (Firefighter.vx ff ^ 2 + Firefighter.vy ff ^ 2) in
                if Qltb FF_SPEED spd then
                  Firefighter.set_vy (Firefighter.vy ff * (FF_SPEED / spd))
                    (Firefighter.set_vx (Firefighter.vx ff * (FF_SPEED / spd)) ff)
                else ff in
            let ff := Firefighter.set_x (Firefighter.x ff + Firefighter.vx ff * dt) ff in
            let ff := Firefighter.set_y (Firefighter.y ff + Firefighter.vy ff * dt) ff in
            let ff := Firefighter.set_x
                        (v2.clamp (Firefighter.x ff) 0.5
                           (VenueLayout.width (layout s) - 0.5)) ff in
            let ff := Firefighter.set_y
                        (v2.clamp (Firefighter.y ff) 0.5
                           (VenueLayout.height (layout s) - 0.5)) ff in
            let '(x, y, vx, vy) :=
              foldl (pushOutOfWall 0.3)
                (Firefighter.x ff, Firefighter.y ff, Firefighter.vx ff, Firefighter.vy ff)
                (VenueLayout.walls (layout s)) in
            (Firefighter.set_vy vy (Firefighter.set_vx vx
               (Firefighter.set_y y (Firefighter.set_x x ff))), s)
        end
    end.

Definition tickFirefighterAt (dt : Q) (s : t) (i : nat) : t :=
  match firefighters s !! i with
  | None => s
  | Some ff => let '(ff, s) := tickFirefighter dt ff s in set_firefighter i ff s
  end.

Definition tickFirefighters (dt : Q) (s : t) : Amb t :=
  do s <-
    (if negb (firefightersSpawned s) && Qleb 0 (fireStartTime s)
        && Qleb FF_RESPONSE_DELAY (simTime s - fireStartTime s)
     then do s <- spawnFirefighters s; amb_ret (set_firefightersSpawned true s)
     else amb_ret s);
  amb_ret (foldl (tickFirefighterAt dt) s (seq 0 (length (firefighters s)))).

(** *** Spawning *)

(** The weighted draw of [pickAttractor]: [r] is the drawn threshold and
    [acc] the weight accumulated so far. *)
Fixpoint pickFrom (s : t) (r acc : Q) (atts : list Attractor.t) : option string :=
  match atts with
  | [] => None
  | att :: rest =>
      let acc := acc + Attractor.weight att in
      if Qleb r acc then
        if SimConfig.queueEnabled (cfg s) && Attractor.queueEnabled att
           && Qleb (Attractor.queueCapacity att)
                (inject_Z (Z.of_nat (length (default [] (queues s !! Attractor.id att)))
                           + default 0%Z (queueServiced s !! Attractor.id att)))
        then pickFrom s r acc rest
        else Some (Attractor.id att)
      else pickFrom s r acc rest
  end.

Definition pickAttractor (s : t) : Amb (option string) :=
  match VenueLayout.attractors (layout s) with
  | [] => amb_ret None
  | atts =>
      if isEvacuating s then amb_ret None
      else
        let totalWeight := foldl (λ w a, w + Attractor.weight a) 0 atts in
        if Qeqb totalWeight 0 then amb_ret None
        else
          do u <- Math_random;
          amb_ret (pickFrom s (u * totalWeight) 0 atts)
  end.

Definition spawnOneAgent (s : t) : Amb t :=
  let entrances := VenueLayout.entrances (layout s) in
  do u <- Math_random;
  match entrances !! Z.to_nat (Math_floor (u * inject_Z (Z.of_nat (length entrances)))) with
  | None => λ _, None
  | Some entrance =>
      do ux <- Math_random;
      let x := Entrance.x entrance + (ux - 0.5) * Entrance.width entrance * 0.8 in
      do uy <- Math_random;
      let y := Entrance.y entrance + (uy - 0.5) * 0.5 in
      do sample <- randNormal Math (SimConfig.speedMean (cfg s))
                     ((SimConfig.speedMax (cfg s) - SimConfig.speedMin (cfg s)) / 4);
      let speed := v2.clamp sample (SimConfig.speedMin (cfg s))
                     (SimConfig.speedMax (cfg s)) in
      do targetAttractorId <- pickAttractor s;
      do id <- fresh_agent_id;
      do ur <- Math_random;
      let agent :=
        {| Agent.id := id; Agent.x := x; Agent.y := y;
           Agent.vx := 0; Agent.vy := 0;
           Agent.radius := 0.22 + ur * 0.06;
           Agent.speed := speed;
           Agent.state := if truthy targetAttractorId
                          then seeking_attractor else seeking_exit;
           Agent.targetAttractorId := targetAttractorId;
           Agent.targetExitId := None;
           Agent.path := []; Agent.pathIndex := 0%nat;
           Agent.spawnTime := simTime s; Agent.exitTime := -(1);
           Agent.atAttractorUntil := -(1); Agent.stuckTimer := 0 |} in
      let agent := computePath s agent in
      amb_ret
        (set_spawnedCount (spawnedCount s + 1)%Z
          (set_agentMap (<[Agent.id agent := length (agents s)]> (agentMap s))
            (set_agents (agents s ++ [agent]) s)))
  end.

(** The fraction of the population that has arrived at [simTime].  With
    an arrival duration of zero the quotients of the source are infinite
    (everybody has arrived once [simTime > 0]) or undefined (nobody is
    spawned). *)
Definition targetFraction (s : t) : Q :=
  let durationSec := SimConfig.arrivalDuration (cfg s) * 60 in
  match SimConfig.arrivalMode (cfg s) with
  | burst => if Qltb (simTime s) 5 then 1 else 1
  | linear =>
      if Qeqb durationSec 0 then (if Qltb 0 (simTime s) then 1 else 0)
      else Math_min 1 (simTime s / durationSec)
  | gaussian =>
      if Qeqb durationSec 0 then (if Qltb 0 (simTime s) then 1 else 0)
      else gaussianCDF Math (simTime s) (durationSec * 0.5) (durationSec * 0.2)
  end.

(** [for (let i = 0; i < toSpawn && this.spawnedCount < cfg.N; i++)]. *)
Fixpoint spawnLoop (toSpawn : nat) (s : t) : Amb t :=
  match toSpawn with
  | O => amb_ret s
  | S k =>
      if Qltb (inject_Z (spawnedCount s)) (SimConfig.N (cfg s))
      then do s <- spawnOneAgent s; spawnLoop k s
      else amb_ret s
  end.

Definition spawnAgents (dt : Q) (s : t) : Amb t :=
  if Qleb (SimConfig.N (cfg s)) (inject_Z (spawnedCount s))
     || bool_decide (VenueLayout.entrances (layout s) = [])
  then amb_ret s
  else
    let targetCount := Math_floor (targetFraction s * SimConfig.N (cfg s)) in
    let toSpawn := Z.max 0 (targetCount - spawnedCount s) in
    spawnLoop (Z.to_nat toSpawn) s.

(** *** The agent update *)

Definition checkExitArrival (a : Agent.t) (s : t) : Agent.t * t :=
  if negb (bool_decide (Agent.state a = seeking_exit))
     && negb (bool_decide (Agent.state a = evacuating))
  then (a, s)
  else if existsb (λ ex,
             negb (bool_decide (Exit.id ex ∈ blockedExits s))
             && Qltb (v2.dist Math (agentPos a) (exitPos ex))
                  (Exit.width ex / 2 + Agent.radius a + 0.3))
           (VenueLayout.exits (layout s))
  then
    let a := Agent.set_state exited a in
    let a := Agent.set_exitTime (simTime s) a in
    (a, set_egressTimes (egressTimes s ++ [Agent.exitTime a - Agent.spawnTime a]) s)
  else (a, s).

Definition onAgentReachedTarget (a : Agent.t) (s : t) : Agent.t * t :=
  if bool_decide (Agent.state a = seeking_attractor) && truthy (Agent.targetAttractorId a)
  then
    match findAttractor s (Agent.targetAttractorId a) with
    | None => (computePath s (Agent.set_state seeking_exit a), s)
    | Some att =>
        if SimConfig.queueEnabled (cfg s) && Attractor.queueEnabled att then
          let q := default [] (queues s !! Attractor.id att) in
          let q := if bool_decide (Agent.id a ∈ q) then q else q ++ [Agent.id a] in
          (Agent.set_state queuing a,
           set_queues (<[Attractor.id att := q]> (queues s)) s)
        else
          (Agent.set_atAttractorUntil (simTime s + Attractor.serviceTime att)
             (Agent.set_state at_attractor a),
           set_queueServiced
             (<[Attractor.id att :=
                  (default 0%Z (queueServiced s !! Attractor.id att) + 1)%Z]>
                (queueServiced s)) s)
    end
  else (computePath s (Agent.set_state seeking_exit a), s).

(** Local smoke slows the agent down. *)
Definition smokeFactor (s : t) (a : Agent.t) : Q :=
  match smokeGrid s with
  | [] => 1
  | _ =>
      let sr := Math_floor (Agent.y a) in
      let sc := Math_floor (Agent.x a) in
      if in_fire_grid s sr sc then
        let v := grid_get 0 (smokeGrid s) sr sc in
        if Qltb 0.15 v then Math_max 0.35 (1 - v * 0.65) else 1
      else 1
  end.

Definition agentRepulsion (s : t) (a : Agent.t) (f : Q * Q) (nid : Z) : Q * Q :=
  if (nid =? Agent.id a)%Z then f
  else
    match agentById s nid with
    | None => f
    | Some nb =>
        if bool_decide (Agent.state nb = exited) then f
        else
          let ddx := Agent.x a - Agent.x nb in
          let ddy := Agent.y a - Agent.y nb in
          let dist := Math_sqrt Math (ddx * ddx + ddy * ddy) in
          let minDist := Agent.radius a + Agent.radius nb in
          if Qltb dist 1e-6 then f
          else
            let overlap := minDist - dist in
            if Qltb (- SimConfig.personalSpace (cfg s) * 2) overlap then
              let strength := A_AGENT * SimConfig.avoidanceStrength (cfg s)
                              * Math_exp Math (overlap / B_AGENT) in
              (f.1 + strength * (ddx / dist), f.2 + strength * (ddy / dist))
            else f
    end.

Definition wallRepulsion (a : Agent.t) (f : Q * Q) (wall : Wall.t) : Q * Q :=
  let r := Wall.rect wall in
  let '(cx, cy, dist2) :=
    closestPointOnRect (Agent.x a) (Agent.y a) (Rect.x r) (Rect.y r) (Rect.w r) (Rect.h r) in
  let dist := Math_sqrt Math dist2 in
  if Qltb dist 1.5 && Qltb 1e-6 dist then
    let strength := A_WALL * Math_exp Math ((Agent.radius a - dist) / B_WALL) in
    (f.1 + strength * (Agent.x a - cx) / dist, f.2 + strength * (Agent.y a - cy) / dist)
  else f.

Definition fireWindow : list (Z * Z) :=
  dr ← seqZ (- FIRE_SEARCH_R) (2 * FIRE_SEARCH_R + 1);
  dc ← seqZ (- FIRE_SEARCH_R) (2 * FIRE_SEARCH_R + 1);
  [(dr, dc)].

Definition fireRepulsion (s : t) (a : Agent.t) (f : Q * Q) (d : Z * Z) : Q * Q :=
  let nr := (Math_floor (Agent.y a) + d.1)%Z in
  let nc := (Math_floor (Agent.x a) + d.2)%Z in
  if negb (in_fire_grid s nr nc) then f
  else if negb (grid_get false (fireGrid s) nr nc) then f
  else
    let cx := inject_Z nc + 0.5 in
    let cy := inject_Z nr + 0.5 in
    let ddx := Agent.x a - cx in
    let ddy := Agent.y a - cy in
    let dist := Math_sqrt Math (ddx * ddx + ddy * ddy) in
    if Qltb dist 0.01 then f
    else
      let str := FIRE_REPULSION * Math_exp Math (- dist / FIRE_REP_DECAY) in
      (f.1 + (ddx / dist) * str, f.2 + (ddy / dist) * str).

(** The sum of the four force terms for the desired velocity
    [(desiredVx, desiredVy)]. *)
Definition socialForce (s : t) (a : Agent.t) (desiredVx desiredVy : Q) : Q * Q :=
  let f := ((desiredVx - Agent.vx a) / TAU, (desiredVy - Agent.vy a) / TAU) in
  let f := foldl (agentRepulsion s a) f
             (SpatialHash.query (hash s) (Agent.x a) (Agent.y a)
                (Agent.radius a * 6 + 1.5)) in
  let f := foldl (wallRepulsion a) f (VenueLayout.walls (layout s)) in
  if (0 <? fireRows s)%Z then foldl (fireRepulsion s a) f fireWindow else f.

Definition resolveWallCollisions (s : t) (a : Agent.t) : Agent.t :=
  let '(x, y, vx, vy) :=
    foldl (pushOutOfWall (Agent.radius a))
      (Agent.x a, Agent.y a, Agent.vx a, Agent.vy a)
      (VenueLayout.walls (layout s)) in
  Agent.set_vy vy (Agent.set_vx vx (Agent.set_y y (Agent.set_x x a))).

(** From "Determine desired velocity" to the end of [updateAgent], for an
    agent that has the waypoint [waypoint] at distance [distToWP] in the
    direction [(dx, dy)]. *)
Definition moveAgent (dt : Q) (dx dy distToWP : Q) (a : Agent.t) (s : t)
    : Agent.t * t :=
  let desiredDir := if Qltb 1e-6 distToWP
                    then (dx / distToWP, dy / distToWP) else (0, 0) in
  let sf := smokeFactor s a in
  let desiredVx := desiredDir.1 * Agent.speed a * sf in
  let desiredVy := desiredDir.2 * Agent.speed a * sf in
  let f := socialForce s a desiredVx desiredVy in
  let a := Agent.set_vx (Agent.vx a + f.1 * dt) a in
  let a := Agent.set_vy (Agent.vy a + f.2 * dt) a in
  let speed := Math_sqrt Math (Agent.vx a ^ 2 + Agent.vy a ^ 2) in
  let maxSpeed := Agent.speed a * 1.5 in
  let a := if Qltb maxSpeed speed
           then Agent.set_vy ((Agent.vy a / speed) * maxSpeed)
                  (Agent.set_vx ((Agent.vx a / speed) * maxSpeed) a)
           else a in
  let a := Agent.set_x (Agent.x a + Agent.vx a * dt) a in
  let a := Agent.set_y (Agent.y a + Agent.vy a * dt) a in
  let a := Agent.set_x (v2.clamp (Agent.x a) (Agent.radius a)
                          (VenueLayout.width (layout s) - Agent.radius a)) a in
  let a := Agent.set_y (v2.clamp (Agent.y a) (Agent.radius a)
                          (VenueLayout.height (layout s) - Agent.radius a)) a in
  let a := resolveWallCollisions s a in
  let a := if Qltb speed 0.05 then
             let a := Agent.set_stuckTimer (Agent.stuckTimer a + dt) a in
             if Qltb STUCK_TIME (Agent.stuckTimer a)
             then computePath s (Agent.set_stuckTimer 0 a)
             else a
           else Agent.set_stuckTimer 0 a in
  checkExitArrival a s.

(** [updateAgent(agent, dt)] on the agent object [a]. *)
Definition updateAgent (dt : Q) (a : Agent.t) (s : t) : Agent.t * t :=
  match Agent.state a with
  | at_attractor =>
      if Qleb (Agent.atAttractorUntil a) (simTime s) then
        let s :=
          match Agent.targetAttractorId a with
          | Some aId =>
              if truthy (Some aId)
              then set_queueServiced
                     (<[aId := Z.max 0 (default 1%Z (queueServiced s !! aId) - 1)]>
                        (queueServiced s)) s
              else s
          | None => s
          end in
        let a := Agent.set_state seeking_exit a in
        let a := Agent.set_targetAttractorId None a in
        (computePath s a, s)
      else (a, s)
  | queuing =>
      (Agent.set_vy (Agent.vy a * 0.8) (Agent.set_vx (Agent.vx a * 0.8) a), s)
  | _ =>
      match Agent.path a !! Agent.pathIndex a with
      | None =>
          let a := Agent.set_state
                     (if isEvacuating s then evacuating else seeking_exit) a in
          (computePath s a, s)
      | Some waypoint =>
          let dx := Vec2.x waypoint - Agent.x a in
          let dy := Vec2.y waypoint - Agent.y a in
          let distToWP := Math_sqrt Math (dx * dx + dy * dy) in
          if Qltb distToWP 0.6 then
            let a := Agent.set_pathIndex (S (Agent.pathIndex a)) a in
            if (length (Agent.path a) <=? Agent.pathIndex a)%nat
            then onAgentReachedTarget a s
            else moveAgent dt dx dy distToWP a s
          else moveAgent dt dx dy distToWP a s
      end
  end.

(** The body of the update loop of [tick] for the agent at position [i]. *)
Definition updateAgentAt (dt : Q) (i : nat) (s : t) : t :=
  match agents s !! i with
  | None => s
  | Some a =>
      if bool_decide (Agent.state a = exited) then s
      else let '(a, s) := updateAgent dt a s in set_agent i a s
  end.

(** The body of the loop of [processQueues] for one attractor. *)
Definition serveQueue (s : t) (att : Attractor.t) : t :=
  if negb (Attractor.queueEnabled att) || negb (SimConfig.queueEnabled (cfg s)) then s
  else
    match queues s !! Attractor.id att with
    | None | Some [] => s
    | Some (nextId :: rest) =>
        let served := default 0%Z (queueServiced s !! Attractor.id att) in
        if (served <? 1)%Z then
          let s := set_queues (<[Attractor.id att := rest]> (queues s)) s in
          match agentMap s !! nextId with
          | None => s
          | Some i =>
              match agents s !! i with
              | None => s
              | Some agent =>
                  let agent := Agent.set_state at_attractor agent in
                  let agent := Agent.set_atAttractorUntil
                                 (simTime s + Attractor.serviceTime att) agent in
                  set_queueServiced
                    (<[Attractor.id att := (served + 1)%Z]> (queueServiced s))
                    (set_agent i agent s)
              end
          end
        else s
    end.

Definition processQueues (dt : Q) (s : t) : t :=
  foldl serveQueue s (VenueLayout.attractors (layout s)).

(** *** Metrics *)

Definition computeDensityGrid (s : t) : list (list Q) :=
  let cellSize := SimConfig.cellSize (cfg s) in
  let cols := Math_ceil (VenueLayout.width (layout s) / cellSize) in
  let rows := Math_ceil (VenueLayout.height (layout s) / cellSize) in
  foldl (λ grid a,
    if bool_decide (Agent.state a = exited) then grid
    else
      let c := Math_floor (Agent.x a / cellSize) in
      let r := Math_floor (Agent.y a / cellSize) in
      if (0 <=? r)%Z && (r <? rows)%Z && (0 <=? c)%Z && (c <? cols)%Z
      then grid_set grid r c (grid_get 0 grid r c + 1 / (cellSize * cellSize))
      else grid)
    (grid_make rows cols 0) (agents s).

Definition maxOfGrid (grid : list (list Q)) : Q :=
  foldl (λ max row, foldl (λ max v, if Qltb max v then v else max) max row) 0 grid.

Definition activeAgents (s : t) : list Agent.t :=
  filter (λ a, Agent.state a ≠ exited) (agents s).

Definition getMetrics (s : t) : Metrics.t :=
  let sorted := sort_numbers (egressTimes s) in
  {| Metrics.simTime := simTime s;
     Metrics.activeAgents := Z.of_nat (length (activeAgents s));
     Metrics.exitedAgents := Z.of_nat (length (egressTimes s));
     Metrics.peakDensity := peakDensity s;
     Metrics.currentMaxDensity := maxOfGrid (computeDensityGrid s);
     Metrics.timeAboveWarning := timeAboveWarning s;
     Metrics.timeAboveDanger := timeAboveDanger s;
     Metrics.avgEgressTime :=
       match sorted with
       | [] => 0
       | _ => foldl Qplus 0 sorted / inject_Z (Z.of_nat (length sorted))
       end;
     Metrics.p95EgressTime := percentile sorted 95;
     Metrics.queueLengths := (λ q : list Z, Z.of_nat (length q)) <$> queues s;
     Metrics.maxQueueLengths := (λ q : list Z, Z.of_nat (length q)) <$> queues s |}.

Definition getFrame (s : t) : SimFrame.t :=
  let grid := computeDensityGrid s in
  {| SimFrame.agents :=
       map (λ a, {| AgentView.id := Agent.id a; AgentView.x := Agent.x a;
                    AgentView.y := Agent.y a; AgentView.vx := Agent.vx a;
                    AgentView.vy := Agent.vy a; AgentView.radius := Agent.radius a;
                    AgentView.state := Agent.state a |})
         (activeAgents s);
     SimFrame.densityGrid := grid;
     SimFrame.gridCols := grid_cols grid;
     SimFrame.gridRows := Z.of_nat (length grid);
     SimFrame.metrics := getMetrics s;
     SimFrame.simTime := simTime s;
     SimFrame.isRunning := isRunning s;
     SimFrame.isEvacuating := isEvacuating s;
     SimFrame.fireGrid := fireGrid s;
     SimFrame.fireCols := fireCols s;
     SimFrame.fireRows := fireRows s;
     SimFrame.firefighters :=
       map (λ ff, {| FirefighterView.id := Firefighter.id ff;
                     FirefighterView.x := Firefighter.x ff;
                     FirefighterView.y := Firefighter.y ff;
                     FirefighterView.extinguishing :=
                       Qltb 0 (Firefighter.extinguishTimer ff);
                     FirefighterView.targetRow := fst <$> Firefighter.targetCell ff;
                     FirefighterView.targetCol := snd <$> Firefighter.targetCell ff |})
         (firefighters s);
     SimFrame.smokeGrid := smokeGrid s;
     SimFrame.blockedExits := elements (blockedExits s) |}.

(** *** The tick *)

Definition rebuildHash (s : t) : t :=
  set_hash
    (foldl (λ h a,
       if bool_decide (Agent.state a = exited) then h
       else SpatialHash.insert (Agent.id a) (Agent.x a) (Agent.y a) h)
      (SpatialHash.clear (hash s)) (agents s)) s.

(** The fire and smoke phase. *)
Definition tickHazards (dt : Q) (s : t) : t :=
  if (0 <? fireCellCount s)%Z then spreadSmoke dt (spreadFire dt s)
  else if hasSmoke s then spreadSmoke dt s
  else s.

(** The density phase: peak and threshold accumulators. *)
Definition tickMetrics (dt : Q) (s : t) : t :=
  let maxDensity := maxOfGrid (computeDensityGrid s) in
  let s := if Qltb (peakDensity s) maxDensity then set_peakDensity maxDensity s else s in
  let s := if Qltb (SimConfig.densityWarning (cfg s)) maxDensity
           then set_timeAboveWarning (timeAboveWarning s + dt) s else s in
  if Qltb (SimConfig.densityDanger (cfg s)) maxDensity
  then set_timeAboveDanger (timeAboveDanger s + dt) s else s.

(** The evacuation trigger at the head of [tick]. *)
Definition tickAlarm (s : t) : t :=
  if SimConfig.evacuationEnabled (cfg s) && negb (isEvacuating s)
     && Qleb (SimConfig.evacuationTime (cfg s) * 60) (simTime s)
  then triggerEvacuation s else s.

(** The crowd phase: the spatial hash is rebuilt, every agent that has not
    exited is updated, and the queues are served. *)
Definition tickCrowd (dt : Q) (s : t) : t :=
  let s := rebuildHash s in
  let s := forAgents (updateAgentAt dt) s in
  processQueues dt s.

(** [tick(dt)]. *)
Definition tick (dt : Q) (s : t) : Amb t :=
  if negb (isRunning s) then amb_ret s
  else
    let dt := Math_min dt 0.05 in
    let s := tickAlarm s in
    let s := tickHazards dt s in
    do s <- tickFirefighters dt s;
    do s <- spawnAgents dt s;
    let s := tickCrowd dt s in
    let s := tickMetrics dt s in
    amb_ret (set_simTime (simTime s + dt) s).
End Methods.
End SimEngine.

(** ** The sweep runner *)

(** [for (let n = sweepMinN; n <= sweepMaxN; n += step) values.push(n)].
    With a step that is not positive the loop of the source does not end;
    [sweepValues] is [None] then. *)
Fixpoint sweepValuesFrom (fuel : nat) (n maxN step : Q) : option (list Q) :=
  match fuel with
  | O => None
  | S fuel' =>
      if Qleb n maxN
      then cons n <$> sweepValuesFrom fuel' (n + step) maxN step
      else Some []
  end.

Definition sweepValues (baseCfg : SimConfig.t) : option (list Q) :=
  let minN := SimConfig.sweepMinN baseCfg in
  let maxN := SimConfig.sweepMaxN baseCfg in
  let step := SimConfig.sweepStep baseCfg in
  sweepValuesFrom (S (S (Z.to_nat (Math_floor ((maxN - minN) / step))))) minN maxN step.

Section Sweep.
Context (Math : JsMath).

Definition DT : Q := 0.05.

(** [for (let t = 0; t < simDuration; t += DT) { engine.tick(DT); if (…) break; }]
    with [t = k · DT] at round [k]; [rounds] is the number of values of [t]
    below [simDuration]. *)
Fixpoint sweepLoop (rounds : nat) (k : Z) (evacuationSec : Q) (engine : SimEngine.t)
    : Amb SimEngine.t :=
  match rounds with
  | O => amb_ret engine
  | S rounds' =>
      do engine <- SimEngine.tick Math DT engine;
      if Qltb (evacuationSec + 60) (inject_Z k * DT)
         && (Metrics.activeAgents (SimEngine.getMetrics engine) =? 0)%Z
      then amb_ret engine
      else sweepLoop rounds' (k + 1)%Z evacuationSec engine
  end.

(** The engine at the end of the run for the population [n]. *)
Definition sweepRun (layout : VenueLayout.t) (baseCfg : SimConfig.t) (n : Q)
    : Amb SimEngine.t :=
  let cfg := SimConfig.for_sweep baseCfg n in
  let engine := SimEngine.new layout cfg in
  do engine <- SimEngine.reset engine;
  let engine := SimEngine.start engine in
  let simDuration := (SimConfig.arrivalDuration baseCfg + 10) * 60 in
  let evacuationSec := SimConfig.evacuationTime cfg * 60 in
  sweepLoop (Z.to_nat (Math_ceil (simDuration / DT))) 0 evacuationSec engine.

Definition timeAboveWarningPct (engine : SimEngine.t) : Q :=
  if Qltb 0 (SimEngine.simTime engine)
  then (Metrics.timeAboveWarning (SimEngine.getMetrics engine)
        / SimEngine.simTime engine) * 100
  else 0.

(** The record pushed to [results] for the population [n]. *)
Definition sweepRecord (baseCfg : SimConfig.t) (n : Q) (engine : SimEngine.t)
    : SweepResult.t :=
  let m := SimEngine.getMetrics engine in
  let pct := timeAboveWarningPct engine in
  {| SweepResult.N := n;
     SweepResult.peakDensity := Metrics.peakDensity m;
     SweepResult.p95EgressTime := Metrics.p95EgressTime m / 60;
     SweepResult.timeAboveWarningPct := pct;
     SweepResult.passed :=
       Qleb (Metrics.peakDensity m) (SimConfig.densityDanger baseCfg)
       && Qleb (Metrics.p95EgressTime m / 60) (SimConfig.egresTimeLimitMin baseCfg)
       && Qleb pct (SimConfig.warningTimeLimitPct baseCfg) |}.

(** The runs for the populations [values], in order. *)
Fixpoint sweepAll (layout : VenueLayout.t) (baseCfg : SimConfig.t) (values : list Q)
    : Amb (list SweepResult.t) :=
  match values with
  | [] => amb_ret []
  | n :: rest =>
      do engine <- sweepRun layout baseCfg n;
      do results <- sweepAll layout baseCfg rest;
      amb_ret (sweepRecord baseCfg n engine :: results)
  end.

(** [runSweep(layout, baseCfg, onProgress)]; the progress callback only
    reports and is left out. *)
Definition runSweep (layout : VenueLayout.t) (baseCfg : SimConfig.t)
    : Amb (list SweepResult.t) :=
  match sweepValues baseCfg with
  | None => λ _, None
  | Some values => sweepAll layout baseCfg values
  end.
End Sweep.

(** ** The kernel as a transition system *)

(** The public operations of an engine. *)
Inductive Op :=
  | OpUpdateConfig (cfg : SimConfig.t)
  | OpUpdateLayout (layout : VenueLayout.t)
  | OpReset
  | OpStartFire (wx wy : Q)
  | OpSetBlockedExits (ids : gset string)
  | OpStart
  | OpPause
  | OpTick (dt : Q).

Section Kernel.
Context (Math : JsMath).

Definition applyOp (op : Op) (s : SimEngine.t) : Amb SimEngine.t :=
  match op with
  | OpUpdateConfig cfg => amb_ret (SimEngine.updateConfig cfg s)
  | OpUpdateLayout layout => amb_ret (SimEngine.updateLayout layout s)
  | OpReset => SimEngine.reset s
  | OpStartFire wx wy => amb_ret (SimEngine.startFire Math wx wy s)
  | OpSetBlockedExits ids => amb_ret (SimEngine.setBlockedExits Math ids s)
  | OpStart => amb_ret (SimEngine.start s)
  | OpPause => amb_ret (SimEngine.pause s)
  | OpTick dt => SimEngine.tick Math dt s
  end.

(** The states one engine goes through, from its construction on, together
    with the ambient state it leaves.  Nothing but this engine touches the
    identifier counters. *)
Inductive reachable : SimEngine.t → Ambient → Prop :=
  | reachable_new layout cfg w :
      reachable (SimEngine.new layout cfg) w
  | reachable_step s w op s' w' :
      reachable s w →
      applyOp op s w = Some (s', w') →
      reachable s' w'.
End Kernel.

(** ** A concrete host library and small venues for running the kernel

    [approxMath] evaluates the transcendental functions to a few decimal
    digits in rational arithmetic; it is used to run the definitions above on
    concrete inputs (the statements proved below hold for every [JsMath]). *)

Definition round9 (q : Q) : Q := Qred (Math_floor (q * 1e9) # 1000000000).

Definition approx_sqrt (x0 : Q) : Q :=
  let x := round9 (x0 * 1e9) / 1e9 in
  if Qleb x 0 then 0
  else Qred (Z.sqrt (Qnum x * Zpos (Qden x) * 10 ^ 18) # (Qden x * 1000000000)).

(** [Σ_{k < n} x^k / k!], by Horner's rule. *)
Fixpoint exp_series (n : nat) (k : Z) (x : Q) : Q :=
  match n with
  | O => 1
  | S n' => 1 + (x / inject_Z k) * exp_series n' (k + 1) x
  end.

Fixpoint square_times (n : nat) (y : Q) : Q :=
  match n with
  | O => y
  | S n' => square_times n' (round9 (y * y))
  end.

Definition approx_exp (x0 : Q) : Q :=
  let x := round9 x0 in
  if Qltb x (-(40)) then 0
  else square_times 8 (round9 (exp_series 10 1 (x / 256))).

(** [ln x] for [0 < x <= 1]: doublings bring the argument into [[1/2, 1]],
    where the series of [2 artanh ((x - 1) / (x + 1))] is summed. *)
Fixpoint approx_log_from (fuel : nat) (x acc : Q) : Q :=
  match fuel with
  | O => acc
  | S fuel' =>
      if Qltb x 0.5 then approx_log_from fuel' (x * 2) (acc - 0.693147181)
      else
        let y := (x - 1) / (x + 1) in
        round9 (acc + 2 * (y + y ^ 3 / 3 + y ^ 5 / 5 + y ^ 7 / 7 + y ^ 9 / 9 + y ^ 11 / 11))
  end.

Definition approx_log (x : Q) : Q :=
  if Qleb x 0 then -(1e9) else approx_log_from 64 (Qred (round9 (x * 1e9) / 1e9)) 0.

(** [cos x] for [0 <= x <= 2π], from the series around [π]. *)
Definition approx_cos (x : Q) : Q :=
  let y := round9 (x - 3.141592654) in
  let y2 := round9 (y * y) in
  round9 (- (1 - y2 / 2 * (1 - y2 / 12 * (1 - y2 / 30 * (1 - y2 / 56 *
            (1 - y2 / 90 * (1 - y2 / 132 * (1 - y2 / 182)))))))).

Definition approxMath : JsMath :=
  {| Math_sqrt := approx_sqrt; Math_exp := approx_exp; Math_log := approx_log;
     Math_cos := approx_cos; Math_PI := 3.141592654; Math_SQRT2 := 1.414213562 |}.

(** A room of 6 m by 4 m with a wall across part of it, one entrance on the
    left, one exit on the right and a bar that keeps a queue. *)
Definition roomLayout : VenueLayout.t :=
  {| VenueLayout.width := 6; VenueLayout.height := 4;
     VenueLayout.walls :=
       [{| Wall.id := "w1";
           Wall.rect := {| Rect.x := 3; Rect.y := 0; Rect.w := 0.5; Rect.h := 1.5 |} |}];
     VenueLayout.entrances :=
       [{| Entrance.id := "en1"; Entrance.x := 0.5; Entrance.y := 2; Entrance.width := 1 |}];
     VenueLayout.exits :=
       [{| Exit.id := "ex1"; Exit.x := 5.5; Exit.y := 2; Exit.width := 1;
           Exit.capacity := 3 |}];
     VenueLayout.attractors :=
       [{| Attractor.id := "bar"; Attractor.x := 1.5; Attractor.y := 3.5;
           Attractor.radius := 1; Attractor.weight := 1; Attractor.label := "Bar";
           Attractor.serviceTime := 60; Attractor.queueEnabled := true;
           Attractor.queueCapacity := 15 |}] |}.

Definition roomConfig : SimConfig.t :=
  {| SimConfig.N := 2; SimConfig.arrivalMode := burst; SimConfig.arrivalDuration := 1;
     SimConfig.speedMin := 1; SimConfig.speedMean := 1; SimConfig.speedMax := 1;
     SimConfig.personalSpace := 0.5; SimConfig.avoidanceStrength := 1;
     SimConfig.queueEnabled := true; SimConfig.evacuationEnabled := false;
     SimConfig.evacuationTime := 5; SimConfig.panicSpeedMultiplier := 1.5;
     SimConfig.densityWarning := 2; SimConfig.densityDanger := 4;
     SimConfig.cellSize := 1; SimConfig.egresTimeLimitMin := 5;
     SimConfig.warningTimeLimitPct := 10;
     SimConfig.sweepStep := 1; SimConfig.sweepMinN := 1; SimConfig.sweepMaxN := 2 |}.

(** The same room for one visitor, with a warning threshold of half a person
    per square metre and a danger threshold of exactly one. *)
Definition alertConfig : SimConfig.t :=
  {| SimConfig.N := 1; SimConfig.arrivalMode := burst; SimConfig.arrivalDuration := 1;
     SimConfig.speedMin := 1; SimConfig.speedMean := 1; SimConfig.speedMax := 1;
     SimConfig.personalSpace := 0.5; SimConfig.avoidanceStrength := 1;
     SimConfig.queueEnabled := true; SimConfig.evacuationEnabled := false;
     SimConfig.evacuationTime := 5; SimConfig.panicSpeedMultiplier := 1.5;
     SimConfig.densityWarning := 0.5; SimConfig.densityDanger := 1;
     SimConfig.cellSize := 1; SimConfig.egresTimeLimitMin := 5;
     SimConfig.warningTimeLimitPct := 10;
     SimConfig.sweepStep := 1; SimConfig.sweepMinN := 1; SimConfig.sweepMaxN := 1 |}.

(** The engine of the room, just constructed. *)
Definition roomEngine : SimEngine.t := SimEngine.new roomLayout roomConfig.

Definition tapeOf (draws : list Q) : Ambient :=
  {| _nextId := 0; _ffNextId := 0; random_tape := draws |}.

(** The engine of the room for one visitor, started, and the draws that
    spawn the visitor in the middle of the entrance. *)
Definition alertEngine : SimEngine.t := SimEngine.start (SimEngine.new roomLayout alertConfig).

Definition middleDraws : list Q := [0.5; 0.5; 0.5; 0.5; 0.5; 0.5; 0.5].

(** A raster of 7 by 7 cells in which only the centre cell is blocked. *)
Definition holeGrid : list (list bool) := grid_set (grid_make 7 7 true) 3 3 false.

(** ** Notions used in the statements *)

(** What [computePath] reads of the engine. *)
Definition planning_env (s : SimEngine.t) : VenueLayout.t * list (list bool) * gset string :=
  (SimEngine.layout s, SimEngine.passable s, SimEngine.blockedExits s).

(** The fields [nearestExitPos] and [computePath] leave alone. *)
Definition agent_core (a : Agent.t) :=
  (Agent.id a, Agent.x a, Agent.y a, Agent.vx a, Agent.vy a, Agent.radius a,
   Agent.speed a, Agent.state a, Agent.targetAttractorId a,
   Agent.spawnTime a, Agent.exitTime a, Agent.atAttractorUntil a, Agent.stuckTimer a).

(** The engine of the room with two agents in it: the first waits in the
    queue of the bar, the second is on its way to the exit. *)
Definition queuingAgent : Agent.t :=
  {| Agent.id := 0; Agent.x := 1.5; Agent.y := 3.25; Agent.vx := 0; Agent.vy := 0;
     Agent.radius := 0.25; Agent.speed := 1; Agent.state := queuing;
     Agent.targetAttractorId := Some "bar"%string; Agent.targetExitId := None;
     Agent.path := [{| Vec2.x := 1.5; Vec2.y := 3.5 |}]; Agent.pathIndex := 1;
     Agent.spawnTime := 0; Agent.exitTime := -(1); Agent.atAttractorUntil := -(1);
     Agent.stuckTimer := 0 |}.

Definition leavingAgent : Agent.t :=
  {| Agent.id := 1; Agent.x := 4.5; Agent.y := 2.5; Agent.vx := 0.5; Agent.vy := 0;
     Agent.radius := 0.25; Agent.speed := 1; Agent.state := seeking_exit;
     Agent.targetAttractorId := None; Agent.targetExitId := Some "ex1"%string;
     Agent.path := [{| Vec2.x := 5.5; Vec2.y := 2 |}]; Agent.pathIndex := 0;
     Agent.spawnTime := 0; Agent.exitTime := -(1); Agent.atAttractorUntil := -(1);
     Agent.stuckTimer := 0 |}.

Definition roomWithTwo : SimEngine.t :=
  SimEngine.set_spawnedCount 2%Z
    (SimEngine.set_queues (<["bar"%string := [0%Z]]> (SimEngine.queues roomEngine))
      (SimEngine.set_agentMap (<[1%Z := 1%nat]> (<[0%Z := 0%nat]> ∅))
        (SimEngine.set_agents [queuingAgent; leavingAgent]
          (SimEngine.start roomEngine)))).

(** The agent [a] at the end of the body of the loop of [triggerEvacuation]
    (see [evacuateAgent]). *)
Definition evacuated (Math : JsMath) (s : SimEngine.t) (a : Agent.t) : Agent.t :=
  let a' := if SimEngine.leaves_for_evacuation (Agent.state a)
            then SimEngine.computePath Math s
                   (Agent.set_targetAttractorId None (Agent.set_state evacuating a))
            else a in
  Agent.set_speed (Agent.speed a' * SimConfig.panicSpeedMultiplier (SimEngine.cfg s)) a'.

(** The state of the loop of [triggerEvacuation] after [k] rounds, started
    in [s0]. *)
Definition evacuation_rounds (Math : JsMath) (s0 : SimEngine.t) (k : nat) (s : SimEngine.t) : Prop :=
  planning_env s = planning_env s0
  ∧ SimEngine.cfg s = SimEngine.cfg s0
  ∧ SimEngine.isEvacuating s = SimEngine.isEvacuating s0
  ∧ length (SimEngine.agents s) = length (SimEngine.agents s0)
  ∧ (∀ j, (k ≤ j)%nat → SimEngine.agents s !! j = SimEngine.agents s0 !! j)
  ∧ (∀ j a, (j < k)%nat → SimEngine.agents s0 !! j = Some a →
       SimEngine.agents s !! j
       = Some (if bool_decide (Agent.state a = exited) then a else evacuated Math s0 a))
  ∧ (∀ att q', SimEngine.queues s !! att = Some q' →
       ∃ q, SimEngine.queues s0 !! att = Some q
         ∧ (NoDup q → NoDup q')
         ∧ (∀ x, x ∈ q' → x ∈ q)
         ∧ (∀ j a, (j < k)%nat → SimEngine.agents s0 !! j = Some a →
              Agent.state a ≠ exited →
              SimEngine.leaves_for_evacuation (Agent.state a) = true →
              NoDup q → Agent.id a ∉ q')).

(** *** What the phases of a tick leave alone

    Each definition lists the fields of the engine that a phase never
    assigns. *)

(** The agent loop, the queue service and [setBlockedExits]' re-routing
    assign [agents], [queues], [queueServiced] and [egressTimes] only. *)
Definition frame_of_update (s : SimEngine.t) :=
  (SimEngine.layout s, SimEngine.cfg s, SimEngine.agentMap s, SimEngine.simTime s,
   SimEngine.isRunning s, SimEngine.isEvacuating s, SimEngine.passable s,
   SimEngine.hash s, SimEngine.peakDensity s, SimEngine.timeAboveWarning s,
   SimEngine.timeAboveDanger s, SimEngine.fireGrid s, SimEngine.fireSpread s,
   SimEngine.smokeGrid s, SimEngine.fireCellCount s, SimEngine.hasSmoke s,
   SimEngine.fireCols s, SimEngine.fireRows s, SimEngine.fireStartTime s,
   SimEngine.blockedExits s, SimEngine.firefighters s,
   SimEngine.firefightersSpawned s, SimEngine.spawnedCount s,
   SimEngine.totalToSpawn s, SimEngine.entranceWeights s).

(** [triggerEvacuation] assigns [isEvacuating], [agents] and [queues]. *)
Definition frame_of_evacuation (s : SimEngine.t) :=
  (SimEngine.layout s, SimEngine.cfg s, SimEngine.agentMap s, SimEngine.simTime s,
   SimEngine.isRunning s, SimEngine.passable s,
   SimEngine.hash s, SimEngine.peakDensity s, SimEngine.timeAboveWarning s,
   SimEngine.timeAboveDanger s, SimEngine.egressTimes s, SimEngine.queueServiced s,
   SimEngine.fireGrid s, SimEngine.fireSpread s,
   SimEngine.smokeGrid s, SimEngine.fireCellCount s, SimEngine.hasSmoke s,
   SimEngine.fireCols s, SimEngine.fireRows s, SimEngine.fireStartTime s,
   SimEngine.blockedExits s, SimEngine.firefighters s,
   SimEngine.firefightersSpawned s, SimEngine.spawnedCount s,
   SimEngine.totalToSpawn s, SimEngine.entranceWeights s).

(** Spawning assigns [agents], [agentMap] and [spawnedCount]. *)
Definition frame_of_spawn (s : SimEngine.t) :=
  (SimEngine.layout s, SimEngine.cfg s, SimEngine.simTime s,
   SimEngine.isRunning s, SimEngine.isEvacuating s, SimEngine.passable s,
   SimEngine.hash s, SimEngine.peakDensity s, SimEngine.timeAboveWarning s,
   SimEngine.timeAboveDanger s, SimEngine.egressTimes s, SimEngine.queues s,
   SimEngine.queueServiced s, SimEngine.fireGrid s, SimEngine.fireSpread s,
   SimEngine.smokeGrid s, SimEngine.fireCellCount s, SimEngine.hasSmoke s,
   SimEngine.fireCols s, SimEngine.fireRows s, SimEngine.fireStartTime s,
   SimEngine.blockedExits s, SimEngine.firefighters s,
   SimEngine.firefightersSpawned s,
   SimEngine.totalToSpawn s, SimEngine.entranceWeights s).

(** The firefighters assign [firefighters], [firefightersSpawned],
    [fireGrid], [fireSpread] and [fireCellCount]. *)
Definition frame_of_firefighters (s : SimEngine.t) :=
  (SimEngine.layout s, SimEngine.cfg s, SimEngine.agents s, SimEngine.agentMap s,
   SimEngine.simTime s,
   SimEngine.isRunning s, SimEngine.isEvacuating s, SimEngine.passable s,
   SimEngine.hash s, SimEngine.peakDensity s, SimEngine.timeAboveWarning s,
   SimEngine.timeAboveDanger s, SimEngine.egressTimes s, SimEngine.queues s,
   SimEngine.queueServiced s,
   SimEngine.smokeGrid s, SimEngine.hasSmoke s,
   SimEngine.fireCols s, SimEngine.fireRows s, SimEngine.fireStartTime s,
   SimEngine.blockedExits s, SimEngine.spawnedCount s,
   SimEngine.totalToSpawn s, SimEngine.entranceWeights s).

(** The fire and smoke automata assign [fireGrid], [fireSpread],
    [fireCellCount], [smokeGrid] and [hasSmoke]. *)
Definition frame_of_hazards (s : SimEngine.t) :=
  (SimEngine.layout s, SimEngine.cfg s, SimEngine.agents s, SimEngine.agentMap s,
   SimEngine.simTime s,
   SimEngine.isRunning s, SimEngine.isEvacuating s, SimEngine.passable s,
   SimEngine.hash s, SimEngine.peakDensity s, SimEngine.timeAboveWarning s,
   SimEngine.timeAboveDanger s, SimEngine.egressTimes s, SimEngine.queues s,
   SimEngine.queueServiced s,
   SimEngine.fireCols s, SimEngine.fireRows s, SimEngine.fireStartTime s,
   SimEngine.blockedExits s, SimEngine.firefighters s,
   SimEngine.firefightersSpawned s, SimEngine.spawnedCount s,
   SimEngine.totalToSpawn s, SimEngine.entranceWeights s).

(** The crowd phase of a tick assigns [hash], [agents], [queues],
    [queueServiced] and [egressTimes]. *)
Definition frame_of_crowd (s : SimEngine.t) :=
  (SimEngine.layout s, SimEngine.cfg s, SimEngine.agentMap s, SimEngine.simTime s,
   SimEngine.isRunning s, SimEngine.isEvacuating s, SimEngine.passable s,
   SimEngine.peakDensity s, SimEngine.timeAboveWarning s,
   SimEngine.timeAboveDanger s, SimEngine.fireGrid s, SimEngine.fireSpread s,
   SimEngine.smokeGrid s, SimEngine.fireCellCount s, SimEngine.hasSmoke s,
   SimEngine.fireCols s, SimEngine.fireRows s, SimEngine.fireStartTime s,
   SimEngine.blockedExits s, SimEngine.firefighters s,
   SimEngine.firefightersSpawned s, SimEngine.spawnedCount s,
   SimEngine.totalToSpawn s, SimEngine.entranceWeights s).

(** The metrics phase assigns [peakDensity], [timeAboveWarning] and
    [timeAboveDanger]. *)
Definition frame_of_metrics (s : SimEngine.t) :=
  (SimEngine.layout s, SimEngine.cfg s, SimEngine.agents s, SimEngine.agentMap s,
   SimEngine.simTime s, SimEngine.isRunning s, SimEngine.isEvacuating s,
   SimEngine.passable s, SimEngine.hash s, SimEngine.egressTimes s,
   SimEngine.queues s, SimEngine.queueServiced s,
   SimEngine.fireGrid s, SimEngine.fireSpread s,
   SimEngine.smokeGrid s, SimEngine.fireCellCount s, SimEngine.hasSmoke s,
   SimEngine.fireCols s, SimEngine.fireRows s, SimEngine.fireStartTime s,
   SimEngine.blockedExits s, SimEngine.firefighters s,
   SimEngine.firefightersSpawned s, SimEngine.spawnedCount s,
   SimEngine.totalToSpawn s, SimEngine.entranceWeights s).

(** A base configuration whose sweep is one run of two ticks: the simulated
    duration [(arrivalDuration + 10) · 60] is 0.06 s. *)
Definition shortSweepConfig : SimConfig.t :=
  {| SimConfig.N := 1; SimConfig.arrivalMode := burst;
     SimConfig.arrivalDuration := -(9.999);
     SimConfig.speedMin := 1; SimConfig.speedMean := 1; SimConfig.speedMax := 1;
     SimConfig.personalSpace := 0.5; SimConfig.avoidanceStrength := 1;
     SimConfig.queueEnabled := true; SimConfig.evacuationEnabled := false;
     SimConfig.evacuationTime := 5; SimConfig.panicSpeedMultiplier := 1.5;
     SimConfig.densityWarning := 0.5; SimConfig.densityDanger := 1;
     SimConfig.cellSize := 1; SimConfig.egresTimeLimitMin := 5;
     SimConfig.warningTimeLimitPct := 10;
     SimConfig.sweepStep := 1; SimConfig.sweepMinN := 1; SimConfig.sweepMaxN := 1 |}.

(** *** Rasters *)

(** The raster [g] has [rows] rows of [cols] cells. *)
Definition grid_dims {A} (g : list (list A)) (rows cols : Z) : Prop :=
  Z.of_nat (length g) = rows ∧ Forall (λ row, Z.of_nat (length row) = cols) g.

Fixpoint count_true (l : list bool) : nat :=
  match l with
  | [] => 0
  | b :: l' => (if b then 1 else 0) + count_true l'
  end.

(** The number of burning cells of a fire grid. *)
Fixpoint burning (g : list (list bool)) : nat :=
  match g with
  | [] => 0
  | row :: g' => count_true row + burning g'
  end.

(** The fire and smoke rasters have the dimensions the engine records, and
    the counter of burning cells is not below their number. *)
Definition fire_wf (s : SimEngine.t) : Prop :=
  grid_dims (SimEngine.fireGrid s) (SimEngine.fireRows s) (SimEngine.fireCols s)
  ∧ grid_dims (SimEngine.smokeGrid s) (SimEngine.fireRows s) (SimEngine.fireCols s)
  ∧ (Z.of_nat (burning (SimEngine.fireGrid s)) ≤ SimEngine.fireCellCount s)%Z.

(** Every burning cell is at full smoke. *)
Definition smoke_pinned (s : SimEngine.t) : Prop :=
  ∀ r c, grid_get false (SimEngine.fireGrid s) r c = true →
         grid_get 0 (SimEngine.smokeGrid s) r c = 1.

(** The fields [fire_wf] and [smoke_pinned] speak of. *)
Definition fire_fields (s : SimEngine.t) :=
  (SimEngine.fireGrid s, SimEngine.smokeGrid s, SimEngine.fireCellCount s,
   SimEngine.fireRows s, SimEngine.fireCols s).

(** What the firefighters do to the fire: cells only go out. *)
Definition doused (s s' : SimEngine.t) : Prop :=
  fire_wf s'
  ∧ SimEngine.smokeGrid s' = SimEngine.smokeGrid s
  ∧ ∀ r c, grid_get false (SimEngine.fireGrid s') r c = true →
           grid_get false (SimEngine.fireGrid s) r c = true.

(** The started engine of the room for one visitor, with a fire lit in the
    cell [(1, 1)]. *)
Definition fireEngine : SimEngine.t := SimEngine.startFire approxMath 1.5 1.5 alertEngine.

(** *** The roster: agents, their ids, the queues and the egress log *)

(** The agent id [id] stands in some queue. *)
Definition queued (s : SimEngine.t) (id : Z) : Prop :=
  ∃ att q, SimEngine.queues s !! att = Some q ∧ id ∈ q.

(** No id stands twice in the queues. *)
Definition queues_unique (s : SimEngine.t) : Prop :=
  (∀ att q, SimEngine.queues s !! att = Some q → NoDup q)
  ∧ (∀ att1 att2 q1 q2 id,
       att1 ≠ att2 →
       SimEngine.queues s !! att1 = Some q1 →
       SimEngine.queues s !! att2 = Some q2 →
       id ∈ q1 → id ∉ q2).

Definition exitedAgents (s : SimEngine.t) : list Agent.t :=
  filter (λ a, Agent.state a = exited) (SimEngine.agents s).

(** The invariant of the roster: every agent ever spawned is in [agents];
    the exited ones are as many as the logged egress times; an agent is
    registered in [agentMap] under its id, which is below the next fresh id;
    and the ids that stand in the queues are those of agents in state
    [queuing], each at most once. *)
Definition roster_inv (s : SimEngine.t) (w : Ambient) : Prop :=
  Z.of_nat (length (SimEngine.agents s)) = SimEngine.spawnedCount s
  ∧ length (exitedAgents s) = length (SimEngine.egressTimes s)
  ∧ (∀ i a, SimEngine.agents s !! i = Some a →
       SimEngine.agentMap s !! Agent.id a = Some i ∧ (Agent.id a < _nextId w)%Z)
  ∧ (∀ id, queued s id →
       ∃ i a, SimEngine.agents s !! i = Some a ∧ Agent.id a = id ∧ Agent.state a = queuing)
  ∧ queues_unique s.

(** The fields the roster invariant speaks of. *)
Definition roster_fields (s : SimEngine.t) :=
  (SimEngine.agents s, SimEngine.agentMap s, SimEngine.queues s,
   SimEngine.egressTimes s, SimEngine.spawnedCount s).

(** What the update of one agent [a], in the engine state [s], may do to the
    roster: the agent [a'] and the state [s'] are the results. *)
Inductive roster_step (a : Agent.t) (s : SimEngine.t) (a' : Agent.t) (s' : SimEngine.t)
    : Prop :=
  | roster_same :
      Agent.state a' = Agent.state a →
      SimEngine.queues s' = SimEngine.queues s →
      SimEngine.egressTimes s' = SimEngine.egressTimes s →
      roster_step a s a' s'
  | roster_move :
      Agent.state a ≠ queuing → Agent.state a ≠ exited →
      Agent.state a' ≠ queuing → Agent.state a' ≠ exited →
      SimEngine.queues s' = SimEngine.queues s →
      SimEngine.egressTimes s' = SimEngine.egressTimes s →
      roster_step a s a' s'
  | roster_exit t :
      Agent.state a ≠ queuing → Agent.state a ≠ exited →
      Agent.state a' = exited →
      SimEngine.queues s' = SimEngine.queues s →
      SimEngine.egressTimes s' = SimEngine.egressTimes s ++ [t] →
      roster_step a s a' s'
  | roster_join att :
      Agent.state a ≠ queuing → Agent.state a ≠ exited →
      Agent.state a' = queuing →
      SimEngine.queues s'
      = <[att := let q := default [] (SimEngine.queues s !! att) in
                 if bool_decide (Agent.id a ∈ q) then q else q ++ [Agent.id a]]>
          (SimEngine.queues s) →
      SimEngine.egressTimes s' = SimEngine.egressTimes s →
      roster_step a s a' s'.

(** * Properties *)

(** ** Numbers *)

Lemma Qleb_le a b : Qleb a b = true ↔ a <= b.
Proof. apply Qle_bool_iff. Qed.

Lemma Qleb_gt a b : Qleb a b = false ↔ b < a.
Proof.
  unfold Qleb. split; intros H.
  - apply Qnot_le_lt. intros Hle. apply Qle_bool_iff in Hle. congruence.
  - destruct (Qle_bool a b) eqn:E; [|done].
    apply Qle_bool_iff in E. lra.
Qed.

Lemma Qltb_lt a b : Qltb a b = true ↔ a < b.
Proof. unfold Qltb. rewrite negb_true_iff. apply Qleb_gt. Qed.

Lemma Qltb_ge a b : Qltb a b = false ↔ b <= a.
Proof. unfold Qltb. rewrite negb_false_iff. apply Qleb_le. Qed.

Lemma Qeqb_eq a b : Qeqb a b = true ↔ a == b.
Proof. apply Qeq_bool_iff. Qed.

Lemma Math_max_lb_l a b : a <= Math_max a b.
Proof. unfold Math_max. destruct (Qleb a b) eqn:E; [apply Qleb_le in E|]; lra. Qed.

Lemma Math_max_lb_r a b : b <= Math_max a b.
Proof. unfold Math_max. destruct (Qleb a b) eqn:E; [|apply Qleb_gt in E]; lra. Qed.

Lemma Math_max_case a b : Math_max a b = a ∨ Math_max a b = b.
Proof. unfold Math_max. destruct (Qleb a b); auto. Qed.

Lemma Math_min_ub_l a b : Math_min a b <= a.
Proof. unfold Math_min. destruct (Qleb a b) eqn:E; [|apply Qleb_gt in E]; lra. Qed.

Lemma Math_min_ub_r a b : Math_min a b <= b.
Proof. unfold Math_min. destruct (Qleb a b) eqn:E; [apply Qleb_le in E|]; lra. Qed.

Lemma Math_min_case a b : Math_min a b = a ∨ Math_min a b = b.
Proof. unfold Math_min. destruct (Qleb a b); auto. Qed.

(** ** Loops *)

Lemma foldl_preserves {A B} (P : A → Prop) (f : A → B → A) (l : list B) (a : A) :
  P a → (∀ a b, b ∈ l → P a → P (f a b)) → P (foldl f a l).
Proof.
  revert a. induction l as [|b l IH]; intros a Ha Hf; [done|].
  simpl. apply IH.
  - apply Hf; [left|done].
  - intros a' b' Hb'. apply Hf. by right.
Qed.

(** A loop over the positions [0 … n-1], with an invariant indexed by the
    number of rounds done. *)
Lemma foldl_seq_ind {A} (P : nat → A → Prop) (f : A → nat → A) (n : nat) (a : A) :
  P 0%nat a →
  (∀ k a, (k < n)%nat → P k a → P (S k) (f a k)) →
  P n (foldl f a (seq 0 n)).
Proof.
  intros H0 Hstep. induction n as [|n IH]; [done|].
  rewrite seq_S, foldl_app. simpl. apply Hstep; [lia|].
  apply IH. intros k a' Hk. apply Hstep. lia.
Qed.

Lemma forAgents_ind (P : nat → SimEngine.t → Prop) body s :
  P 0%nat s →
  (∀ k s', (k < length (SimEngine.agents s))%nat → P k s' → P (S k) (body k s')) →
  P (length (SimEngine.agents s)) (SimEngine.forAgents body s).
Proof. intros H0 Hstep. unfold SimEngine.forAgents. by apply foldl_seq_ind. Qed.

(** ** Path planning of an agent *)

Section Planning.
Context (Math : JsMath).

Lemma exitPool_env s s' :
  planning_env s = planning_env s' → SimEngine.exitPool s = SimEngine.exitPool s'.
Proof.
  unfold planning_env, SimEngine.exitPool. intros [= Hl Hp Hb]. by rewrite Hl, Hb.
Qed.

Lemma nearestExitPos_env s s' a :
  planning_env s = planning_env s' →
  SimEngine.nearestExitPos s a = SimEngine.nearestExitPos s' a.
Proof.
  intros H. unfold SimEngine.nearestExitPos.
  rewrite (exitPool_env s s' H). by injection H as -> _ _.
Qed.

Lemma computePath_env s s' a :
  planning_env s = planning_env s' →
  SimEngine.computePath Math s a = SimEngine.computePath Math s' a.
Proof.
  intros H. unfold SimEngine.computePath, SimEngine.findAttractor.
  rewrite (nearestExitPos_env s s' a H). by injection H as -> -> _.
Qed.

Lemma nearestExitPos_core s a : agent_core (SimEngine.nearestExitPos s a).2 = agent_core a.
Proof. unfold SimEngine.nearestExitPos. by destruct (SimEngine.exitPool s). Qed.

Lemma computePath_core s a : agent_core (SimEngine.computePath Math s a) = agent_core a.
Proof.
  unfold SimEngine.computePath.
  destruct (_ && _).
  - destruct (SimEngine.findAttractor _ _); [done|].
    destruct (SimEngine.nearestExitPos s a) as [g a'] eqn:E.
    change a' with (g, a').2. rewrite <- E. unfold agent_core at 1. simpl.
    apply nearestExitPos_core.
  - destruct (SimEngine.nearestExitPos s a) as [g a'] eqn:E.
    change a' with (g, a').2. rewrite <- E. unfold agent_core at 1. simpl.
    apply nearestExitPos_core.
Qed.

Lemma computePath_pathIndex s a :
  Agent.pathIndex (SimEngine.computePath Math s a) = 0%nat.
Proof.
  unfold SimEngine.computePath.
  by destruct (_ && _); [destruct (SimEngine.findAttractor _ _)|];
    try destruct (SimEngine.nearestExitPos s a).
Qed.
End Planning.

(** ** Queues *)

Lemma remove_first_elem_of id q x : x ∈ remove_first id q → x ∈ q.
Proof.
  induction q as [|j q IH]; simpl; [done|].
  destruct (j =? id)%Z; [by right|].
  intros [->|H]%elem_of_cons; [left|right; auto].
Qed.

Lemma remove_first_NoDup id q : NoDup q → NoDup (remove_first id q).
Proof.
  induction 1 as [|j q Hj Hq IH]; simpl; [constructor|].
  destruct (j =? id)%Z; [done|].
  constructor; [|done]. intros H. by apply Hj, (remove_first_elem_of id).
Qed.

Lemma remove_first_not_elem_of id q : NoDup q → id ∉ remove_first id q.
Proof.
  induction 1 as [|j q Hj Hq IH]; simpl; [apply not_elem_of_nil|].
  destruct (j =? id)%Z eqn:E.
  - apply Z.eqb_eq in E. by subst.
  - apply Z.eqb_neq in E. intros [->|H]%elem_of_cons; [done|by apply IH].
Qed.

Lemma remove_first_absent id q : id ∉ q → remove_first id q = q.
Proof.
  induction q as [|j q IH]; simpl; [done|].
  intros H. destruct (j =? id)%Z eqn:E.
  - apply Z.eqb_eq in E. subst. exfalso. apply H. left.
  - f_equal. apply IH. intros ?. apply H. by right.
Qed.

(** ** Arrays and rasters *)

Lemma arr_get_of_nat {A} (d : A) l (i : nat) : arr_get d l (Z.of_nat i) = default d (l !! i).
Proof.
  unfold arr_get. destruct (Z.ltb_spec (Z.of_nat i) 0); [lia|]. by rewrite Nat2Z.id.
Qed.

Lemma arr_get_neg {A} (d : A) l i : (i < 0)%Z → arr_get d l i = d.
Proof. unfold arr_get. intros H. by destruct (Z.ltb_spec i 0); [|lia]. Qed.

Lemma arr_get_set_eq {A} (d : A) l i v :
  (0 ≤ i < Z.of_nat (length l))%Z → arr_get d (arr_set l i v) i = v.
Proof.
  intros Hi. unfold arr_get, arr_set.
  destruct (Z.ltb_spec i 0); [lia|].
  rewrite list_lookup_insert_eq; [done|lia].
Qed.

Lemma arr_get_set_ne {A} (d : A) l i j v :
  i ≠ j → arr_get d (arr_set l i v) j = arr_get d l j.
Proof.
  intros Hij. unfold arr_get, arr_set.
  destruct (Z.ltb_spec j 0); [done|].
  destruct (Z.ltb_spec i 0); [done|].
  rewrite list_lookup_insert_ne; [done|lia].
Qed.

Lemma length_arr_set {A} (l : list A) i v : length (arr_set l i v) = length l.
Proof. unfold arr_set. destruct (i <? 0)%Z; [done|apply length_insert]. Qed.

Lemma arr_get_default {A} (d : A) l i :
  ¬ (0 ≤ i < Z.of_nat (length l))%Z → arr_get d l i = d.
Proof.
  intros Hi. unfold arr_get. destruct (Z.ltb_spec i 0); [done|].
  rewrite lookup_ge_None_2; [done|lia].
Qed.

Lemma grid_make_dims {A} rows cols (v : A) :
  (0 ≤ rows)%Z → (0 ≤ cols)%Z → grid_dims (grid_make rows cols v) rows cols.
Proof.
  intros Hr Hc. unfold grid_make. split.
  - rewrite length_replicate. lia.
  - apply Forall_replicate. rewrite length_replicate. lia.
Qed.

Lemma grid_set_dims {A} (g : list (list A)) rows cols r c v :
  grid_dims g rows cols → grid_dims (grid_set g r c v) rows cols.
Proof.
  intros [Hlen Hrows]. unfold grid_set.
  destruct (r <? 0)%Z; [done|]. split.
  - by rewrite length_alter.
  - apply Forall_lookup. intros i row Hi.
    destruct (decide (i = Z.to_nat r)) as [->|Hne].
    + rewrite list_lookup_alter_eq in Hi.
      destruct (g !! Z.to_nat r) as [row0|] eqn:E; [|done].
      injection Hi as <-. rewrite length_arr_set.
      by eapply (Forall_lookup_1 _ _ _ _ Hrows).
    + rewrite list_lookup_alter_ne in Hi by done.
      by eapply (Forall_lookup_1 _ _ _ _ Hrows).
Qed.

Lemma grid_row_lookup {A} (g : list (list A)) rows cols r :
  grid_dims g rows cols → (0 ≤ r < rows)%Z →
  ∃ row, g !! Z.to_nat r = Some row ∧ Z.of_nat (length row) = cols.
Proof.
  intros [Hlen Hrows] Hr.
  destruct (lookup_lt_is_Some_2 g (Z.to_nat r)) as [row Hrow]; [lia|].
  exists row. split; [done|]. by eapply (Forall_lookup_1 _ _ _ _ Hrows).
Qed.

Lemma grid_get_set_eq {A} (d : A) g rows cols r c v :
  grid_dims g rows cols → (0 ≤ r < rows)%Z → (0 ≤ c < cols)%Z →
  grid_get d (grid_set g r c v) r c = v.
Proof.
  intros Hd Hr Hc. destruct (grid_row_lookup g rows cols r Hd Hr) as (row & Hrow & Hlen).
  unfold grid_get, grid_set, arr_get at 2.
  destruct (Z.ltb_spec r 0); [lia|].
  rewrite list_lookup_alter_eq, Hrow. simpl.
  apply arr_get_set_eq. lia.
Qed.

Lemma grid_get_set_ne {A} (d : A) g r c v r' c' :
  (r, c) ≠ (r', c') → grid_get d (grid_set g r c v) r' c' = grid_get d g r' c'.
Proof.
  intros Hne. unfold grid_get, grid_set.
  destruct (Z.ltb_spec r 0); [done|].
  unfold arr_get at 2 4.
  destruct (Z.ltb_spec r' 0); [done|].
  destruct (decide (r = r')) as [->|Hr].
  - rewrite list_lookup_alter_eq.
    destruct (g !! Z.to_nat r') as [row|]; simpl; [|done].
    apply arr_get_set_ne. congruence.
  - rewrite list_lookup_alter_ne; [done|lia].
Qed.

Lemma grid_get_in_range g rows cols r c :
  grid_dims g rows cols → grid_get false g r c = true →
  (0 ≤ r < rows)%Z ∧ (0 ≤ c < cols)%Z.
Proof.
  intros [Hlen Hrows] Hget. unfold grid_get in Hget.
  destruct (decide (0 ≤ r < rows)%Z) as [Hr|Hr].
  - split; [done|].
    destruct (grid_row_lookup g rows cols r (conj Hlen Hrows) Hr) as (row & Hrow & Hl).
    unfold arr_get at 2 in Hget. destruct (Z.ltb_spec r 0); [lia|].
    rewrite Hrow in Hget. simpl in Hget.
    destruct (decide (0 ≤ c < cols)%Z) as [Hc|Hc]; [done|].
    rewrite arr_get_default in Hget; [done|lia].
  - rewrite (arr_get_default [] g r) in Hget by lia.
    unfold arr_get in Hget. destruct (c <? 0)%Z; [done|]. by rewrite lookup_nil in Hget.
Qed.

Lemma elem_of_cells rows cols r c :
  (r, c) ∈ cells rows cols ↔ (0 ≤ r < rows)%Z ∧ (0 ≤ c < cols)%Z.
Proof.
  unfold cells. rewrite list_elem_of_bind. split.
  - intros (r' & Hin & Hr'). apply list_elem_of_bind in Hin as (c' & Hin & Hc').
    apply list_elem_of_singleton in Hin. injection Hin as -> ->.
    apply elem_of_seqZ in Hr', Hc'. lia.
  - intros [Hr Hc]. exists r. split; [|apply elem_of_seqZ; lia].
    apply list_elem_of_bind. exists c. split; [by apply list_elem_of_singleton|].
    apply elem_of_seqZ. lia.
Qed.

(** *** Counting burning cells *)

Lemma count_true_insert l i (b : bool) :
  (i < length l)%nat →
  (count_true (<[i := b]> l) + (if default false (l !! i) then 1 else 0)
   = count_true l + (if b then 1 else 0))%nat.
Proof.
  revert i. induction l as [|x l IH]; intros [|i] Hi; simpl in *; try lia.
  specialize (IH i ltac:(lia)). lia.
Qed.

Lemma count_true_pos l i : l !! i = Some true → (0 < count_true l)%nat.
Proof.
  revert i. induction l as [|x l IH]; intros [|i] Hi; simpl in *; try done.
  - injection Hi as ->. lia.
  - specialize (IH i Hi). lia.
Qed.

Lemma burning_set g rows cols r c (b : bool) :
  grid_dims g rows cols → (0 ≤ r < rows)%Z → (0 ≤ c < cols)%Z →
  (burning (grid_set g r c b) + (if grid_get false g r c then 1 else 0)
   = burning g + (if b then 1 else 0))%nat.
Proof.
  intros [Hlen Hrows] Hr Hc. unfold grid_set, grid_get, arr_get at 2.
  destruct (Z.ltb_spec r 0); [lia|].
  assert (Z.to_nat r < length g)%nat as Hi by lia.
  clear Hlen Hr H. revert Hi Hrows. generalize (Z.to_nat r). intros i.
  revert i. induction g as [|row g IH]; intros [|i] Hi Hrows; simpl in *; try lia.
  - apply Forall_cons in Hrows as [Hrow _].
    unfold arr_set, arr_get. destruct (Z.ltb_spec c 0); [lia|].
    pose proof (count_true_insert row (Z.to_nat c) b ltac:(lia)). lia.
  - apply Forall_cons in Hrows as [_ Hrows].
    specialize (IH i ltac:(lia) Hrows).
    change (alter (λ row0 : list bool, arr_set row0 c b) i g)
      with (list_alter (λ row0 : list bool, arr_set row0 c b) i g) in IH.
    lia.
Qed.

Lemma burning_pos g r c : grid_get false g r c = true → (0 < burning g)%nat.
Proof.
  unfold grid_get, arr_get at 2.
  destruct (Z.ltb_spec r 0).
  { unfold arr_get. destruct (c <? 0)%Z; [done|]. by rewrite lookup_nil. }
  generalize (Z.to_nat r). intros i. revert i.
  induction g as [|row g IH]; intros [|i]; simpl.
  - unfold arr_get. destruct (c <? 0)%Z; [done|]. by rewrite lookup_nil.
  - unfold arr_get. destruct (c <? 0)%Z; [done|]. by rewrite lookup_nil.
  - unfold arr_get. destruct (c <? 0)%Z; [done|].
    destruct (row !! Z.to_nat c) as [[]|] eqn:E; simpl; try done.
    intros _. pose proof (count_true_pos row _ E). lia.
  - intros Hget. specialize (IH i Hget). lia.
Qed.

Lemma grid_set_outside {A} (g : list (list A)) rows cols r c v :
  grid_dims g rows cols → ¬ ((0 ≤ r < rows)%Z ∧ (0 ≤ c < cols)%Z) →
  grid_set g r c v = g.
Proof.
  intros [Hlen Hrows] Hout. unfold grid_set.
  destruct (Z.ltb_spec r 0); [done|].
  apply list_eq. intros i.
  destruct (decide (i = Z.to_nat r)) as [->|Hne]; [|by rewrite list_lookup_alter_ne].
  rewrite list_lookup_alter_eq.
  destruct (g !! Z.to_nat r) as [row|] eqn:Erow; [|done]. simpl. f_equal.
  assert (Z.of_nat (length row) = cols) as Hl by by eapply (Forall_lookup_1 _ _ _ _ Hrows).
  apply lookup_lt_Some in Erow.
  unfold arr_set. destruct (Z.ltb_spec c 0); [done|].
  apply list_insert_ge. lia.
Qed.

Lemma burning_set_true_le g rows cols r c :
  grid_dims g rows cols → (burning (grid_set g r c true) ≤ burning g + 1)%nat.
Proof.
  intros Hd.
  destruct (decide ((0 ≤ r < rows)%Z ∧ (0 ≤ c < cols)%Z)) as [[Hr Hc]|Hout].
  - pose proof (burning_set g rows cols r c true Hd Hr Hc) as H.
    destruct (grid_get false g r c); simpl in H; lia.
  - rewrite (grid_set_outside g rows cols) by done. lia.
Qed.

Lemma burning_set_false g rows cols r c :
  grid_dims g rows cols → grid_get false g r c = true →
  (burning (grid_set g r c false) + 1 = burning g)%nat.
Proof.
  intros Hd Hget. destruct (grid_get_in_range g rows cols r c Hd Hget) as [Hr Hc].
  pose proof (burning_set g rows cols r c false Hd Hr Hc) as H.
  rewrite Hget in H. simpl in H. lia.
Qed.

Lemma arr_get_set_cases {A} (d : A) l i v :
  arr_get d (arr_set l i v) i = v ∨ arr_get d (arr_set l i v) i = arr_get d l i.
Proof.
  unfold arr_get, arr_set. destruct (Z.ltb_spec i 0); [by right|].
  destruct (decide (Z.to_nat i < length l)%nat).
  - left. by rewrite list_lookup_insert_eq.
  - right. rewrite list_insert_ge; [done|lia].
Qed.

Lemma grid_set_row {A} (g : list (list A)) r c v :
  arr_get [] (grid_set g r c v) r = arr_set (arr_get [] g r) c v.
Proof.
  unfold grid_set, arr_get. destruct (Z.ltb_spec r 0).
  - unfold arr_set. by destruct (c <? 0)%Z.
  - rewrite list_lookup_alter_eq. destruct (g !! Z.to_nat r); simpl; [done|].
    unfold arr_set. by destruct (c <? 0)%Z.
Qed.

Lemma grid_get_set_cases {A} (d : A) g r c v :
  grid_get d (grid_set g r c v) r c = v ∨ grid_get d (grid_set g r c v) r c = grid_get d g r c.
Proof. unfold grid_get. rewrite grid_set_row. apply arr_get_set_cases. Qed.

Lemma grid_get_set_false g r c r' c' :
  grid_get false (grid_set g r c false) r' c' = true → grid_get false g r' c' = true.
Proof.
  destruct (decide ((r, c) = (r', c'))) as [[= <- <-]|Hne].
  - destruct (grid_get_set_cases false g r c false) as [-> | ->]; done.
  - by rewrite grid_get_set_ne.
Qed.

(** ** The fields each phase of a tick assigns *)

(** Projections of nested field assignments are reduced by need (the
    unifier would unfold every assignment once per field). *)
Ltac engine_lazy :=
  lazy beta iota zeta delta
    [SimEngine.layout SimEngine.set_layout SimEngine.cfg SimEngine.set_cfg
    SimEngine.agents SimEngine.set_agents SimEngine.agentMap SimEngine.set_agentMap
    SimEngine.simTime SimEngine.set_simTime SimEngine.isRunning SimEngine.set_isRunning
    SimEngine.isEvacuating SimEngine.set_isEvacuating SimEngine.passable
    SimEngine.set_passable SimEngine.hash SimEngine.set_hash SimEngine.peakDensity
    SimEngine.set_peakDensity SimEngine.timeAboveWarning SimEngine.set_timeAboveWarning
    SimEngine.timeAboveDanger SimEngine.set_timeAboveDanger SimEngine.egressTimes
    SimEngine.set_egressTimes SimEngine.queues SimEngine.set_queues
    SimEngine.queueServiced SimEngine.set_queueServiced SimEngine.fireGrid
    SimEngine.set_fireGrid SimEngine.fireSpread SimEngine.set_fireSpread
    SimEngine.smokeGrid SimEngine.set_smokeGrid SimEngine.fireCellCount
    SimEngine.set_fireCellCount SimEngine.hasSmoke SimEngine.set_hasSmoke
    SimEngine.fireCols SimEngine.set_fireCols SimEngine.fireRows SimEngine.set_fireRows
    SimEngine.fireStartTime SimEngine.set_fireStartTime SimEngine.blockedExits
    SimEngine.set_blockedExits SimEngine.firefighters SimEngine.set_firefighters
    SimEngine.firefightersSpawned SimEngine.set_firefightersSpawned
    SimEngine.spawnedCount SimEngine.set_spawnedCount SimEngine.totalToSpawn
    SimEngine.set_totalToSpawn SimEngine.entranceWeights SimEngine.set_entranceWeights
    SimEngine.set_agent SimEngine.set_firefighter SimEngine.clearFire
    SimEngine.igniteCell fire_fields frame_of_update frame_of_evacuation frame_of_spawn
    frame_of_firefighters frame_of_hazards frame_of_crowd frame_of_metrics planning_env].

Ltac engine_refl := engine_lazy; reflexivity.

(** The same, keeping projections of variables folded. *)
Ltac engine_cbn :=
  cbn [SimEngine.layout SimEngine.set_layout SimEngine.cfg SimEngine.set_cfg
    SimEngine.agents SimEngine.set_agents SimEngine.agentMap SimEngine.set_agentMap
    SimEngine.simTime SimEngine.set_simTime SimEngine.isRunning SimEngine.set_isRunning
    SimEngine.isEvacuating SimEngine.set_isEvacuating SimEngine.passable
    SimEngine.set_passable SimEngine.hash SimEngine.set_hash SimEngine.peakDensity
    SimEngine.set_peakDensity SimEngine.timeAboveWarning SimEngine.set_timeAboveWarning
    SimEngine.timeAboveDanger SimEngine.set_timeAboveDanger SimEngine.egressTimes
    SimEngine.set_egressTimes SimEngine.queues SimEngine.set_queues
    SimEngine.queueServiced SimEngine.set_queueServiced SimEngine.fireGrid
    SimEngine.set_fireGrid SimEngine.fireSpread SimEngine.set_fireSpread
    SimEngine.smokeGrid SimEngine.set_smokeGrid SimEngine.fireCellCount
    SimEngine.set_fireCellCount SimEngine.hasSmoke SimEngine.set_hasSmoke
    SimEngine.fireCols SimEngine.set_fireCols SimEngine.fireRows SimEngine.set_fireRows
    SimEngine.fireStartTime SimEngine.set_fireStartTime SimEngine.blockedExits
    SimEngine.set_blockedExits SimEngine.firefighters SimEngine.set_firefighters
    SimEngine.firefightersSpawned SimEngine.set_firefightersSpawned
    SimEngine.spawnedCount SimEngine.set_spawnedCount SimEngine.totalToSpawn
    SimEngine.set_totalToSpawn SimEngine.entranceWeights SimEngine.set_entranceWeights
    SimEngine.set_agent SimEngine.set_firefighter SimEngine.clearFire
    SimEngine.igniteCell fire_fields frame_of_update frame_of_evacuation frame_of_spawn
    frame_of_firefighters frame_of_hazards frame_of_crowd frame_of_metrics planning_env].

(** Case analysis on every conditional of the goal. *)
Ltac crush_cases :=
  repeat first
    [ engine_refl
    | progress simpl
    | match goal with
      | |- context [match ?x with _ => _ end] =>
          lazymatch x with
          | context [match _ with _ => _ end] => fail
          | _ => destruct x eqn:?
          end
      end ].

Lemma amb_bind_Some {A B} (m : Amb A) (k : A → Amb B) w b w' :
  amb_bind m k w = Some (b, w') ↔ ∃ a w1, m w = Some (a, w1) ∧ k a w1 = Some (b, w').
Proof.
  unfold amb_bind. split.
  - destruct (m w) as [[a w1]|]; [|done]. intros H. by exists a, w1.
  - intros (a & w1 & -> & H). done.
Qed.

Lemma amb_ret_Some {A} (a b : A) w w' :
  amb_ret a w = Some (b, w') ↔ a = b ∧ w = w'.
Proof. unfold amb_ret. split; [by intros [= -> ->]|by intros [-> ->]]. Qed.

Section PhaseFrames.
Context (Math : JsMath).

Lemma checkExitArrival_frame a s :
  frame_of_update (SimEngine.checkExitArrival Math a s).2 = frame_of_update s.
Proof. unfold SimEngine.checkExitArrival. crush_cases. Qed.

Lemma onAgentReachedTarget_frame a s :
  frame_of_update (SimEngine.onAgentReachedTarget Math a s).2 = frame_of_update s.
Proof. unfold SimEngine.onAgentReachedTarget. crush_cases. Qed.

Lemma moveAgent_frame dt dx dy d a s :
  frame_of_update (SimEngine.moveAgent Math dt dx dy d a s).2 = frame_of_update s.
Proof. unfold SimEngine.moveAgent. apply checkExitArrival_frame. Qed.

Lemma updateAgent_frame dt a s :
  frame_of_update (SimEngine.updateAgent Math dt a s).2 = frame_of_update s.
Proof.
  unfold SimEngine.updateAgent.
  destruct (Agent.state a); try (crush_cases; fail);
    (destruct (Agent.path a !! Agent.pathIndex a); [|done];
     destruct (Qltb _ _); [destruct (_ <=? _)%nat|];
     first [apply onAgentReachedTarget_frame | apply moveAgent_frame]).
Qed.

Lemma updateAgentAt_frame dt i s :
  frame_of_update (SimEngine.updateAgentAt Math dt i s) = frame_of_update s.
Proof.
  unfold SimEngine.updateAgentAt.
  destruct (SimEngine.agents s !! i) as [a|]; [|done].
  destruct (bool_decide _); [done|].
  pose proof (updateAgent_frame dt a s) as H.
  by destruct (SimEngine.updateAgent Math dt a s).
Qed.

Lemma forAgents_frame {T} (view : SimEngine.t → T) body s :
  (∀ i s, view (body i s) = view s) →
  view (SimEngine.forAgents body s) = view s.
Proof.
  intros H. unfold SimEngine.forAgents.
  apply (foldl_preserves (λ s', view s' = view s)); [done|].
  intros s' i _ Hs'. by rewrite H.
Qed.

Lemma serveQueue_frame s att :
  frame_of_update (SimEngine.serveQueue s att) = frame_of_update s.
Proof. unfold SimEngine.serveQueue. crush_cases. Qed.

Lemma processQueues_frame dt s :
  frame_of_update (SimEngine.processQueues dt s) = frame_of_update s.
Proof.
  unfold SimEngine.processQueues.
  generalize (VenueLayout.attractors (SimEngine.layout s)). intros atts.
  apply (foldl_preserves (λ s', frame_of_update s' = frame_of_update s)); [done|].
  intros s' att _ Hs'. by rewrite serveQueue_frame.
Qed.

Lemma rerouteAgent_frame i s :
  frame_of_update (SimEngine.rerouteAgent Math i s) = frame_of_update s.
Proof. unfold SimEngine.rerouteAgent. crush_cases. Qed.

Lemma evacuateAgent_frame i s :
  frame_of_evacuation (SimEngine.evacuateAgent Math i s) = frame_of_evacuation s.
Proof. unfold SimEngine.evacuateAgent. crush_cases. Qed.

Lemma triggerEvacuation_frame s :
  frame_of_evacuation (SimEngine.triggerEvacuation Math s) = frame_of_evacuation s.
Proof.
  unfold SimEngine.triggerEvacuation.
  rewrite (forAgents_frame frame_of_evacuation); [done|].
  apply evacuateAgent_frame.
Qed.
End PhaseFrames.

(** Inversion of a computation in [Amb] that has a result. *)
Ltac amb_inv :=
  repeat match goal with
  | H : amb_bind _ _ _ = Some _ |- _ =>
      let a := fresh "a" in let w := fresh "w" in let Ha := fresh "Hrun" in
      apply amb_bind_Some in H as (a & w & Ha & H)
  | H : amb_ret _ _ = Some _ |- _ =>
      apply amb_ret_Some in H as [? ?]; subst
  | H : (match ?x with _ => _ end) _ = Some _ |- _ => destruct x eqn:?; try discriminate
  end.

Section AmbientFrames.
Context (Math : JsMath).

Lemma spawnOneAgent_frame s w s' w' :
  SimEngine.spawnOneAgent Math s w = Some (s', w') →
  frame_of_spawn s' = frame_of_spawn s.
Proof. unfold SimEngine.spawnOneAgent. intros H. amb_inv. reflexivity. Qed.

Lemma spawnLoop_frame n s w s' w' :
  SimEngine.spawnLoop Math n s w = Some (s', w') →
  frame_of_spawn s' = frame_of_spawn s.
Proof.
  revert s w. induction n as [|n IH]; simpl; intros s w H.
  - by apply amb_ret_Some in H as [-> _].
  - destruct (Qltb _ _).
    + apply amb_bind_Some in H as (s1 & w1 & H1 & H).
      rewrite (IH _ _ H). by eapply spawnOneAgent_frame.
    + by apply amb_ret_Some in H as [-> _].
Qed.

Lemma spawnAgents_frame dt s w s' w' :
  SimEngine.spawnAgents Math dt s w = Some (s', w') →
  frame_of_spawn s' = frame_of_spawn s.
Proof.
  unfold SimEngine.spawnAgents. destruct (_ || _).
  - by intros [-> _]%amb_ret_Some.
  - apply spawnLoop_frame.
Qed.

Lemma douseNeighbour_frame r c s d :
  frame_of_firefighters (SimEngine.douseNeighbour r c s d) = frame_of_firefighters s.
Proof. unfold SimEngine.douseNeighbour. crush_cases. Qed.

Lemma extinguish_frame r c s :
  frame_of_firefighters (SimEngine.extinguish r c s) = frame_of_firefighters s.
Proof.
  unfold SimEngine.extinguish.
  set (s1 := if grid_get false (SimEngine.fireGrid s) r c then _ else s).
  assert (frame_of_firefighters s1 = frame_of_firefighters s) as <-
    by (subst s1; crush_cases).
  apply (foldl_preserves (λ s', frame_of_firefighters s' = frame_of_firefighters s1)); [done|].
  intros s' d _ Hs'. by rewrite douseNeighbour_frame.
Qed.

Lemma tickFirefighter_frame dt ff s :
  frame_of_firefighters (SimEngine.tickFirefighter Math dt ff s).2 = frame_of_firefighters s.
Proof.
  unfold SimEngine.tickFirefighter.
  repeat first
    [ reflexivity
    | apply extinguish_frame
    | progress simpl
    | match goal with
      | |- context [match ?x with _ => _ end] =>
          lazymatch x with
          | context [match _ with _ => _ end] => fail
          | _ => destruct x eqn:?
          end
      end ].
Qed.

Lemma tickFirefighterAt_frame dt s i :
  frame_of_firefighters (SimEngine.tickFirefighterAt Math dt s i) = frame_of_firefighters s.
Proof.
  unfold SimEngine.tickFirefighterAt.
  destruct (SimEngine.firefighters s !! i) as [ff|]; [|done].
  pose proof (tickFirefighter_frame dt ff s) as H.
  by destruct (SimEngine.tickFirefighter Math dt ff s).
Qed.

Lemma spawnFirefighter_frame i s w s' w' :
  SimEngine.spawnFirefighter i s w = Some (s', w') →
  frame_of_firefighters s' = frame_of_firefighters s.
Proof. unfold SimEngine.spawnFirefighter. intros H. amb_inv; reflexivity. Qed.

Lemma spawnFirefighters_frame s w s' w' :
  SimEngine.spawnFirefighters s w = Some (s', w') →
  frame_of_firefighters s' = frame_of_firefighters s.
Proof.
  unfold SimEngine.spawnFirefighters.
  destruct (VenueLayout.entrances _); [by intros [-> _]%amb_ret_Some|].
  simpl. intros H. amb_inv.
  repeat match goal with
  | H : SimEngine.spawnFirefighter _ _ _ = Some _ |- _ =>
      apply spawnFirefighter_frame in H
  end.
  congruence.
Qed.

Lemma tickFirefighters_frame dt s w s' w' :
  SimEngine.tickFirefighters Math dt s w = Some (s', w') →
  frame_of_firefighters s' = frame_of_firefighters s.
Proof.
  unfold SimEngine.tickFirefighters. intros H.
  apply amb_bind_Some in H as (s1 & w1 & H1 & H).
  apply amb_ret_Some in H as [<- <-].
  assert (frame_of_firefighters s1 = frame_of_firefighters s) as <-.
  { destruct (_ && _).
    - apply amb_bind_Some in H1 as (s2 & w2 & H2 & H1).
      apply amb_ret_Some in H1 as [<- <-].
      by apply spawnFirefighters_frame in H2 as <-.
    - by apply amb_ret_Some in H1 as [-> _]. }
  apply (foldl_preserves (λ s', frame_of_firefighters s' = frame_of_firefighters s1)); [done|].
  intros s' i _ Hs'. by rewrite tickFirefighterAt_frame.
Qed.

Lemma igniteCell_frame s rc :
  frame_of_hazards (SimEngine.igniteCell s rc) = frame_of_hazards s.
Proof. done. Qed.

Lemma spreadFire_frame dt s :
  frame_of_hazards (SimEngine.spreadFire dt s) = frame_of_hazards s.
Proof.
  unfold SimEngine.spreadFire.
  destruct (foldl _ _ _) as [spread ignite].
  apply (foldl_preserves (λ s', frame_of_hazards s' = frame_of_hazards s)); [done|].
  intros s' rc _ Hs'. by rewrite igniteCell_frame.
Qed.

Lemma spreadSmoke_frame dt s :
  frame_of_hazards (SimEngine.spreadSmoke dt s) = frame_of_hazards s.
Proof. done. Qed.

Lemma tickHazards_frame dt s :
  frame_of_hazards (SimEngine.tickHazards dt s) = frame_of_hazards s.
Proof.
  unfold SimEngine.tickHazards.
  destruct (_ <? _)%Z; [by rewrite spreadSmoke_frame, spreadFire_frame|].
  by destruct (SimEngine.hasSmoke s).
Qed.

Lemma tickAlarm_frame s :
  frame_of_evacuation (SimEngine.tickAlarm Math s) = frame_of_evacuation s.
Proof.
  unfold SimEngine.tickAlarm. destruct (_ && _); [|done]. apply triggerEvacuation_frame.
Qed.

Lemma rebuildHash_frame s :
  frame_of_crowd (SimEngine.rebuildHash s) = frame_of_crowd s
  ∧ SimEngine.agents (SimEngine.rebuildHash s) = SimEngine.agents s
  ∧ SimEngine.queues (SimEngine.rebuildHash s) = SimEngine.queues s
  ∧ SimEngine.queueServiced (SimEngine.rebuildHash s) = SimEngine.queueServiced s
  ∧ SimEngine.egressTimes (SimEngine.rebuildHash s) = SimEngine.egressTimes s.
Proof. done. Qed.

Lemma frame_of_update_crowd s s' :
  frame_of_update s' = frame_of_update s → frame_of_crowd s' = frame_of_crowd s.
Proof. unfold frame_of_update, frame_of_crowd. intros H. injection H. intros. congruence. Qed.

Lemma tickCrowd_frame dt s :
  frame_of_crowd (SimEngine.tickCrowd Math dt s) = frame_of_crowd s.
Proof.
  unfold SimEngine.tickCrowd.
  rewrite (frame_of_update_crowd _ _ (processQueues_frame dt _)).
  rewrite (forAgents_frame frame_of_crowd).
  - apply rebuildHash_frame.
  - intros i s'. apply frame_of_update_crowd, updateAgentAt_frame.
Qed.

Lemma tickMetrics_frame dt s :
  frame_of_metrics (SimEngine.tickMetrics dt s) = frame_of_metrics s.
Proof. unfold SimEngine.tickMetrics. crush_cases. Qed.

End AmbientFrames.

(** ** The phases of a tick that runs *)

Section TickPhases.
Context (Math : JsMath).

Lemma tick_paused dt s w :
  SimEngine.isRunning s = false → SimEngine.tick Math dt s w = Some (s, w).
Proof. intros H. unfold SimEngine.tick. by rewrite H. Qed.

Lemma tick_running dt s w s' w' :
  SimEngine.isRunning s = true →
  SimEngine.tick Math dt s w = Some (s', w') →
  let dt' := Math_min dt 0.05 in
  ∃ s3 w3 s4,
    SimEngine.tickFirefighters Math dt'
      (SimEngine.tickHazards dt' (SimEngine.tickAlarm Math s)) w = Some (s3, w3)
    ∧ SimEngine.spawnAgents Math dt' s3 w3 = Some (s4, w')
    ∧ s' = SimEngine.set_simTime
             (SimEngine.simTime (SimEngine.tickMetrics dt' (SimEngine.tickCrowd Math dt' s4))
              + dt')
             (SimEngine.tickMetrics dt' (SimEngine.tickCrowd Math dt' s4)).
Proof.
  intros Hrun. unfold SimEngine.tick. rewrite Hrun. simpl. intros H.
  apply amb_bind_Some in H as (s3 & w3 & H3 & H).
  apply amb_bind_Some in H as (s4 & w4 & H4 & H).
  apply amb_ret_Some in H as [<- <-].
  by exists s3, w3, s4.
Qed.
End TickPhases.

(** ** Starting a fire *)

(** C10.  A call [startFire(wx, wy)] whose cell [(⌊wy⌋, ⌊wx⌋)] lies outside
    the fire grid or is not passable leaves the whole state of the engine as
    it was: no cell is set on fire, the count of burning cells and the start
    time of the fire keep their values, and no evacuation is triggered. *)
Theorem startFire_rejected (Math : JsMath) (s : SimEngine.t) (wx wy : Q) :
  SimEngine.in_fire_grid s (Math_floor wy) (Math_floor wx) = false
  ∨ is_passable (SimEngine.passable s) (Math_floor wy) (Math_floor wx) = false →
  SimEngine.startFire Math wx wy s = s.
Proof.
  intros H. unfold SimEngine.startFire.
  destruct H as [-> | ->]; [done|].
  by rewrite andb_false_r.
Qed.

(** The cell of the wall of the room cannot be set on fire, and neither can
    a point outside the room. *)
Lemma startFire_rejected_witness :
  (SimEngine.in_fire_grid roomEngine (Math_floor 9) (Math_floor 1) = false
   ∨ is_passable (SimEngine.passable roomEngine) (Math_floor 9) (Math_floor 1) = false)
  ∧ SimEngine.startFire approxMath 1 9 roomEngine = roomEngine
  ∧ is_passable (SimEngine.passable roomEngine) (Math_floor 0.5) (Math_floor 3.2) = false
  ∧ SimEngine.startFire approxMath 3.2 0.5 roomEngine = roomEngine.
Proof.
  split; [left; vm_compute; reflexivity|].
  split; [apply (startFire_rejected approxMath roomEngine 1 9); left; vm_compute; reflexivity|].
  split; [vm_compute; reflexivity|].
  apply (startFire_rejected approxMath roomEngine 3.2 0.5); right; vm_compute; reflexivity.
Defined.

(** ** Fire and smoke *)

Lemma fire_wf_ext s s' : fire_fields s' = fire_fields s → fire_wf s → fire_wf s'.
Proof. unfold fire_fields, fire_wf. intros [= -> -> -> -> ->]. done. Qed.

Lemma smoke_pinned_ext s s' :
  SimEngine.fireGrid s' = SimEngine.fireGrid s →
  SimEngine.smokeGrid s' = SimEngine.smokeGrid s →
  smoke_pinned s → smoke_pinned s'.
Proof. unfold smoke_pinned. by intros -> ->. Qed.

Lemma clearFire_wf s :
  (0 ≤ SimEngine.fireRows s)%Z → (0 ≤ SimEngine.fireCols s)%Z →
  fire_wf (SimEngine.clearFire s).
Proof.
  intros Hr Hc. unfold fire_wf. simpl.
  split; [by apply grid_make_dims|]. split; [by apply grid_make_dims|].
  unfold grid_make.
  assert (∀ n m, burning (replicate n (replicate m false)) = 0%nat) as ->; [|done].
  intros n m. induction n as [|n IH]; simpl; [done|]. rewrite IH.
  clear. induction m; simpl; lia.
Qed.

Lemma grid_cols_nonneg {A} (g : list (list A)) : (0 ≤ grid_cols g)%Z.
Proof. destruct g; simpl; lia. Qed.

Lemma rebuild_wf s : fire_wf (SimEngine.rebuild s).
Proof.
  unfold SimEngine.rebuild.
  set (p := buildPassableGrid _ _ _ _).
  set (s1 := SimEngine.set_fireCols _ _).
  apply (fire_wf_ext (SimEngine.clearFire s1)); [engine_refl|].
  apply clearFire_wf; subst s1; engine_lazy; [lia|apply grid_cols_nonneg].
Qed.

Lemma igniteCell_wf s rc : fire_wf s → fire_wf (SimEngine.igniteCell s rc).
Proof.
  intros (Hf & Hs & Hc). unfold fire_wf, SimEngine.igniteCell. simpl.
  split; [by apply grid_set_dims|]. split; [done|].
  pose proof (burning_set_true_le _ _ _ rc.1 rc.2 Hf). lia.
Qed.

Lemma spreadFire_wf dt s : fire_wf s → fire_wf (SimEngine.spreadFire dt s).
Proof.
  intros Hwf. unfold SimEngine.spreadFire.
  destruct (foldl _ _ _) as [spread ignite].
  apply foldl_preserves; [done|]. intros s' rc _. apply igniteCell_wf.
Qed.

Lemma smokeCell_dims s dt next rc rows cols :
  grid_dims next rows cols → grid_dims (SimEngine.smokeCell s dt next rc) rows cols.
Proof.
  intros H. unfold SimEngine.smokeCell. destruct rc as [r c].
  destruct (grid_get false _ r c); by apply grid_set_dims.
Qed.

Lemma spreadSmoke_next_dims s dt l rows cols :
  grid_dims (SimEngine.smokeGrid s) rows cols →
  grid_dims (foldl (SimEngine.smokeCell s dt) (SimEngine.smokeGrid s) l) rows cols.
Proof.
  intros H. apply foldl_preserves; [done|]. intros next rc _. apply smokeCell_dims.
Qed.

Lemma spreadSmoke_wf dt s : fire_wf s → fire_wf (SimEngine.spreadSmoke dt s).
Proof.
  intros (Hf & Hs & Hc). unfold fire_wf, SimEngine.spreadSmoke. simpl.
  split; [done|]. split; [|done]. by apply spreadSmoke_next_dims.
Qed.

(** After the smoke automaton has run, every burning cell is at 1.0. *)
Lemma spreadSmoke_pinned dt s : fire_wf s → smoke_pinned (SimEngine.spreadSmoke dt s).
Proof.
  intros (Hf & Hs & Hc) r c. unfold SimEngine.spreadSmoke. simpl. intros Hfire.
  destruct (grid_get_in_range _ _ _ r c Hf Hfire) as [Hr Hcol].
  assert ((r, c) ∈ cells (SimEngine.fireRows s) (SimEngine.fireCols s)) as Hin
    by by apply elem_of_cells.
  revert Hin. generalize (cells (SimEngine.fireRows s) (SimEngine.fireCols s)).
  intros l. induction l as [|rc l IH] using rev_ind; [by intros ?%elem_of_nil|].
  rewrite foldl_app. simpl.
  pose proof (spreadSmoke_next_dims s dt l _ _ Hs) as Hd.
  set (next := foldl _ _ l) in *.
  destruct (decide (rc = (r, c))) as [->|Hne].
  - intros _. unfold SimEngine.smokeCell. rewrite Hfire.
    by apply (grid_get_set_eq 0 next (SimEngine.fireRows s) (SimEngine.fireCols s)).
  - intros [Hl|Hl%list_elem_of_singleton]%elem_of_app; [|done].
    unfold SimEngine.smokeCell. destruct rc as [r' c'].
    destruct (grid_get false _ r' c'); rewrite grid_get_set_ne by done; auto.
Qed.

Lemma tickHazards_wf dt s : fire_wf s → fire_wf (SimEngine.tickHazards dt s).
Proof.
  intros H. unfold SimEngine.tickHazards.
  destruct (_ <? _)%Z; [by apply spreadSmoke_wf, spreadFire_wf|].
  destruct (SimEngine.hasSmoke s); [by apply spreadSmoke_wf|done].
Qed.

Lemma tickHazards_pinned dt s : fire_wf s → smoke_pinned (SimEngine.tickHazards dt s).
Proof.
  intros H. unfold SimEngine.tickHazards.
  destruct (Z.ltb_spec 0 (SimEngine.fireCellCount s)) as [Hpos|Hzero].
  - by apply spreadSmoke_pinned, spreadFire_wf.
  - assert (∀ r c, grid_get false (SimEngine.fireGrid s) r c = true → False) as Hnone.
    { intros r c Hfire. apply burning_pos in Hfire. destruct H as (_ & _ & Hc). lia. }
    destruct (SimEngine.hasSmoke s).
    + intros r c Hfire. exfalso. by apply (Hnone r c).
    + intros r c Hfire. exfalso. by apply (Hnone r c).
Qed.

Lemma doused_refl s : fire_wf s → doused s s.
Proof. by intros H. Qed.

Lemma doused_trans s1 s2 s3 : doused s1 s2 → doused s2 s3 → doused s1 s3.
Proof.
  intros (_ & Hs12 & H12) (Hwf & Hs23 & H23). split; [done|].
  split; [congruence|]. auto.
Qed.

Lemma doused_ext s s' :
  fire_wf s → fire_fields s' = fire_fields s → doused s s'.
Proof.
  intros Hwf Hf. split; [by eapply fire_wf_ext|].
  unfold fire_fields in Hf. injection Hf as Hfire Hsmoke _ _ _.
  split; [done|]. by rewrite Hfire.
Qed.

Lemma put_out_doused s r c :
  fire_wf s →
  grid_get false (SimEngine.fireGrid s) r c = true →
  doused s (SimEngine.set_fireCellCount (SimEngine.fireCellCount s - 1)%Z
              (SimEngine.set_fireGrid (grid_set (SimEngine.fireGrid s) r c false) s)).
Proof.
  intros (Hf & Hs & Hc) Hfire. split; [|split; [done|]].
  - unfold fire_wf. simpl. split; [by apply grid_set_dims|]. split; [done|].
    pose proof (burning_set_false _ _ _ r c Hf Hfire). lia.
  - simpl. intros r' c'. apply grid_get_set_false.
Qed.

Lemma douseNeighbour_doused r c s d :
  fire_wf s → doused s (SimEngine.douseNeighbour r c s d).
Proof.
  intros Hwf. unfold SimEngine.douseNeighbour.
  destruct (_ && _); [by apply doused_refl|].
  destruct (negb _); [by apply doused_refl|].
  set (s1 := if _ && _ then _ else s).
  assert (doused s s1) as H1.
  { subst s1. destruct (grid_get false _ _ _) eqn:E; simpl; [|by apply doused_refl].
    destruct (Qltb _ _); [by apply put_out_doused|by apply doused_refl]. }
  eapply doused_trans; [exact H1|].
  apply doused_ext; [apply H1|done].
Qed.

Lemma extinguish_doused r c s : fire_wf s → doused s (SimEngine.extinguish r c s).
Proof.
  intros Hwf. unfold SimEngine.extinguish.
  set (s1 := if grid_get false _ r c then _ else s).
  assert (doused s s1) as H1.
  { subst s1. destruct (grid_get false _ _ _) eqn:E; [|by apply doused_refl].
    eapply doused_trans; [by apply put_out_doused|].
    apply doused_ext; [by apply put_out_doused|done]. }
  apply (foldl_preserves (λ s', doused s s')); [done|].
  intros s' d _ Hs'. eapply doused_trans; [exact Hs'|].
  apply douseNeighbour_doused, Hs'.
Qed.

Section FireInvariant.
Context (Math : JsMath).

Lemma frame_of_firefighters_smoke s s' :
  frame_of_firefighters s' = frame_of_firefighters s →
  SimEngine.smokeGrid s' = SimEngine.smokeGrid s
  ∧ SimEngine.fireRows s' = SimEngine.fireRows s
  ∧ SimEngine.fireCols s' = SimEngine.fireCols s.
Proof. unfold frame_of_firefighters. intros H. injection H. intros. by repeat split. Qed.

Lemma tickFirefighter_doused dt ff s :
  fire_wf s → doused s (SimEngine.tickFirefighter Math dt ff s).2.
Proof.
  intros Hwf. unfold SimEngine.tickFirefighter.
  repeat first
    [ by apply doused_refl
    | by apply extinguish_doused
    | progress simpl
    | match goal with
      | |- context [match ?x with _ => _ end] =>
          lazymatch x with
          | context [match _ with _ => _ end] => fail
          | _ => destruct x eqn:?
          end
      end ].
Qed.

Lemma tickFirefighterAt_doused dt s i :
  fire_wf s → doused s (SimEngine.tickFirefighterAt Math dt s i).
Proof.
  intros Hwf. unfold SimEngine.tickFirefighterAt.
  destruct (SimEngine.firefighters s !! i) as [ff|]; [|by apply doused_refl].
  pose proof (tickFirefighter_doused dt ff s Hwf) as H.
  destruct (SimEngine.tickFirefighter Math dt ff s) as [ff' s']. simpl in H.
  eapply doused_trans; [exact H|]. apply doused_ext; [apply H|done].
Qed.

Lemma fire_fields_of_firefighters_frame s s' :
  frame_of_firefighters s' = frame_of_firefighters s →
  SimEngine.fireGrid s' = SimEngine.fireGrid s →
  SimEngine.fireCellCount s' = SimEngine.fireCellCount s →
  fire_fields s' = fire_fields s.
Proof.
  intros H Hg Hc. apply frame_of_firefighters_smoke in H as (Hs & Hr & Hcol).
  unfold fire_fields. congruence.
Qed.

Lemma spawnFirefighter_fire i s w s' w' :
  SimEngine.spawnFirefighter i s w = Some (s', w') → fire_fields s' = fire_fields s.
Proof. unfold SimEngine.spawnFirefighter. intros H. amb_inv; reflexivity. Qed.

Lemma spawnFirefighters_fire s w s' w' :
  SimEngine.spawnFirefighters s w = Some (s', w') → fire_fields s' = fire_fields s.
Proof.
  unfold SimEngine.spawnFirefighters.
  destruct (VenueLayout.entrances _); [by intros [-> _]%amb_ret_Some|].
  simpl. intros H. amb_inv.
  repeat match goal with
  | H : SimEngine.spawnFirefighter _ _ _ = Some _ |- _ =>
      apply spawnFirefighter_fire in H
  end.
  congruence.
Qed.

Lemma tickFirefighters_doused dt s w s' w' :
  fire_wf s →
  SimEngine.tickFirefighters Math dt s w = Some (s', w') →
  doused s s'.
Proof.
  intros Hwf H. unfold SimEngine.tickFirefighters in H.
  apply amb_bind_Some in H as (s1 & w1 & H1 & H).
  apply amb_ret_Some in H as [<- <-].
  assert (doused s s1) as Hs1.
  { apply doused_ext; [done|]. destruct (_ && _).
    - apply amb_bind_Some in H1 as (s2 & w2 & H2 & H1).
      apply amb_ret_Some in H1 as [<- <-].
      by apply spawnFirefighters_fire in H2 as <-.
    - by apply amb_ret_Some in H1 as [-> _]. }
  apply (foldl_preserves (λ s', doused s s')); [done|].
  intros s' i _ Hs'. eapply doused_trans; [exact Hs'|].
  apply tickFirefighterAt_doused, Hs'.
Qed.

Lemma startFire_wf wx wy s : fire_wf s → fire_wf (SimEngine.startFire Math wx wy s).
Proof.
  intros Hwf. unfold SimEngine.startFire.
  destruct (_ && _); [|done].
  set (s1 := if negb _ then _ else s).
  assert (fire_wf s1) as H1.
  { subst s1. destruct (negb _); [|done]. apply (igniteCell_wf s (_, _)), Hwf. }
  set (s2 := if Qltb _ 0 then _ else s1).
  assert (fire_wf s2) as H2 by (subst s2; by destruct (Qltb _ _)).
  destruct (negb (SimEngine.isEvacuating s2)); [|exact H2].
  apply (fire_wf_ext s2); [|done].
  pose proof (triggerEvacuation_frame Math s2) as F.
  unfold frame_of_evacuation in F. injection F. intros. unfold fire_fields. congruence.
Qed.

Lemma fire_fields_of_update_frame s s' :
  frame_of_update s' = frame_of_update s → fire_fields s' = fire_fields s.
Proof.
  unfold frame_of_update, fire_fields. intros H. injection H. intros. congruence.
Qed.

Lemma setBlockedExits_wf ids s :
  fire_wf s → fire_wf (SimEngine.setBlockedExits Math ids s).
Proof.
  intros Hwf. apply (fire_wf_ext s); [|done].
  unfold SimEngine.setBlockedExits.
  rewrite (forAgents_frame fire_fields); [done|].
  intros i s'. apply fire_fields_of_update_frame, rerouteAgent_frame.
Qed.

Lemma rebuild_dims_nonneg s :
  (0 ≤ SimEngine.fireRows (SimEngine.rebuild s))%Z
  ∧ (0 ≤ SimEngine.fireCols (SimEngine.rebuild s))%Z.
Proof.
  unfold SimEngine.rebuild. cbv zeta. engine_lazy. split; [lia|apply grid_cols_nonneg].
Qed.

Lemma reset_wf s w s' w' : SimEngine.reset s w = Some (s', w') → fire_wf s'.
Proof.
  unfold SimEngine.reset. cbv zeta. intros [= <- _].
  set (s0 := SimEngine.rebuild _).
  apply (fire_wf_ext (SimEngine.clearFire s0)); [engine_refl|].
  destruct (rebuild_dims_nonneg
              (SimEngine.set_totalToSpawn (SimConfig.N (SimEngine.cfg s))
                (SimEngine.set_blockedExits ∅ (SimEngine.set_queueServiced ∅
                  (SimEngine.set_queues ∅ (SimEngine.set_spawnedCount 0%Z
                    (SimEngine.set_egressTimes [] (SimEngine.set_timeAboveDanger 0
                      (SimEngine.set_timeAboveWarning 0 (SimEngine.set_peakDensity 0
                        (SimEngine.set_isEvacuating false (SimEngine.set_isRunning false
                          (SimEngine.set_simTime 0 (SimEngine.set_agentMap ∅
                            (SimEngine.set_agents [] s))))))))))))))) as [Hr Hc].
  by apply clearFire_wf.
Qed.

(** The fire and smoke phase followed by the firefighters leaves every
    burning cell at full smoke. *)
Lemma tick_running_fire dt s w s' w' :
  fire_wf s →
  SimEngine.isRunning s = true →
  SimEngine.tick Math dt s w = Some (s', w') →
  fire_wf s' ∧ smoke_pinned s'.
Proof.
  intros Hwf Hrun Htick.
  destruct (tick_running Math dt s w s' w' Hrun Htick) as (s3 & w3 & s4 & H3 & H4 & ->).
  set (step := Math_min dt 0.05) in *.
  assert (fire_wf (SimEngine.tickAlarm Math s)) as H1.
  { apply (fire_wf_ext s); [|done].
    pose proof (tickAlarm_frame Math s) as F.
    unfold frame_of_evacuation in F. injection F. intros. unfold fire_fields. congruence. }
  pose proof (tickHazards_wf step _ H1) as H2.
  pose proof (tickHazards_pinned step _ H1) as P2.
  destruct (tickFirefighters_doused _ _ _ _ _ H2 H3) as (Hwf3 & Hsmoke3 & Hfire3).
  assert (smoke_pinned s3) as P3.
  { intros r c Hfire. rewrite Hsmoke3. by apply P2, Hfire3. }
  assert (fire_fields (SimEngine.tickCrowd Math step s4) = fire_fields s3) as F5.
  { pose proof (tickCrowd_frame Math step s4) as F5.
    pose proof (spawnAgents_frame Math _ _ _ _ _ H4) as F4.
    unfold frame_of_crowd in F5. unfold frame_of_spawn in F4.
    injection F5; injection F4. intros. unfold fire_fields. congruence. }
  set (s5 := SimEngine.tickCrowd Math step s4) in *.
  assert (fire_fields (SimEngine.set_simTime
            (SimEngine.simTime (SimEngine.tickMetrics step s5) + step)
            (SimEngine.tickMetrics step s5)) = fire_fields s3) as F6.
  { rewrite <- F5. pose proof (tickMetrics_frame step s5) as F.
    unfold frame_of_metrics in F. injection F. intros. unfold fire_fields. simpl. congruence. }
  split; [by apply (fire_wf_ext s3)|].
  unfold fire_fields in F6. injection F6 as Hg Hs _ _ _.
  by apply (smoke_pinned_ext s3).
Qed.

Lemma tick_wf dt s w s' w' :
  fire_wf s → SimEngine.tick Math dt s w = Some (s', w') → fire_wf s'.
Proof.
  intros Hwf Htick. destruct (SimEngine.isRunning s) eqn:Hrun.
  - by destruct (tick_running_fire dt s w s' w' Hwf Hrun Htick).
  - rewrite tick_paused in Htick by done. by injection Htick as <- _.
Qed.

Lemma reachable_fire_wf s w : reachable Math s w → fire_wf s.
Proof.
  induction 1 as [layout cfg w|s w op s' w' Hreach IH Hop].
  - unfold SimEngine.new. apply rebuild_wf.
  - destruct op; simpl in Hop.
    + apply amb_ret_Some in Hop as [<- _]. by apply (fire_wf_ext s).
    + apply amb_ret_Some in Hop as [<- _]. apply rebuild_wf.
    + by eapply reset_wf.
    + apply amb_ret_Some in Hop as [<- _]. by apply startFire_wf.
    + apply amb_ret_Some in Hop as [<- _]. by apply setBlockedExits_wf.
    + apply amb_ret_Some in Hop as [<- _]. by apply (fire_wf_ext s).
    + apply amb_ret_Some in Hop as [<- _]. by apply (fire_wf_ext s).
    + by eapply tick_wf.
Qed.

(** C6, as the code has it.  In every state the engine leaves at the end of
    a tick that runs, every burning cell of the fire grid is at smoke 1. *)
Theorem tick_pins_smoke (s : SimEngine.t) (w : Ambient) (dt : Q)
    (s' : SimEngine.t) (w' : Ambient) :
  reachable Math s w →
  SimEngine.isRunning s = true →
  SimEngine.tick Math dt s w = Some (s', w') →
  ∀ r c, grid_get false (SimFrame.fireGrid (SimEngine.getFrame s')) r c = true →
         grid_get 0 (SimFrame.smokeGrid (SimEngine.getFrame s')) r c = 1.
Proof.
  intros Hreach Hrun Htick.
  apply reachable_fire_wf in Hreach.
  by destruct (tick_running_fire dt s w s' w' Hreach Hrun Htick) as [_ Hpin].
Qed.
End FireInvariant.

Lemma fireEngine_reachable w : reachable approxMath fireEngine w.
Proof.
  apply (reachable_step approxMath alertEngine w (OpStartFire 1.5 1.5)
           fireEngine w); [|reflexivity].
  apply (reachable_step approxMath (SimEngine.new roomLayout alertConfig) w OpStart
           alertEngine w); [|reflexivity].
  apply reachable_new.
Qed.

(** The first tick after the fire has been lit in the room: the cell burns
    and is at full smoke. *)
Lemma tick_pins_smoke_witness :
  ∃ s' w',
    SimEngine.isRunning fireEngine = true
    ∧ SimEngine.tick approxMath 0.05 fireEngine (tapeOf middleDraws) = Some (s', w')
    ∧ grid_get false (SimFrame.fireGrid (SimEngine.getFrame s')) 1 1 = true
    ∧ grid_get 0 (SimFrame.smokeGrid (SimEngine.getFrame s')) 1 1 = 1.
Proof.
  destruct (SimEngine.tick approxMath 0.05 fireEngine (tapeOf middleDraws))
    as [[s' w']|] eqn:Htick; [|vm_compute in Htick; discriminate].
  assert (SimEngine.isRunning fireEngine = true) as Hrun by (vm_compute; reflexivity).
  exists s', w'. split; [exact Hrun|]. split; [reflexivity|].
  assert (grid_get false (SimFrame.fireGrid (SimEngine.getFrame s')) 1 1 = true) as Hfire.
  { vm_compute in Htick. injection Htick as <- _. vm_compute. reflexivity. }
  split; [exact Hfire|].
  exact (tick_pins_smoke approxMath fireEngine (tapeOf middleDraws) 0.05 s' w'
           (fireEngine_reachable _) Hrun Htick 1%Z 1%Z Hfire).
Defined.

(** C6 as stated fails right after [startFire]: the frame taken then shows
    the cell [(1, 1)] burning with no smoke in it.  A tick of a paused engine
    does not change that. *)
Lemma startFire_leaves_smoke :
  grid_get false (SimFrame.fireGrid (SimEngine.getFrame fireEngine)) 1 1 = true
  ∧ grid_get 0 (SimFrame.smokeGrid (SimEngine.getFrame fireEngine)) 1 1 = 0
  ∧ SimEngine.tick approxMath 0.05 (SimEngine.pause fireEngine) (tapeOf middleDraws)
    = Some (SimEngine.pause fireEngine, tapeOf middleDraws).
Proof. repeat split; vm_compute; reflexivity. Qed.

(** ** The path planner *)

(** C4, on a concrete raster.  The centre cell [(3, 3)] of [holeGrid] is
    blocked and its neighbour [(3, 2)], at squared distance 1, is passable;
    the repair nevertheless moves the goal to the cell [(0, 0)], the first
    passable cell of the window in scanning order, at squared distance 18.  A
    walker standing next to the goal is sent to the corner and back. *)
Lemma repairGoal_takes_first_cell :
  is_passable holeGrid 3 3 = false
  ∧ is_passable holeGrid 3 2 = true
  ∧ repairGoal holeGrid 7 7 (3, 3)%Z = (0, 0)%Z
  ∧ astar approxMath holeGrid {| Vec2.x := 2.5; Vec2.y := 3.5 |}
      {| Vec2.x := 3.5; Vec2.y := 3.5 |} 1
    = [{| Vec2.x := 1.5; Vec2.y := 2.5 |}; {| Vec2.x := 0.5; Vec2.y := 1.5 |};
       {| Vec2.x := 0.5; Vec2.y := 0.5 |}; {| Vec2.x := 3.5; Vec2.y := 3.5 |}].
Proof. repeat split; vm_compute; reflexivity. Qed.

(** C3 as stated fails: when the start and the goal lie in the same cell the
    planner returns the one-waypoint path [[goalWorld]], not the empty path. *)
Lemma astar_same_cell_not_empty :
  toGrid 1 1 1 {| Vec2.x := 0.5; Vec2.y := 0.5 |}
    = repairGoal [[true]] 1 1 (toGrid 1 1 1 {| Vec2.x := 0.75; Vec2.y := 0.25 |})
  ∧ astar approxMath [[true]] {| Vec2.x := 0.5; Vec2.y := 0.5 |}
      {| Vec2.x := 0.75; Vec2.y := 0.25 |} 1
    = [{| Vec2.x := 0.75; Vec2.y := 0.25 |}]
  ∧ astar approxMath [[true]] {| Vec2.x := 0.5; Vec2.y := 0.5 |}
      {| Vec2.x := 0.75; Vec2.y := 0.25 |} 1 ≠ [].
Proof. repeat split; try (vm_compute; reflexivity). vm_compute. discriminate. Qed.

(** ** Evacuation *)

Section Evacuation.
Context (Math : JsMath).

(** The exit chosen by [nearestExitPos] belongs to the pool and no exit of
    the pool is closer to the agent. *)
Lemma closerExit_scan a pool best0 :
  let r := foldl (SimEngine.closerExit a)
             (best0, v2.dist2 (SimEngine.agentPos a) (SimEngine.exitPos best0)) pool in
  r.2 = v2.dist2 (SimEngine.agentPos a) (SimEngine.exitPos r.1)
  ∧ (r.1 = best0 ∨ r.1 ∈ pool)
  ∧ r.2 <= v2.dist2 (SimEngine.agentPos a) (SimEngine.exitPos best0)
  ∧ ∀ ex, ex ∈ pool → r.2 <= v2.dist2 (SimEngine.agentPos a) (SimEngine.exitPos ex).
Proof.
  induction pool as [|ex pool IH] using rev_ind; intros r; subst r.
  - simpl. split; [done|]. split; [by left|]. split; [lra|].
    intros ex Hex. by apply elem_of_nil in Hex.
  - rewrite foldl_app. simpl in *.
    destruct IH as (Hd & Hin & Hle0 & Hle).
    set (acc := foldl _ _ pool) in *.
    unfold SimEngine.closerExit.
    destruct (Qltb _ acc.2) eqn:E; simpl.
    + apply Qltb_lt in E. split; [done|]. split; [right; apply elem_of_app; right; by apply list_elem_of_singleton|].
      split; [lra|]. intros ex' [Hex'| ->%list_elem_of_singleton]%elem_of_app.
      * specialize (Hle ex' Hex'). lra.
      * lra.
    + apply Qltb_ge in E. split; [done|].
      split; [destruct Hin; [by left|right; apply elem_of_app; by left]|].
      split; [done|]. intros ex' [Hex'| ->%list_elem_of_singleton]%elem_of_app; [auto|done].
Qed.

Lemma nearestExitPos_nearest s a :
  match SimEngine.exitPool s with
  | [] =>
      SimEngine.nearestExitPos s a
      = ({| Vec2.x := VenueLayout.width (SimEngine.layout s) / 2;
            Vec2.y := VenueLayout.height (SimEngine.layout s) / 2 |}, a)
  | _ =>
      ∃ best, best ∈ SimEngine.exitPool s
        ∧ SimEngine.nearestExitPos s a
          = (SimEngine.exitPos best, Agent.set_targetExitId (Some (Exit.id best)) a)
        ∧ ∀ ex, ex ∈ SimEngine.exitPool s →
            v2.dist2 (SimEngine.agentPos a) (SimEngine.exitPos best)
            <= v2.dist2 (SimEngine.agentPos a) (SimEngine.exitPos ex)
  end.
Proof.
  unfold SimEngine.nearestExitPos.
  destruct (SimEngine.exitPool s) as [|best0 pool] eqn:E; [done|].
  pose proof (closerExit_scan a (best0 :: pool) best0) as (Hd & Hin & _ & Hle).
  set (r := foldl _ _ (best0 :: pool)) in *.
  exists r.1. split; [destruct Hin as [->|]; [left|done]|].
  split; [done|]. intros ex Hex. rewrite <- Hd. by apply Hle.
Qed.
End Evacuation.

Section TriggerEvacuation.
Context (Math : JsMath).

Lemma evacuateAgent_env i s :
  planning_env (SimEngine.evacuateAgent Math i s) = planning_env s
  ∧ SimEngine.cfg (SimEngine.evacuateAgent Math i s) = SimEngine.cfg s
  ∧ SimEngine.isEvacuating (SimEngine.evacuateAgent Math i s) = SimEngine.isEvacuating s.
Proof.
  unfold SimEngine.evacuateAgent.
  destruct (SimEngine.agents s !! i) as [a|]; [|done].
  destruct (bool_decide _); [done|].
  by destruct (SimEngine.leaves_for_evacuation _).
Qed.

Lemma evacuateAgent_agents i s :
  SimEngine.agents (SimEngine.evacuateAgent Math i s)
  = match SimEngine.agents s !! i with
    | Some a =>
        if bool_decide (Agent.state a = exited) then SimEngine.agents s
        else <[i := evacuated Math s a]> (SimEngine.agents s)
    | None => SimEngine.agents s
    end.
Proof.
  unfold SimEngine.evacuateAgent, evacuated.
  destruct (SimEngine.agents s !! i) as [a|]; [|done].
  destruct (bool_decide _); [done|].
  destruct (SimEngine.leaves_for_evacuation _); [|done].
  simpl. do 3 f_equal; by apply computePath_env.
Qed.

Lemma evacuateAgent_queues i s :
  SimEngine.queues (SimEngine.evacuateAgent Math i s)
  = match SimEngine.agents s !! i with
    | Some a =>
        if negb (bool_decide (Agent.state a = exited))
           && SimEngine.leaves_for_evacuation (Agent.state a)
        then remove_first (Agent.id a) <$> SimEngine.queues s
        else SimEngine.queues s
    | None => SimEngine.queues s
    end.
Proof.
  unfold SimEngine.evacuateAgent.
  destruct (SimEngine.agents s !! i) as [a|]; [|done].
  destruct (bool_decide _); [done|].
  by destruct (SimEngine.leaves_for_evacuation _).
Qed.

Lemma evacuation_rounds_step s0 k s :
  (k < length (SimEngine.agents s0))%nat →
  evacuation_rounds Math s0 k s →
  evacuation_rounds Math s0 (S k) (SimEngine.evacuateAgent Math k s).
Proof.
  intros Hk (Henv & Hcfg & Hev & Hlen & Hrest & Hdone & Hq).
  destruct (evacuateAgent_env k s) as (Henv' & Hcfg' & Hev').
  pose proof (evacuateAgent_agents k s) as Hag.
  pose proof (evacuateAgent_queues k s) as Hqs.
  destruct (lookup_lt_is_Some_2 (SimEngine.agents s0) k Hk) as [a Ha].
  assert (SimEngine.agents s !! k = Some a) as Hak by (rewrite Hrest; [done|lia]).
  rewrite Hak in Hag, Hqs.
  assert (evacuated Math s a = evacuated Math s0 a) as Heq.
  { unfold evacuated. rewrite Hcfg.
    destruct (SimEngine.leaves_for_evacuation _); [|done].
    by rewrite (computePath_env Math s s0). }
  rewrite Heq in Hag.
  repeat split.
  - congruence.
  - congruence.
  - congruence.
  - rewrite Hag. destruct (bool_decide _); [done|]. by rewrite length_insert.
  - intros j Hj. rewrite Hag.
    destruct (bool_decide _); [apply Hrest; lia|].
    rewrite list_lookup_insert_ne by lia. apply Hrest. lia.
  - intros j b Hj Hb. rewrite Hag.
    destruct (decide (j = k)) as [->|Hne].
    + assert (b = a) as -> by congruence.
      destruct (bool_decide (Agent.state a = exited)); [done|].
      rewrite list_lookup_insert_eq; [done|lia].
    + replace ((if bool_decide (Agent.state a = exited)
                then SimEngine.agents s
                else <[k:=evacuated Math s0 a]> (SimEngine.agents s)) !! j)
        with (SimEngine.agents s !! j).
      * apply Hdone; [lia|done].
      * destruct (bool_decide (Agent.state a = exited)); [done|].
        by rewrite list_lookup_insert_ne.
  - intros att q' Hq'. rewrite Hqs in Hq'.
    destruct (negb (bool_decide (Agent.state a = exited))
              && SimEngine.leaves_for_evacuation (Agent.state a)) eqn:E.
    + rewrite lookup_fmap in Hq'.
      destruct (SimEngine.queues s !! att) as [q1|] eqn:E1; [|done].
      injection Hq' as <-.
      destruct (Hq att q1 E1) as (q & Hq0 & Hnd & Hsub & Hgone).
      exists q. split; [done|].
      split; [intros; by apply remove_first_NoDup, Hnd|].
      split; [intros x Hx; by apply Hsub, (remove_first_elem_of (Agent.id a))|].
      intros j b Hj Hb Hne Hlv Hndq.
      destruct (decide (j = k)) as [->|Hjk].
      * assert (b = a) as -> by congruence.
        by apply remove_first_not_elem_of, Hnd.
      * intros Hin. apply (Hgone j b); [lia|done ..|].
        by apply (remove_first_elem_of (Agent.id a)).
    + destruct (Hq att q' Hq') as (q & Hq0 & Hnd & Hsub & Hgone).
      exists q. repeat split; [done ..|].
      intros j b Hj Hb Hne Hlv Hndq.
      destruct (decide (j = k)) as [->|Hjk].
      * assert (b = a) as -> by congruence.
        apply andb_false_iff in E as [E|E]; [|congruence].
        apply negb_false_iff, bool_decide_eq_true in E. done.
      * apply (Hgone j b); [lia|done ..].
Qed.

Lemma triggerEvacuation_rounds s :
  evacuation_rounds Math (SimEngine.set_isEvacuating true s)
    (length (SimEngine.agents s)) (SimEngine.triggerEvacuation Math s).
Proof.
  unfold SimEngine.triggerEvacuation.
  change (length (SimEngine.agents s))
    with (length (SimEngine.agents (SimEngine.set_isEvacuating true s))).
  apply forAgents_ind.
  - repeat split; try done.
    + intros j a Hj. lia.
    + intros att q' Hq'. exists q'. repeat split; try done. intros j a Hj. lia.
  - intros k s' Hk. by apply evacuation_rounds_step.
Qed.
End TriggerEvacuation.

(** C1, as the code has it.  When evacuation is triggered, the engine is
    evacuating and every agent that is not [exited] has its speed multiplied
    by [panicSpeedMultiplier].  An agent that was seeking an attractor,
    queuing or being served moreover becomes [evacuating], is taken out of
    the queues (each of which holds an id at most once), loses its target
    attractor, and gets a path planned from its position to the exit of the
    pool (the open exits, or all exits when all are blocked) nearest to it,
    or to the centre of the venue when there is no exit.  An agent that was
    already on its way out ([seeking_exit] or [evacuating]) keeps its state,
    its targets and its path. *)
Theorem triggerEvacuation_agent (Math : JsMath) (s : SimEngine.t) (i : nat) (a : Agent.t) :
  SimEngine.agents s !! i = Some a →
  Agent.state a ≠ exited →
  map_Forall (λ _ q, NoDup q) (SimEngine.queues s) →
  let s' := SimEngine.triggerEvacuation Math s in
  SimEngine.isEvacuating s' = true
  ∧ ∃ a', SimEngine.agents s' !! i = Some a'
      ∧ Agent.speed a' = Agent.speed a * SimConfig.panicSpeedMultiplier (SimEngine.cfg s)
      ∧ if SimEngine.leaves_for_evacuation (Agent.state a)
        then
          Agent.state a' = evacuating
          ∧ Agent.targetAttractorId a' = None
          ∧ (∀ att q, SimEngine.queues s' !! att = Some q → Agent.id a ∉ q)
          ∧ Agent.pathIndex a' = 0%nat
          ∧ ∃ goal,
              Agent.path a'
              = astar Math (SimEngine.passable s) (SimEngine.agentPos a) goal
                  SimEngine.ASTAR_CELL
              ∧ match SimEngine.exitPool s with
                | [] => goal = {| Vec2.x := VenueLayout.width (SimEngine.layout s) / 2;
                                  Vec2.y := VenueLayout.height (SimEngine.layout s) / 2 |}
                | _ =>
                    ∃ best, best ∈ SimEngine.exitPool s
                      ∧ goal = SimEngine.exitPos best
                      ∧ Agent.targetExitId a' = Some (Exit.id best)
                      ∧ ∀ ex, ex ∈ SimEngine.exitPool s →
                          v2.dist2 (SimEngine.agentPos a) (SimEngine.exitPos best)
                          <= v2.dist2 (SimEngine.agentPos a) (SimEngine.exitPos ex)
                end
        else
          Agent.state a' = Agent.state a
          ∧ Agent.path a' = Agent.path a
          ∧ Agent.pathIndex a' = Agent.pathIndex a
          ∧ Agent.targetAttractorId a' = Agent.targetAttractorId a
          ∧ Agent.targetExitId a' = Agent.targetExitId a.
Proof.
  intros Ha Hne Hnd s'.
  pose proof (triggerEvacuation_rounds Math s)
    as (Henv & Hcfg & Hev & Hlen & _ & Hdone & Hq).
  fold s' in Henv, Hcfg, Hev, Hlen, Hdone, Hq.
  set (s0 := SimEngine.set_isEvacuating true s) in *.
  split; [by rewrite Hev|].
  assert (i < length (SimEngine.agents s))%nat as Hi by by eapply lookup_lt_Some.
  specialize (Hdone i a Hi Ha).
  rewrite bool_decide_eq_false_2 in Hdone by done.
  exists (evacuated Math s0 a). split; [done|].
  unfold evacuated.
  destruct (SimEngine.leaves_for_evacuation (Agent.state a)) eqn:Hlv; [|by simpl].
  set (a1 := Agent.set_targetAttractorId None (Agent.set_state evacuating a)).
  pose proof (computePath_core Math s0 a1) as Hcore.
  set (a2 := SimEngine.computePath Math s0 a1) in *.
  injection Hcore as Hid Hx Hy Hvx Hvy Hrad Hsp Hst Hta Hspawn Hexit Hunt Hstuck.
  simpl. split; [by rewrite Hsp|].
  split; [by rewrite Hst|]. split; [by rewrite Hta|].
  split.
  { intros att q' Hq'. destruct (Hq att q' Hq') as (q & Hq0 & _ & _ & Hgone).
    apply (Hgone i a); [done..|]. by apply (Hnd att q). }
  split; [apply computePath_pathIndex|].
  subst a2. unfold SimEngine.computePath. simpl.
  pose proof (nearestExitPos_nearest s0 a1) as Hnear.
  change (SimEngine.exitPool s0) with (SimEngine.exitPool s) in Hnear.
  destruct (SimEngine.exitPool s) as [|ex0 pool] eqn:Epool.
  - rewrite Hnear. simpl. by eexists.
  - destruct Hnear as (best & Hbest & -> & Hmin). simpl.
    exists (SimEngine.exitPos best). split; [done|].
    exists best. by repeat split.
Qed.

(** In the room with two agents, the one that waits in the queue of the bar
    is turned around by the alarm. *)
Lemma triggerEvacuation_agent_witness :
  SimEngine.agents roomWithTwo !! 0%nat = Some queuingAgent
  ∧ Agent.state queuingAgent ≠ exited
  ∧ map_Forall (λ _ q, NoDup q) (SimEngine.queues roomWithTwo)
  ∧ ∃ a', SimEngine.agents (SimEngine.triggerEvacuation approxMath roomWithTwo) !! 0%nat
          = Some a'
      ∧ Agent.speed a' = 1 * 1.5
      ∧ Agent.state a' = evacuating
      ∧ Agent.targetAttractorId a' = None
      ∧ ∀ att q,
          SimEngine.queues (SimEngine.triggerEvacuation approxMath roomWithTwo) !! att
          = Some q → 0%Z ∉ q.
Proof.
  assert (map_Forall (λ _ q, NoDup q) (SimEngine.queues roomWithTwo)) as Hnd.
  { apply (bool_decide_unpack _ (dec := map_Forall_dec _ _)). vm_compute. reflexivity. }
  split; [reflexivity|]. split; [discriminate|]. split; [exact Hnd|].
  destruct (triggerEvacuation_agent approxMath roomWithTwo 0 queuingAgent
              eq_refl ltac:(discriminate) Hnd)
    as (_ & a' & Ha' & Hspeed & Hstate & Htarget & Hqueues & _).
  exists a'. repeat split; assumption.
Defined.

(** C1 as stated fails for an agent that is already on its way out: the
    second agent of the room is [seeking_exit] when the alarm goes, and it is
    still [seeking_exit], with the path it had, when [triggerEvacuation]
    returns. *)
Lemma triggerEvacuation_keeps_seeking_exit :
  SimEngine.agents roomWithTwo !! 1%nat = Some leavingAgent
  ∧ Agent.state leavingAgent = seeking_exit
  ∧ Agent.state <$> SimEngine.agents (SimEngine.triggerEvacuation approxMath roomWithTwo) !! 1%nat
    = Some seeking_exit
  ∧ Agent.path <$> SimEngine.agents (SimEngine.triggerEvacuation approxMath roomWithTwo) !! 1%nat
    = Some (Agent.path leavingAgent).
Proof. repeat split; vm_compute; reflexivity. Qed.

(** ** Density thresholds *)

(** The running maximum of a row, started at [m]. *)
Lemma max_row_spec (row : list Q) (m : Q) :
  let r := foldl (λ max v, if Qltb max v then v else max) m row in
  m <= r ∧ (∀ v, v ∈ row → v <= r) ∧ (r = m ∨ r ∈ row).
Proof.
  induction row as [|v row IH] using rev_ind; intros r; subst r.
  - simpl. split; [lra|]. split; [|by left]. intros v Hv. by apply elem_of_nil in Hv.
  - rewrite foldl_app. simpl in *. destruct IH as (Hm & Hall & Hin).
    set (r := foldl _ m row) in *.
    destruct (Qltb r v) eqn:E.
    + apply Qltb_lt in E. split; [lra|]. split.
      * intros v' [Hv'| ->%list_elem_of_singleton]%elem_of_app; [|lra].
        specialize (Hall v' Hv'). lra.
      * right. apply elem_of_app. right. by apply list_elem_of_singleton.
    + apply Qltb_ge in E. split; [done|]. split.
      * intros v' [Hv'| ->%list_elem_of_singleton]%elem_of_app; [auto|done].
      * destruct Hin; [by left|right; apply elem_of_app; by left].
Qed.

Lemma maxOfGrid_from_spec (grid : list (list Q)) (m : Q) :
  let r := foldl (λ max row, foldl (λ max v, if Qltb max v then v else max) max row) m grid in
  m <= r
  ∧ (∀ row v, row ∈ grid → v ∈ row → v <= r)
  ∧ (r = m ∨ ∃ row, row ∈ grid ∧ r ∈ row).
Proof.
  induction grid as [|row grid IH] using rev_ind; intros r; subst r.
  - simpl. split; [lra|]. split; [|by left]. intros row v Hrow. by apply elem_of_nil in Hrow.
  - rewrite foldl_app. simpl in *. destruct IH as (Hm & Hall & Hin).
    set (r := foldl _ m grid) in *.
    destruct (max_row_spec row r) as (Hr & Hrow & Hrin). simpl in *.
    set (r' := foldl _ r row) in *.
    split; [lra|]. split.
    + intros row' v [Hrow'| ->%list_elem_of_singleton]%elem_of_app Hv.
      * specialize (Hall row' v Hrow' Hv). lra.
      * by apply Hrow.
    + destruct Hrin as [Heq|Hrin].
      * rewrite Heq. destruct Hin as [|(row' & Hrow' & Hin)]; [by left|].
        right. exists row'. split; [|done]. apply elem_of_app. by left.
      * right. exists row. split; [|done].
        apply elem_of_app. right. by apply list_elem_of_singleton.
Qed.

Lemma grid_get_elem_of (grid : list (list Q)) row v :
  row ∈ grid → v ∈ row → ∃ r c, grid_get 0 grid r c = v.
Proof.
  intros [i Hi]%list_elem_of_lookup [j Hj]%list_elem_of_lookup.
  exists (Z.of_nat i), (Z.of_nat j). unfold grid_get.
  rewrite !arr_get_of_nat, Hi. simpl. by rewrite Hj.
Qed.

Lemma grid_get_cases (grid : list (list Q)) r c :
  grid_get 0 grid r c = 0 ∨ ∃ row, row ∈ grid ∧ grid_get 0 grid r c ∈ row.
Proof.
  unfold grid_get.
  destruct (Z.ltb_spec r 0) as [Hr|Hr].
  { left. rewrite (arr_get_neg [] grid r Hr). unfold arr_get.
    destruct (c <? 0)%Z; [done|]. by rewrite lookup_nil. }
  rewrite <- (Z2Nat.id r Hr), arr_get_of_nat.
  destruct (grid !! Z.to_nat r) as [row|] eqn:Erow; simpl.
  - destruct (Z.ltb_spec c 0) as [Hc|Hc].
    { left. by apply arr_get_neg. }
    rewrite <- (Z2Nat.id c Hc), arr_get_of_nat.
    destruct (row !! Z.to_nat c) as [v|] eqn:Ev; simpl; [|by left].
    right. exists row. split; by eapply list_elem_of_lookup_2.
  - left. unfold arr_get. destruct (c <? 0)%Z; [done|]. by rewrite lookup_nil.
Qed.

(** The maximum that [tick] compares with a threshold exceeds it exactly
    when some cell of the grid does (for a threshold that is not negative:
    the maximum of the source starts at 0). *)
Lemma maxOfGrid_above (grid : list (list Q)) (thr : Q) :
  0 <= thr →
  Qltb thr (SimEngine.maxOfGrid grid) = true ↔ ∃ r c, thr < grid_get 0 grid r c.
Proof.
  intros Hthr. rewrite Qltb_lt.
  destruct (maxOfGrid_from_spec grid 0) as (H0 & Hall & Hin). simpl in *.
  fold (SimEngine.maxOfGrid grid) in *.
  split.
  - intros Hlt. destruct Hin as [Heq|(row & Hrow & Hmax)]; [rewrite Heq in Hlt; lra|].
    destruct (grid_get_elem_of grid row _ Hrow Hmax) as (r & c & Hrc).
    exists r, c. by rewrite Hrc.
  - intros (r & c & Hrc).
    destruct (grid_get_cases grid r c) as [Hz|(row & Hrow & Hcell)]; [rewrite Hz in Hrc; lra|].
    specialize (Hall row _ Hrow Hcell). lra.
Qed.

Section Thresholds.
Context (Math : JsMath).

Lemma computeDensityGrid_ext s s' :
  SimEngine.layout s' = SimEngine.layout s →
  SimEngine.cfg s' = SimEngine.cfg s →
  SimEngine.agents s' = SimEngine.agents s →
  SimEngine.computeDensityGrid s' = SimEngine.computeDensityGrid s.
Proof. unfold SimEngine.computeDensityGrid. by intros -> -> ->. Qed.

Lemma tickMetrics_fields dt s :
  let maxDensity := SimEngine.maxOfGrid (SimEngine.computeDensityGrid s) in
  SimEngine.layout (SimEngine.tickMetrics dt s) = SimEngine.layout s
  ∧ SimEngine.cfg (SimEngine.tickMetrics dt s) = SimEngine.cfg s
  ∧ SimEngine.agents (SimEngine.tickMetrics dt s) = SimEngine.agents s
  ∧ SimEngine.timeAboveWarning (SimEngine.tickMetrics dt s)
    = (if Qltb (SimConfig.densityWarning (SimEngine.cfg s)) maxDensity
       then SimEngine.timeAboveWarning s + dt else SimEngine.timeAboveWarning s)
  ∧ SimEngine.timeAboveDanger (SimEngine.tickMetrics dt s)
    = (if Qltb (SimConfig.densityDanger (SimEngine.cfg s)) maxDensity
       then SimEngine.timeAboveDanger s + dt else SimEngine.timeAboveDanger s).
Proof.
  intros maxDensity. unfold SimEngine.tickMetrics. fold maxDensity.
  generalize maxDensity. clear maxDensity. intros m. cbv zeta.
  destruct (Qltb (SimEngine.peakDensity s) m);
    engine_cbn;
    destruct (Qltb (SimConfig.densityWarning (SimEngine.cfg s)) m);
    engine_cbn;
    destruct (Qltb (SimConfig.densityDanger (SimEngine.cfg s)) m);
    engine_cbn; repeat split; reflexivity.
Qed.

(** C9, as the code has it.  A tick that runs adds the (clamped) step to
    [timeAboveWarning] when some cell of the density grid is strictly above
    the warning threshold, and leaves it unchanged otherwise; the same holds
    for [timeAboveDanger] and the danger threshold.  The density grid is the
    one of the state the tick leaves; the thresholds are not negative. *)
Theorem tick_threshold_time (dt : Q) (s s' : SimEngine.t) (w w' : Ambient) :
  SimEngine.isRunning s = true →
  SimEngine.tick Math dt s w = Some (s', w') →
  0 <= SimConfig.densityWarning (SimEngine.cfg s) →
  0 <= SimConfig.densityDanger (SimEngine.cfg s) →
  let step := Math_min dt 0.05 in
  let grid := SimEngine.computeDensityGrid s' in
  let above (thr : Q) := ∃ r c, thr < grid_get 0 grid r c in
  (above (SimConfig.densityWarning (SimEngine.cfg s)) →
     SimEngine.timeAboveWarning s' = SimEngine.timeAboveWarning s + step)
  ∧ (¬ above (SimConfig.densityWarning (SimEngine.cfg s)) →
     SimEngine.timeAboveWarning s' = SimEngine.timeAboveWarning s)
  ∧ (above (SimConfig.densityDanger (SimEngine.cfg s)) →
     SimEngine.timeAboveDanger s' = SimEngine.timeAboveDanger s + step)
  ∧ (¬ above (SimConfig.densityDanger (SimEngine.cfg s)) →
     SimEngine.timeAboveDanger s' = SimEngine.timeAboveDanger s).
Proof.
  intros Hrun Htick Hw Hd step grid above.
  destruct (tick_running Math dt s w s' w' Hrun Htick) as (s3 & w3 & s4 & H3 & H4 & Hs').
  fold step in H3, H4, Hs'.
  set (s5 := SimEngine.tickCrowd Math step s4) in *.
  (* the fields the earlier phases leave alone *)
  assert (SimEngine.cfg s5 = SimEngine.cfg s
          ∧ SimEngine.timeAboveWarning s5 = SimEngine.timeAboveWarning s
          ∧ SimEngine.timeAboveDanger s5 = SimEngine.timeAboveDanger s) as (Hcfg & Htaw & Htad).
  { pose proof (tickCrowd_frame Math step s4) as F5. fold s5 in F5.
    pose proof (spawnAgents_frame Math _ _ _ _ _ H4) as F4.
    pose proof (tickFirefighters_frame Math _ _ _ _ _ H3) as F3.
    pose proof (tickHazards_frame step (SimEngine.tickAlarm Math s)) as F2.
    pose proof (tickAlarm_frame Math s) as F1.
    unfold frame_of_crowd in F5. unfold frame_of_spawn in F4.
    unfold frame_of_firefighters in F3. unfold frame_of_hazards in F2.
    unfold frame_of_evacuation in F1.
    injection F5; injection F4; injection F3; injection F2; injection F1. intros.
    repeat split; congruence. }
  destruct (tickMetrics_fields step s5) as (Hl6 & Hc6 & Ha6 & Hw6 & Hd6).
  assert (grid = SimEngine.computeDensityGrid s5) as Hgrid.
  { subst grid. rewrite Hs'. by apply computeDensityGrid_ext. }
  assert (SimEngine.timeAboveWarning s'
          = if Qltb (SimConfig.densityWarning (SimEngine.cfg s)) (SimEngine.maxOfGrid grid)
            then SimEngine.timeAboveWarning s + step else SimEngine.timeAboveWarning s) as Hwarn.
  { rewrite Hs', Hgrid, <- Hcfg, <- Htaw. exact Hw6. }
  assert (SimEngine.timeAboveDanger s'
          = if Qltb (SimConfig.densityDanger (SimEngine.cfg s)) (SimEngine.maxOfGrid grid)
            then SimEngine.timeAboveDanger s + step else SimEngine.timeAboveDanger s) as Hdang.
  { rewrite Hs', Hgrid, <- Hcfg, <- Htad. exact Hd6. }
  pose proof (maxOfGrid_above grid _ Hw) as Hwa.
  pose proof (maxOfGrid_above grid _ Hd) as Hda.
  fold (above (SimConfig.densityWarning (SimEngine.cfg s))) in Hwa.
  fold (above (SimConfig.densityDanger (SimEngine.cfg s))) in Hda.
  repeat split.
  - intros Ha. apply Hwa in Ha. by rewrite Hwarn, Ha.
  - intros Ha. rewrite Hwarn.
    destruct (Qltb (SimConfig.densityWarning (SimEngine.cfg s)) (SimEngine.maxOfGrid grid));
      [|done].
    exfalso. by apply Ha, Hwa.
  - intros Ha. apply Hda in Ha. by rewrite Hdang, Ha.
  - intros Ha. rewrite Hdang.
    destruct (Qltb (SimConfig.densityDanger (SimEngine.cfg s)) (SimEngine.maxOfGrid grid));
      [|done].
    exfalso. by apply Ha, Hda.
Qed.
End Thresholds.

(** The first tick of the room for one visitor: the visitor's cell holds one
    person per square metre, which is above the warning threshold of 0.5. *)
Lemma tick_threshold_time_witness :
  ∃ s' w',
    SimEngine.isRunning alertEngine = true
    ∧ SimEngine.tick approxMath 0.05 alertEngine (tapeOf middleDraws) = Some (s', w')
    ∧ 0 <= SimConfig.densityWarning (SimEngine.cfg alertEngine)
    ∧ 0 <= SimConfig.densityDanger (SimEngine.cfg alertEngine)
    ∧ SimEngine.timeAboveWarning s' = SimEngine.timeAboveWarning alertEngine + Math_min 0.05 0.05.
Proof.
  destruct (SimEngine.tick approxMath 0.05 alertEngine (tapeOf middleDraws))
    as [[s' w']|] eqn:Htick; [|vm_compute in Htick; discriminate].
  exists s', w'.
  assert (0 <= SimConfig.densityWarning (SimEngine.cfg alertEngine)) as Hw
    by (vm_compute; discriminate).
  assert (0 <= SimConfig.densityDanger (SimEngine.cfg alertEngine)) as Hd
    by (vm_compute; discriminate).
  split; [reflexivity|]. split; [reflexivity|]. split; [exact Hw|]. split; [exact Hd|].
  destruct (tick_threshold_time approxMath 0.05 alertEngine s' (tapeOf middleDraws) w'
              eq_refl Htick Hw Hd) as (Habove & _).
  apply Habove. exists 2%Z, 0%Z.
  vm_compute in Htick. injection Htick as <- _. vm_compute. reflexivity.
Defined.

(** C9 as stated fails when a cell is exactly at a threshold.  After the
    first tick of the room for one visitor the visitor's cell holds exactly
    one person per square metre, the danger threshold, and [timeAboveDanger]
    has not moved. *)
Lemma tick_at_threshold_not_counted :
  ∃ s' w',
    SimEngine.tick approxMath 0.05 alertEngine (tapeOf middleDraws) = Some (s', w')
    ∧ grid_get 0 (SimEngine.computeDensityGrid s') 2 0 = 1
    ∧ SimConfig.densityDanger (SimEngine.cfg alertEngine) = 1
    ∧ SimEngine.timeAboveDanger alertEngine = 0
    ∧ SimEngine.timeAboveDanger s' = 0.
Proof.
  destruct (SimEngine.tick approxMath 0.05 alertEngine (tapeOf middleDraws))
    as [[s' w']|] eqn:Htick; [|vm_compute in Htick; discriminate].
  exists s', w'. split; [reflexivity|].
  vm_compute in Htick. injection Htick as <- _.
  repeat split; vm_compute; reflexivity.
Qed.

(** ** The sweep runner *)

Lemma sweepValuesFrom_spec fuel n maxN step values :
  sweepValuesFrom fuel n maxN step = Some values →
  ∀ k v, values !! k = Some v →
    v == n + inject_Z (Z.of_nat k) * step ∧ v <= maxN.
Proof.
  revert n values. induction fuel as [|fuel IH]; simpl; intros n values H; [done|].
  destruct (Qleb n maxN) eqn:E; [|injection H as <-; intros k v Hk; by rewrite lookup_nil in Hk].
  apply Qleb_le in E.
  destruct (sweepValuesFrom fuel (n + step) maxN step) as [rest|] eqn:Hrest; [|done].
  injection H as <-. intros [|k] v Hk; simpl in Hk.
  - injection Hk as <-. split; [|done]. simpl. ring.
  - destruct (IH _ _ Hrest k v Hk) as [Hv Hle]. split; [|done].
    rewrite Hv, Nat2Z.inj_succ. unfold Z.succ. rewrite inject_Z_plus. ring.
Qed.

Section SweepRunner.
Context (Math : JsMath).

Lemma sweepAll_spec layout baseCfg values w results w' :
  sweepAll Math layout baseCfg values w = Some (results, w') →
  Forall2 (λ n r, ∃ engine w1 w2,
             sweepRun Math layout baseCfg n w1 = Some (engine, w2)
             ∧ r = sweepRecord baseCfg n engine)
    values results.
Proof.
  revert w results w'. induction values as [|n values IH]; simpl; intros w results w' H.
  - apply amb_ret_Some in H as [<- _]. constructor.
  - apply amb_bind_Some in H as (engine & w1 & Hrun & H).
    apply amb_bind_Some in H as (rest & w2 & Hrest & H).
    apply amb_ret_Some in H as [<- _].
    constructor; [|by eapply IH]. by exists engine, w, w1.
Qed.

(** C5.  The sweep visits the populations [sweepMinN + k · sweepStep] up to
    [sweepMaxN], in order.  The record of each is taken from the engine at
    the end of its run: the peak density, the 95th percentile of the egress
    times in minutes, and the share of the simulated time spent above the
    warning density in percent; and [passed] holds exactly when the peak is
    at most [densityDanger], the percentile at most the egress limit and the
    share at most the warning-time limit. *)
Theorem runSweep_passed (layout : VenueLayout.t) (baseCfg : SimConfig.t)
    (w w' : Ambient) (results : list SweepResult.t) :
  runSweep Math layout baseCfg w = Some (results, w') →
  (∀ k r, results !! k = Some r →
     SweepResult.N r == SimConfig.sweepMinN baseCfg
                        + inject_Z (Z.of_nat k) * SimConfig.sweepStep baseCfg
     ∧ SweepResult.N r <= SimConfig.sweepMaxN baseCfg)
  ∧ Forall (λ r,
      (∃ engine w1 w2,
         sweepRun Math layout baseCfg (SweepResult.N r) w1 = Some (engine, w2)
         ∧ SweepResult.peakDensity r = SimEngine.peakDensity engine
         ∧ SweepResult.p95EgressTime r
           = percentile (sort_numbers (SimEngine.egressTimes engine)) 95 / 60
         ∧ (0 < SimEngine.simTime engine →
            SweepResult.timeAboveWarningPct r
            = SimEngine.timeAboveWarning engine / SimEngine.simTime engine * 100))
      ∧ (SweepResult.passed r = true ↔
           SweepResult.peakDensity r <= SimConfig.densityDanger baseCfg
           ∧ SweepResult.p95EgressTime r <= SimConfig.egresTimeLimitMin baseCfg
           ∧ SweepResult.timeAboveWarningPct r <= SimConfig.warningTimeLimitPct baseCfg))
    results.
Proof.
  unfold runSweep. intros H.
  destruct (sweepValues baseCfg) as [values|] eqn:Hvalues; [|done].
  apply sweepAll_spec in H.
  split.
  - intros k r Hr.
    destruct (Forall2_lookup_r _ _ _ _ _ H Hr) as (n & Hn & engine & w1 & w2 & _ & ->).
    simpl. unfold sweepValues in Hvalues.
    exact (sweepValuesFrom_spec _ _ _ _ _ Hvalues k n Hn).
  - apply Forall_forall. intros r Hr.
    apply list_elem_of_lookup in Hr as [k Hr].
    destruct (Forall2_lookup_r _ _ _ _ _ H Hr) as (n & Hn & engine & w1 & w2 & Hrun & ->).
    split.
    + exists engine, w1, w2. simpl. split; [done|]. split; [done|]. split; [done|].
      intros Hpos. unfold timeAboveWarningPct.
      apply Qltb_lt in Hpos. by rewrite Hpos.
    + simpl. rewrite !andb_true_iff. unfold Qleb. rewrite !Qle_bool_iff. tauto.
Qed.
End SweepRunner.

(** The sweep of the room with the short base configuration: one run, for
    one visitor, which does not pass (all of its time is spent above the
    warning density). *)
Lemma runSweep_passed_witness :
  ∃ results w',
    runSweep approxMath roomLayout shortSweepConfig (tapeOf middleDraws)
    = Some (results, w')
    ∧ SweepResult.N <$> results = [1]
    ∧ Forall (λ r,
        SweepResult.passed r = true ↔
          SweepResult.peakDensity r <= SimConfig.densityDanger shortSweepConfig
          ∧ SweepResult.p95EgressTime r <= SimConfig.egresTimeLimitMin shortSweepConfig
          ∧ SweepResult.timeAboveWarningPct r
            <= SimConfig.warningTimeLimitPct shortSweepConfig)
        results.
Proof.
  destruct (runSweep approxMath roomLayout shortSweepConfig (tapeOf middleDraws))
    as [[results w']|] eqn:Hrun; [|vm_compute in Hrun; discriminate].
  exists results, w'. split; [reflexivity|].
  split; [vm_compute in Hrun; injection Hrun as <- _; reflexivity|].
  destruct (runSweep_passed approxMath roomLayout shortSweepConfig
              (tapeOf middleDraws) w' results Hrun) as [_ Hall].
  eapply Forall_impl; [exact Hall|]. intros r [_ Hr]. exact Hr.
Defined.
